(** * Multi-timeframe pullback strategy: backtest / live parity

    A shallow embedding of [strategy.py], [backtest.py],
    [live_trader.py] and [compare_trades.py].  Prices are Python floats, i.e. IEEE-754 binary64
    numbers, modelled by Rocq's primitive floats; counters and timestamps
    are Python integers, modelled by [Z]. *)

From Stdlib Require Import ZArith List Bool String Floats Lia ZifyNat Sorted.
Import ListNotations.

Local Open Scope Z_scope.

(** ** Python values shared by the three files *)

(** The exceptions that the modelled code can raise. *)
Inductive Exn : Set :=
| IndexError
| ZeroDivisionError
| BinanceAPIException
| FetchError.

(** The outcome of an expression that may raise. *)
Inductive Res (A : Type) : Type :=
| Ok (a : A)
| Raise (e : Exn).
Arguments Ok {A} a.
Arguments Raise {A} e.

(** [len(l)]. *)
Definition len {A : Type} (l : list A) : Z := Z.of_nat (List.length l).

(** [l[i]]: a negative index counts from the end, an index out of range
    raises [IndexError]. *)
Definition getitem {A : Type} (l : list A) (i : Z) : Res A :=
  let j := if i <? 0 then i + len l else i in
  if (0 <=? j) && (j <? len l) then
    match nth_error l (Z.to_nat j) with
    | Some x => Ok x
    | None => Raise IndexError
    end
  else Raise IndexError.

(** [a / b] on floats: a zero divisor (of either sign) raises. *)
Definition truediv (a b : float) : Res float :=
  if PrimFloat.eqb b 0%float then Raise ZeroDivisionError
  else Ok (PrimFloat.div a b).

(** [x is not None]. *)
Definition is_not_None {A : Type} (x : option A) : bool :=
  match x with
  | Some _ => true
  | None => false
  end.

(** ** strategy.py *)

Inductive Signal : Set := BUY | SELL | HOLD.

Record Candle : Set := { open : float; close : float }.

(** [close > open]. *)
Definition is_green (self : Candle) : bool :=
  PrimFloat.ltb (open self) (close self).

(** [close < open]. *)
Definition is_red (self : Candle) : bool :=
  PrimFloat.ltb (close self) (open self).

Definition body (self : Candle) : float :=
  PrimFloat.sub (close self) (open self).

(** A [PullbackStrategy] instance: the class declares no attribute. *)
Record PullbackStrategy : Set := mkPullbackStrategy { }.

(** A method body runs against the objects it can reach; it may change
    them and may raise.  Changes made before an exception persist. *)
Definition M (S A : Type) : Type := S -> Res A * S.

Definition ret {S A : Type} (a : A) : M S A := fun s => (Ok a, s).

Definition bind {S A B : Type} (m : M S A) (k : A -> M S B) : M S B :=
  fun s =>
    match m s with
    | (Ok a, s') => k a s'
    | (Raise e, s') => (Raise e, s')
    end.

(** Reading an expression of the reachable objects. *)
Definition read {S A : Type} (f : S -> Res A) : M S A := fun s => (f s, s).

Declare Scope method_scope.
Delimit Scope method_scope with method.
Notation "x <- m ;; k" := (bind m (fun x => k))
  (at level 61, m at next level, right associativity) : method_scope.

(** The objects [generate_signal] receives by reference: the strategy
    instance and the two candle lists (Python lists are mutable and
    shared with the caller). *)
Record Objs : Set := {
  self_obj : PullbackStrategy;
  ltf_obj : list Candle;
  htf_obj : list Candle
}.

(** [PullbackStrategy.generate_signal] (strategy.py, lines 58-100). *)
Definition generate_signal (position_open : bool) : M Objs Signal :=
  (n_ltf <- read (fun o => Ok (len (ltf_obj o))) ;;
   n_htf <- read (fun o => Ok (len (htf_obj o))) ;;
   if (n_ltf <? 2) || (n_htf <? 1) then ret HOLD
   else
     current_ltf <- read (fun o => getitem (ltf_obj o) (-1)) ;;
     previous_ltf <- read (fun o => getitem (ltf_obj o) (-2)) ;;
     current_htf <- read (fun o => getitem (htf_obj o) (-1)) ;;
     if negb (is_green current_htf) then ret HOLD
     else
       let exit_logic : M Objs Signal :=
         if position_open then
           if is_red current_ltf then ret SELL else ret HOLD
         else ret HOLD in
       if negb position_open then
         if is_red previous_ltf && is_green current_ltf then ret BUY
         else exit_logic
       else exit_logic)%method.

(** A call [strategy.generate_signal(ltf_candles, htf_candles,
    position_open)]: the returned signal (or exception) together with
    the three objects as the call leaves them. *)
Definition call_generate_signal (strategy : PullbackStrategy)
    (ltf_candles htf_candles : list Candle) (position_open : bool)
    : Res Signal * Objs :=
  generate_signal position_open
    {| self_obj := strategy; ltf_obj := ltf_candles; htf_obj := htf_candles |}.

(** ** Records shared by the two drivers *)

(** One row of the price data: timestamp (seconds), open and close. *)
Record Bar : Set := { index : Z; Open : float; Close : float }.

Definition candle_of (b : Bar) : Candle :=
  {| open := Open b; close := Close b |}.

(** The exit keys that [current_trade.update] adds to the trade dict. *)
Record Exit : Set := {
  exit_time : Z;
  exit_price : float;
  exit_candle : Z;
  exit_htf : Z
}.

(** The trade dict: the six entry keys, and the exit keys once set. *)
Record Trade : Set := {
  symbol : string;
  direction : string;
  entry_time : Z;
  entry_price : float;
  entry_candle : Z;
  entry_htf : Z;
  exit_keys : option Exit
}.

(** [trade.update({exit_time: ..., ...})]. *)
Definition update_exit (t : Trade) (e : Exit) : Trade :=
  {| symbol := symbol t; direction := direction t;
     entry_time := entry_time t; entry_price := entry_price t;
     entry_candle := entry_candle t; entry_htf := entry_htf t;
     exit_keys := Some e |}.

(** The dict a driver creates when it opens the position. *)
Definition open_trade (sym : string) (time : Z) (price : float)
    (candle htf : Z) : Trade :=
  {| symbol := sym; direction := "LONG";
     entry_time := time; entry_price := price;
     entry_candle := candle; entry_htf := htf;
     exit_keys := None |}.

Inductive Side : Set := Buy | Sell.

(** What one tick did: the HTF candle completed by the aggregation, the
    signal returned by [generate_signal] when it was called, the order
    call made, and the exception that ended the tick. *)
Record Output : Set := {
  out_completed : option Candle;
  out_signal : option Signal;
  out_order : option Side;
  out_raised : option Exn
}.

Definition option_list {A : Type} (x : option A) : list A :=
  match x with
  | Some a => [a]
  | None => []
  end.

(** The signals generated, and the HTF candles completed, over a run. *)
Definition signals_of (outs : list Output) : list Signal :=
  flat_map (fun o => option_list (out_signal o)) outs.

Definition completed_of (outs : list Output) : list Candle :=
  flat_map (fun o => option_list (out_completed o)) outs.

(** ** backtest.py *)

Module Backtest.

(** The attributes that [init] gives the adapter. *)
Record PullbackBacktestAdapter : Set := {
  strategy : PullbackStrategy;
  ltf_candles : list Candle;
  htf_candles : list Candle;
  _htf_bucket : list Candle;
  _htf_pending : option Candle;
  _htf_available_next : bool;
  current_trade : option Trade;
  trades_log : list Trade;
  candle_count : Z;
  htf_count : Z
}.

(** [init] (lines 20-42). *)
Definition init : PullbackBacktestAdapter :=
  {| strategy := mkPullbackStrategy;
     ltf_candles := [];
     htf_candles := [];
     _htf_bucket := [];
     _htf_pending := None;
     _htf_available_next := false;
     current_trade := None;
     trades_log := [];
     candle_count := 0;
     htf_count := 0 |}.

(** [self.candle_count += 1] (line 56). *)
Definition count_candle (self : PullbackBacktestAdapter)
    : PullbackBacktestAdapter :=
  {| strategy := strategy self;
     ltf_candles := ltf_candles self;
     htf_candles := htf_candles self;
     _htf_bucket := _htf_bucket self;
     _htf_pending := _htf_pending self;
     _htf_available_next := _htf_available_next self;
     current_trade := current_trade self;
     trades_log := trades_log self;
     candle_count := candle_count self + 1;
     htf_count := htf_count self |}.

(** Lines 59-66: an HTF candle completed on the previous tick becomes
    available now. *)
Definition promote_pending (self : PullbackBacktestAdapter)
    : PullbackBacktestAdapter :=
  if _htf_available_next self then
    match _htf_pending self with
    | Some pending =>
        {| strategy := strategy self;
           ltf_candles := ltf_candles self;
           htf_candles := htf_candles self ++ [pending];
           _htf_bucket := _htf_bucket self;
           _htf_pending := None;
           _htf_available_next := false;
           current_trade := current_trade self;
           trades_log := trades_log self;
           candle_count := candle_count self;
           htf_count := htf_count self + 1 |}
    | None => self
    end
  else self.

(** Lines 73-76: the two [append]s of the new LTF candle. *)
Definition store_candle (self : PullbackBacktestAdapter)
    (ltf_candle : Candle) : PullbackBacktestAdapter :=
  {| strategy := strategy self;
     ltf_candles := ltf_candles self ++ [ltf_candle];
     htf_candles := htf_candles self;
     _htf_bucket := _htf_bucket self ++ [ltf_candle];
     _htf_pending := _htf_pending self;
     _htf_available_next := _htf_available_next self;
     current_trade := current_trade self;
     trades_log := trades_log self;
     candle_count := candle_count self;
     htf_count := htf_count self |}.

(** Lines 86-88: the completed HTF candle is kept as pending and the
    bucket is cleared. *)
Definition set_pending (self : PullbackBacktestAdapter)
    (htf_candle : Candle) : PullbackBacktestAdapter :=
  {| strategy := strategy self;
     ltf_candles := ltf_candles self;
     htf_candles := htf_candles self;
     _htf_bucket := [];
     _htf_pending := Some htf_candle;
     _htf_available_next := true;
     current_trade := current_trade self;
     trades_log := trades_log self;
     candle_count := candle_count self;
     htf_count := htf_count self |}.

(** Lines 78-88: five LTF candles make one HTF candle. *)
Definition aggregate (self : PullbackBacktestAdapter)
    : PullbackBacktestAdapter * Res (option Candle) :=
  if len (_htf_bucket self) =? 5 then
    match getitem (_htf_bucket self) 0 with
    | Raise e => (self, Raise e)
    | Ok first =>
        match getitem (_htf_bucket self) (-1) with
        | Raise e => (self, Raise e)
        | Ok last =>
            let htf_candle :=
              {| open := open first; close := close last |} in
            (set_pending self htf_candle, Ok (Some htf_candle))
        end
    end
  else (self, Ok None).

(** Lines 95-99: the call of the strategy on the adapter's own lists. *)
Definition call_strategy (self : PullbackBacktestAdapter)
    : PullbackBacktestAdapter * Res Signal :=
  let '(r, o) :=
    call_generate_signal (strategy self) (ltf_candles self)
      (htf_candles self) (is_not_None (current_trade self)) in
  ({| strategy := self_obj o;
      ltf_candles := ltf_obj o;
      htf_candles := htf_obj o;
      _htf_bucket := _htf_bucket self;
      _htf_pending := _htf_pending self;
      _htf_available_next := _htf_available_next self;
      current_trade := current_trade self;
      trades_log := trades_log self;
      candle_count := candle_count self;
      htf_count := htf_count self |}, r).

Definition set_trade (self : PullbackBacktestAdapter)
    (trade : option Trade) (log : list Trade) : PullbackBacktestAdapter :=
  {| strategy := strategy self;
     ltf_candles := ltf_candles self;
     htf_candles := htf_candles self;
     _htf_bucket := _htf_bucket self;
     _htf_pending := _htf_pending self;
     _htf_available_next := _htf_available_next self;
     current_trade := trade;
     trades_log := log;
     candle_count := candle_count self;
     htf_count := htf_count self |}.

(** Lines 105-135: the position is opened on BUY and closed on SELL. *)
Definition execute_orders (self : PullbackBacktestAdapter)
    (signal : Signal) (timestamp : Z) (price : float)
    : PullbackBacktestAdapter * option Side :=
  match signal with
  | BUY =>
      match current_trade self with
      | Some _ => (self, None)
      | None =>
          (set_trade self
             (Some (open_trade "BTCUSDT" timestamp price
                      (candle_count self) (htf_count self)))
             (trades_log self),
           Some Buy)
      end
  | SELL =>
      match current_trade self with
      | None => (self, None)
      | Some trade =>
          let trade :=
            update_exit trade
              {| exit_time := timestamp;
                 exit_price := price;
                 exit_candle := candle_count self;
                 exit_htf := htf_count self |} in
          (set_trade self None (trades_log self ++ [trade]), Some Sell)
      end
  | HOLD => (self, None)
  end.

(** Lines 56-88: count the candle, promote the pending HTF candle,
    store the new LTF candle and aggregate. *)
Definition prepare (self : PullbackBacktestAdapter) (data : Bar)
    : PullbackBacktestAdapter * Res (option Candle) :=
  let self := count_candle self in
  let self := promote_pending self in
  let ltf_candle := {| open := Open data; close := Close data |} in
  let self := store_candle self ltf_candle in
  aggregate self.

(** Lines 91-135: the minimum-data test, the signal and the orders. *)
Definition decide (self : PullbackBacktestAdapter)
    (completed : option Candle) (timestamp : Z) (price : float)
    : PullbackBacktestAdapter * Output :=
  if (len (ltf_candles self) <? 2) || (len (htf_candles self) <? 1)
  then
    (self, {| out_completed := completed; out_signal := None;
              out_order := None; out_raised := None |})
  else
    match call_strategy self with
    | (self, Raise e) =>
        (self, {| out_completed := completed; out_signal := None;
                  out_order := None; out_raised := Some e |})
    | (self, Ok signal) =>
        let '(self, order) :=
          execute_orders self signal timestamp price in
        (self, {| out_completed := completed;
                  out_signal := Some signal;
                  out_order := order; out_raised := None |})
    end.

(** [next] (lines 45-135), called with the row [self.data] ends with. *)
Definition next (self : PullbackBacktestAdapter) (data : Bar)
    : PullbackBacktestAdapter * Output :=
  let timestamp := index data in
  match prepare self data with
  | (self, Raise e) =>
      (self, {| out_completed := None; out_signal := None;
                out_order := None; out_raised := Some e |})
  | (self, Ok completed) =>
      let price := Close data in
      decide self completed timestamp price
  end.

(** The replay: the harness (backtesting.py, not part of the repository)
    is taken to call [next] once for every row it is given, in order.  An
    exception aborts the run. *)
Fixpoint run (self : PullbackBacktestAdapter) (bars : list Bar)
    : PullbackBacktestAdapter * list Output :=
  match bars with
  | [] => (self, [])
  | data :: rest =>
      let '(self, o) := next self data in
      match out_raised o with
      | Some _ => (self, [o])
      | None =>
          let '(self, os) := run self rest in
          (self, o :: os)
      end
  end.

End Backtest.

(** ** live_trader.py *)

Module Live.

(** The attributes that [__init__] gives the trader.  [trade_file] and
    [candle_file] hold the rows written so far to live_trades.csv and
    live_candles.csv. *)
Record LiveTrader : Set := {
  symbol : string;
  strategy : PullbackStrategy;
  ltf_candles : list Candle;
  htf_candles : list Candle;
  _htf_bucket : list Candle;
  _htf_pending : option Candle;
  _htf_available_next : bool;
  _alignment_complete : bool;
  last_candle_ts : option Z;
  current_trade : option Trade;
  candle_count : Z;
  htf_count : Z;
  trade_file : list Trade;
  candle_file : list Bar
}.

(** [__init__] (lines 24-71). *)
Definition init (symbol : string) : LiveTrader :=
  {| symbol := symbol;
     strategy := mkPullbackStrategy;
     ltf_candles := [];
     htf_candles := [];
     _htf_bucket := [];
     _htf_pending := None;
     _htf_available_next := false;
     _alignment_complete := false;
     last_candle_ts := None;
     current_trade := None;
     candle_count := 0;
     htf_count := 0;
     trade_file := [];
     candle_file := [] |}.

(** Lines 205-215: an HTF candle completed on the previous tick
    becomes available now. *)
Definition promote_pending (self : LiveTrader) : LiveTrader :=
  if _htf_available_next self then
    match _htf_pending self with
    | Some pending =>
        {| symbol := symbol self;
           strategy := strategy self;
           ltf_candles := ltf_candles self;
           htf_candles := htf_candles self ++ [pending];
           _htf_bucket := _htf_bucket self;
           _htf_pending := None;
           _htf_available_next := false;
           _alignment_complete := _alignment_complete self;
           last_candle_ts := last_candle_ts self;
           current_trade := current_trade self;
           candle_count := candle_count self;
           htf_count := htf_count self + 1;
           trade_file := trade_file self;
           candle_file := candle_file self |}
    | None => self
    end
  else self.

(** Lines 217-234: the candle is counted, stored, written to
    live_candles.csv and put in the bucket. *)
Definition store_candle (self : LiveTrader) (candle_ltf : Candle)
    (ts : Z) : LiveTrader :=
  {| symbol := symbol self;
     strategy := strategy self;
     ltf_candles := ltf_candles self ++ [candle_ltf];
     htf_candles := htf_candles self;
     _htf_bucket := _htf_bucket self ++ [candle_ltf];
     _htf_pending := _htf_pending self;
     _htf_available_next := _htf_available_next self;
     _alignment_complete := _alignment_complete self;
     last_candle_ts := last_candle_ts self;
     current_trade := current_trade self;
     candle_count := candle_count self + 1;
     htf_count := htf_count self;
     trade_file := trade_file self;
     candle_file :=
       candle_file self
       ++ [{| index := ts; Open := open candle_ltf;
              Close := close candle_ltf |}] |}.

(** Lines 244-246. *)
Definition set_pending (self : LiveTrader) (htf_candle : Candle)
    : LiveTrader :=
  {| symbol := symbol self;
     strategy := strategy self;
     ltf_candles := ltf_candles self;
     htf_candles := htf_candles self;
     _htf_bucket := [];
     _htf_pending := Some htf_candle;
     _htf_available_next := true;
     _alignment_complete := _alignment_complete self;
     last_candle_ts := last_candle_ts self;
     current_trade := current_trade self;
     candle_count := candle_count self;
     htf_count := htf_count self;
     trade_file := trade_file self;
     candle_file := candle_file self |}.

(** Lines 236-250: five LTF candles make one HTF candle. *)
Definition aggregate (self : LiveTrader)
    : LiveTrader * Res (option Candle) :=
  if len (_htf_bucket self) =? 5 then
    match getitem (_htf_bucket self) 0 with
    | Raise e => (self, Raise e)
    | Ok first =>
        match getitem (_htf_bucket self) (-1) with
        | Raise e => (self, Raise e)
        | Ok last =>
            let htf_candle :=
              {| open := open first; close := close last |} in
            (set_pending self htf_candle, Ok (Some htf_candle))
        end
    end
  else (self, Ok None).

(** Lines 260-264: the call of the strategy on the trader's own
    lists. *)
Definition call_strategy (self : LiveTrader) : LiveTrader * Res Signal :=
  let '(r, o) :=
    call_generate_signal (strategy self) (ltf_candles self)
      (htf_candles self) (is_not_None (current_trade self)) in
  ({| symbol := symbol self;
      strategy := self_obj o;
      ltf_candles := ltf_obj o;
      htf_candles := htf_obj o;
      _htf_bucket := _htf_bucket self;
      _htf_pending := _htf_pending self;
      _htf_available_next := _htf_available_next self;
      _alignment_complete := _alignment_complete self;
      last_candle_ts := last_candle_ts self;
      current_trade := current_trade self;
      candle_count := candle_count self;
      htf_count := htf_count self;
      trade_file := trade_file self;
      candle_file := candle_file self |}, r).

Definition set_trade (self : LiveTrader) (trade : option Trade)
    (rows : list Trade) : LiveTrader :=
  {| symbol := symbol self;
     strategy := strategy self;
     ltf_candles := ltf_candles self;
     htf_candles := htf_candles self;
     _htf_bucket := _htf_bucket self;
     _htf_pending := _htf_pending self;
     _htf_available_next := _htf_available_next self;
     _alignment_complete := _alignment_complete self;
     last_candle_ts := last_candle_ts self;
     current_trade := trade;
     candle_count := candle_count self;
     htf_count := htf_count self;
     trade_file := rows;
     candle_file := candle_file self |}.

(** Lines 269-320.  [order_ok] tells whether the order call of this
    tick ([place_market_buy] or [place_market_sell]) returns; when it
    does not, it raises.  The profit percentage printed at the exit
    divides by the entry price, before the row is written and the
    position is reset. *)
Definition execute_orders (self : LiveTrader) (signal : Signal)
    (ts : Z) (price : float) (order_ok : bool)
    : LiveTrader * (option Side * option Exn) :=
  match signal, current_trade self with
  | BUY, None =>
      if order_ok then
        (set_trade self
           (Some (open_trade (symbol self) ts price
                    (candle_count self) (htf_count self)))
           (trade_file self),
         (Some Buy, None))
      else (self, (Some Buy, Some BinanceAPIException))
  | SELL, Some trade =>
      if order_ok then
        let trade :=
          update_exit trade
            {| exit_time := ts;
               exit_price := price;
               exit_candle := candle_count self;
               exit_htf := htf_count self |} in
        let self := set_trade self (Some trade) (trade_file self) in
        let pnl := PrimFloat.sub price (entry_price trade) in
        match truediv pnl (entry_price trade) with
        | Raise e => (self, (Some Sell, Some e))
        | Ok q =>
            let pnl_pct := PrimFloat.mul q 100%float in
            (set_trade self None (trade_file self ++ [trade]),
             (Some Sell, None))
        end
      else (self, (Some Sell, Some BinanceAPIException))
  | _, _ => (self, (None, None))
  end.

(** Lines 205-250: promote the pending HTF candle, store the new LTF
    candle and aggregate. *)
Definition prepare (self : LiveTrader) (candle_ltf : Candle) (ts : Z)
    : LiveTrader * Res (option Candle) :=
  let self := promote_pending self in
  let self := store_candle self candle_ltf ts in
  aggregate self.

(** Lines 252-320: the minimum-data test, the signal and the orders. *)
Definition decide (self : LiveTrader) (completed : option Candle)
    (ts : Z) (price : float) (order_ok : bool) : LiveTrader * Output :=
  if (len (ltf_candles self) <? 2) || (len (htf_candles self) <? 1)
  then
    (self, {| out_completed := completed; out_signal := None;
              out_order := None; out_raised := None |})
  else
    match call_strategy self with
    | (self, Raise e) =>
        (self, {| out_completed := completed; out_signal := None;
                  out_order := None; out_raised := Some e |})
    | (self, Ok signal) =>
        let '(self, (order, raised)) :=
          execute_orders self signal ts price order_ok in
        (self, {| out_completed := completed;
                  out_signal := Some signal;
                  out_order := order; out_raised := raised |})
    end.

(** Lines 205-320: what one loop iteration does with a new candle once
    the stream is aligned. *)
Definition tick (self : LiveTrader) (candle_ltf : Candle) (ts : Z)
    (order_ok : bool) : LiveTrader * Output :=
  match prepare self candle_ltf ts with
  | (self, Raise e) =>
      (self, {| out_completed := None; out_signal := None;
                out_order := None; out_raised := Some e |})
  | (self, Ok completed) =>
      let price := close candle_ltf in
      decide self completed ts price order_ok
  end.

(** [ts.minute] of a timestamp in seconds. *)
Definition minute (ts : Z) : Z := (ts / 60) mod 60.

Definition set_seen (self : LiveTrader) (ts : Z) (aligned : bool)
    : LiveTrader :=
  {| symbol := symbol self;
     strategy := strategy self;
     ltf_candles := ltf_candles self;
     htf_candles := htf_candles self;
     _htf_bucket := _htf_bucket self;
     _htf_pending := _htf_pending self;
     _htf_available_next := _htf_available_next self;
     _alignment_complete := aligned;
     last_candle_ts := Some ts;
     current_trade := current_trade self;
     candle_count := candle_count self;
     htf_count := htf_count self;
     trade_file := trade_file self;
     candle_file := candle_file self |}.

Definition idle : Output :=
  {| out_completed := None; out_signal := None;
     out_order := None; out_raised := None |}.

(** One iteration of the loop of [run] (lines 176-333): [fetched] is
    what [fetch_latest_closed_candle] returns or raises.  The handler
    of the loop catches every exception. *)
Definition iteration (self : LiveTrader) (fetched : Res (Candle * Z))
    (order_ok : bool) : LiveTrader * Output :=
  match fetched with
  | Raise e =>
      (self, {| out_completed := None; out_signal := None;
                out_order := None; out_raised := Some e |})
  | Ok (candle_ltf, ts) =>
      if match last_candle_ts self with
         | Some seen => ts =? seen
         | None => false
         end
      then (self, idle)
      else
        let self := set_seen self ts (_alignment_complete self) in
        if negb (_alignment_complete self) then
          let current_minute := minute ts in
          if current_minute mod 5 =? 0 then
            tick (set_seen self ts true) candle_ltf ts order_ok
          else (self, idle)
        else tick self candle_ltf ts order_ok
  end.

(** The trader without the bookkeeping of the polling loop. *)
Definition forget_loop (self : LiveTrader) : LiveTrader :=
  {| symbol := symbol self;
     strategy := strategy self;
     ltf_candles := ltf_candles self;
     htf_candles := htf_candles self;
     _htf_bucket := _htf_bucket self;
     _htf_pending := _htf_pending self;
     _htf_available_next := _htf_available_next self;
     _alignment_complete := false;
     last_candle_ts := None;
     current_trade := current_trade self;
     candle_count := candle_count self;
     htf_count := htf_count self;
     trade_file := trade_file self;
     candle_file := candle_file self |}.

(** The engine driven tick by tick: every bar is a new, aligned
    candle. *)
Fixpoint feed (self : LiveTrader) (ticks : list (Bar * bool))
    : LiveTrader * list Output :=
  match ticks with
  | [] => (self, [])
  | (b, order_ok) :: rest =>
      let '(self, o) := tick self (candle_of b) (index b) order_ok in
      let '(self, os) := feed self rest in
      (self, o :: os)
  end.

(** The loop of [run] over a finite sequence of polls. *)
Fixpoint run (self : LiveTrader) (polls : list (Res (Candle * Z) * bool))
    : LiveTrader * list Output :=
  match polls with
  | [] => (self, [])
  | (fetched, order_ok) :: rest =>
      let '(self, o) := iteration self fetched order_ok in
      let '(self, os) := run self rest in
      (self, o :: os)
  end.

End Live.

(** ** Reference model of the aggregation

    The HTF aggregator and the publication gate as the specification
    words them (sections 4.1 and 4.2): [promote] moves a pending HTF bar
    to the visible history, [push] appends the bar to the bucket and, at
    five bars, synthesizes the HTF bar from the first open and the last
    close, clears the bucket and keeps the bar as pending.  Both drivers
    are compared with this model. *)

Module Engine.

Record Aggregation : Set := {
  ltf_history : list Candle;
  visible_htf : list Candle;
  bucket : list Candle;
  pending : option Candle;
  available_next : bool
}.

Definition empty : Aggregation :=
  {| ltf_history := []; visible_htf := []; bucket := [];
     pending := None; available_next := false |}.

Definition promote (a : Aggregation) : Aggregation :=
  match available_next a, pending a with
  | true, Some p =>
      {| ltf_history := ltf_history a;
         visible_htf := visible_htf a ++ [p];
         bucket := bucket a;
         pending := None;
         available_next := false |}
  | _, _ => a
  end.

Definition push (a : Aggregation) (bar : Candle)
    : Aggregation * option Candle :=
  let acc := bucket a ++ [bar] in
  if (List.length acc =? 5)%nat then
    let h := {| open := open (hd bar acc); close := close bar |} in
    ({| ltf_history := ltf_history a ++ [bar];
        visible_htf := visible_htf a;
        bucket := [];
        pending := Some h;
        available_next := true |}, Some h)
  else
    ({| ltf_history := ltf_history a ++ [bar];
        visible_htf := visible_htf a;
        bucket := acc;
        pending := pending a;
        available_next := available_next a |}, None).

(** One tick: promote before push. *)
Definition step (a : Aggregation) (bar : Candle)
    : Aggregation * option Candle :=
  push (promote a) bar.

End Engine.

(** The aggregation held by each driver. *)
Definition backtest_aggregation (self : Backtest.PullbackBacktestAdapter)
    : Engine.Aggregation :=
  {| Engine.ltf_history := Backtest.ltf_candles self;
     Engine.visible_htf := Backtest.htf_candles self;
     Engine.bucket := Backtest._htf_bucket self;
     Engine.pending := Backtest._htf_pending self;
     Engine.available_next := Backtest._htf_available_next self |}.

Definition live_aggregation (self : Live.LiveTrader) : Engine.Aggregation :=
  {| Engine.ltf_history := Live.ltf_candles self;
     Engine.visible_htf := Live.htf_candles self;
     Engine.bucket := Live._htf_bucket self;
     Engine.pending := Live._htf_pending self;
     Engine.available_next := Live._htf_available_next self |}.

(** The HTF bars that a sequence of LTF candles completes: one for every
    full group of five, and the candles left over in the bucket. *)
Fixpoint htf_bars (cs : list Candle) : list Candle :=
  match cs with
  | c0 :: _ :: _ :: _ :: c4 :: rest =>
      {| open := open c0; close := close c4 |} :: htf_bars rest
  | _ => []
  end.

Fixpoint leftover (cs : list Candle) : list Candle :=
  match cs with
  | _ :: _ :: _ :: _ :: _ :: rest => leftover rest
  | _ => cs
  end.

(** The state of the aggregation once the candles [cs] have been fed. *)
Definition aggregation_after (cs : list Candle) (a : Engine.Aggregation)
    : Prop :=
  Engine.ltf_history a = cs /\
  Engine.bucket a = leftover cs /\
  Engine.visible_htf a ++ option_list (Engine.pending a) = htf_bars cs /\
  Engine.available_next a = is_not_None (Engine.pending a).

(** Prices that are not negative (and so are numbers). *)
Definition nonneg (p : float) : bool := PrimFloat.leb 0%float p.

(** Every order call of the live run returns. *)
Definition all_orders_ok (bars : list Bar) : list (Bar * bool) :=
  map (fun b => (b, true)) bars.

(** The bars that the duplicate filter and the alignment gate let
    through, as the specification words the two (sections 4.5 and 5): a
    poll that fails or repeats the last timestamp is skipped; until a bar
    falls on a multiple of five minutes every bar is dropped; from that
    bar on every new bar is accepted. *)
Fixpoint accepted (seen : option Z) (aligned : bool)
    (polls : list (Res (Candle * Z) * bool)) : list (Bar * bool) :=
  match polls with
  | [] => []
  | (Raise _, _) :: rest => accepted seen aligned rest
  | (Ok (c, ts), order_ok) :: rest =>
      if match seen with
         | Some last => ts =? last
         | None => false
         end
      then accepted seen aligned rest
      else if aligned || (Live.minute ts mod 5 =? 0) then
        ({| index := ts; Open := open c; Close := close c |}, order_ok)
        :: accepted (Some ts) true rest
      else accepted (Some ts) false rest
  end.

(** BUY while the position is open, SELL while it is flat. *)
Definition no_op (signal : Signal) (trade : option Trade) : bool :=
  match signal, trade with
  | BUY, Some _ => true
  | SELL, None => true
  | _, _ => false
  end.

(** The entry price of the open position, if any, is not zero. *)
Definition entry_price_nonzero (trade : option Trade) : Prop :=
  match trade with
  | Some t => PrimFloat.eqb (entry_price t) 0%float = false
  | None => True
  end.

(** Twelve one-minute bars used as a running example: the first five
    make a green HTF bar, and the pullbacks that follow open and close
    the position. *)
Definition sample_bars : list Bar :=
  [ {| index := 0; Open := 10%float; Close := 11%float |};
    {| index := 60; Open := 11%float; Close := 12%float |};
    {| index := 120; Open := 12%float; Close := 11.5%float |};
    {| index := 180; Open := 11.5%float; Close := 12%float |};
    {| index := 240; Open := 12%float; Close := 13%float |};
    {| index := 300; Open := 13%float; Close := 12.5%float |};
    {| index := 360; Open := 12.5%float; Close := 13.5%float |};
    {| index := 420; Open := 13.5%float; Close := 14%float |};
    {| index := 480; Open := 14%float; Close := 13%float |};
    {| index := 540; Open := 13%float; Close := 13.5%float |};
    {| index := 600; Open := 13.5%float; Close := 13%float |};
    {| index := 660; Open := 13%float; Close := 13.5%float |} ].

(** Nine bars in which the entry candle opens below zero and closes at
    zero: the position is opened at the price 0. *)
Definition zero_entry_bars : list Bar :=
  [ {| index := 0; Open := 10%float; Close := 11%float |};
    {| index := 60; Open := 11%float; Close := 12%float |};
    {| index := 120; Open := 12%float; Close := 11.5%float |};
    {| index := 180; Open := 11.5%float; Close := 12%float |};
    {| index := 240; Open := 12%float; Close := 13%float |};
    {| index := 300; Open := 13%float; Close := 12.5%float |};
    {| index := 360; Open := (-1)%float; Close := 0%float |};
    {| index := 420; Open := 13.5%float; Close := 14%float |};
    {| index := 480; Open := 14%float; Close := 13%float |} ].


(** A session polled every thirty seconds from minute 3: each candle is
    seen twice, the candles of minutes 3 and 4 are dropped, and the
    twelve sample bars follow from minute 5 on. *)
Definition sample_polls : list (Res (Candle * Z) * bool) :=
  flat_map
    (fun b =>
       [(Ok (candle_of b, index b + 300), true);
        (Ok (candle_of b, index b + 300), true)])
    ({| index := -120; Open := 9%float; Close := 9.5%float |}
     :: {| index := -60; Open := 9.5%float; Close := 10%float |}
     :: sample_bars).

(** The order that follows a signal once the guards are passed. *)
Definition order_for (signal : Signal) : option Side :=
  match signal with
  | BUY => Some Buy
  | SELL => Some Sell
  | HOLD => None
  end.

(** A live trader and a backtest adapter that hold the same engine
    state. *)
Definition same_state (l : Live.LiveTrader)
    (b : Backtest.PullbackBacktestAdapter) : Prop :=
  live_aggregation l = backtest_aggregation b /\
  Live.strategy l = Backtest.strategy b /\
  Live.current_trade l = Backtest.current_trade b /\
  Live.trade_file l = Backtest.trades_log b /\
  Live.candle_count l = Backtest.candle_count b /\
  Live.htf_count l = Backtest.htf_count b.

(** ** compare_trades.py *)

Module Compare.

(** A cell of the [direction] column as [pd.read_csv] loads it: a text,
    or NaN for an empty (or NA-like) cell.  (A column that holds
    nothing but numbers is loaded as numbers; the trade files of the two
    drivers hold the text LONG there.) *)
Inductive Cell : Set :=
| Text (s : string)
| NaN.

(** [a != b] on such cells: NaN differs from everything, itself
    included. *)
Definition ne (a b : Cell) : bool :=
  match a, b with
  | Text s, Text s' => negb (String.eqb s s')
  | _, _ => true
  end.

(** A row of a trade frame once lines 10-15 have loaded it: the columns
    that the script reads, the two times parsed by [pd.to_datetime], in
    seconds. *)
Record Row : Set := { direction : Cell; entry_time : Z; exit_time : Z }.

(** [timedelta(minutes=2)]. *)
Definition MAX_TIME_DIFF : Z := 120.

(** [Series.idxmin()] over the default index: the position of the first
    smallest value; on an empty series pandas raises [ValueError]. *)
Fixpoint idxmin_from (best_at : nat) (best : Z) (at_ : nat) (l : list Z)
    : nat :=
  match l with
  | [] => best_at
  | x :: rest =>
      if x <? best then idxmin_from at_ x (S at_) rest
      else idxmin_from best_at best (S at_) rest
  end.

Definition idxmin (l : list Z) : option nat :=
  match l with
  | [] => None
  | x :: rest => Some (idxmin_from 0 x 1 rest)
  end.

(** What the loop prints for one live trade. *)
Inductive Finding : Set :=
| DirectionMismatch
| EntryTimeMismatch (entry_diff : Z)
| ExitTimeMismatch (exit_diff : Z)
| Match (entry_diff exit_diff : Z).

(** Lines 25-56: the loop over the live trades, with its counters.  A
    mismatch breaks out of the loop.  [None] stands for the exception
    that ends the script. *)
Fixpoint validate (backtest_trades live_trades : list Row)
    (matched checked : Z) : option (list Finding * (Z * Z)) :=
  match live_trades with
  | [] => Some ([], (matched, checked))
  | live_trade :: rest =>
      let time_diffs :=
        map (fun bt => Z.abs (entry_time bt - entry_time live_trade))
          backtest_trades in
      match idxmin time_diffs with
      | None => None
      | Some closest_idx =>
          match nth_error backtest_trades closest_idx with
          | None => None
          | Some bt_trade =>
              let entry_diff :=
                Z.abs (entry_time bt_trade - entry_time live_trade) in
              let exit_diff :=
                Z.abs (exit_time bt_trade - exit_time live_trade) in
              if ne (direction bt_trade) (direction live_trade)
              then Some ([DirectionMismatch], (matched, checked))
              else if MAX_TIME_DIFF <? entry_diff
              then Some ([EntryTimeMismatch entry_diff],
                         (matched, checked))
              else if MAX_TIME_DIFF <? exit_diff
              then Some ([ExitTimeMismatch exit_diff], (matched, checked))
              else
                match validate backtest_trades rest (matched + 1)
                        (checked + 1) with
                | None => None
                | Some (findings, counters) =>
                    Some (Match entry_diff exit_diff :: findings, counters)
                end
          end
      end
  end.

Inductive Verdict : Set := LogicMatches | DivergenceDetected.

Record Report : Set := {
  findings : list Finding;
  matched : Z;
  checked : Z;
  verdict : Verdict
}.

(** Lines 20-69 of the script, on the two frames that lines 10-15
    loaded. *)
Definition script (backtest_trades live_trades : list Row)
    : option Report :=
  match validate backtest_trades live_trades 0 0 with
  | None => None
  | Some (findings, (matched, checked)) =>
      Some {| findings := findings;
              matched := matched;
              checked := checked;
              verdict := if matched =? checked then LogicMatches
                         else DivergenceDetected |}
  end.

(** The whole script.  [backtest_file] and [live_file] are what lines
    10-15 load from backtest_trades.csv and live_trades.csv, [None]
    when they raise: [pd.read_csv] raises [FileNotFoundError] on a file
    that does not exist, and backtest.py writes backtest_trades.csv only
    when it logged a trade. *)
Definition main (backtest_file live_file : option (list Row))
    : option Report :=
  match backtest_file with
  | None => None
  | Some backtest_trades =>
      match live_file with
      | None => None
      | Some live_trades => script backtest_trades live_trades
      end
  end.

End Compare.

(** A live trade agrees with a backtest trade: same direction, entry and
    exit at most two minutes apart. *)
Definition agrees (bt live : Compare.Row) : Prop :=
  Compare.direction bt = Compare.direction live /\
  Z.abs (Compare.entry_time bt - Compare.entry_time live)
  <= Compare.MAX_TIME_DIFF /\
  Z.abs (Compare.exit_time bt - Compare.exit_time live)
  <= Compare.MAX_TIME_DIFF.

(** ** Reading a trade log against the bars *)

(** The bar processed by the tick that brought [candle_count] to [n]
    (ticks are counted from 1, as [candle_count] counts them). *)
Definition bar_at (bars : list Bar) (n : Z) : option Bar :=
  if 1 <=? n then nth_error bars (Z.to_nat (n - 1)) else None.

(** The HTF candle that brought [htf_count] to [k]: the [k]-th that the
    bars complete. *)
Definition htf_at (bars : list Bar) (k : Z) : option Candle :=
  if 1 <=? k then
    nth_error (htf_bars (map candle_of bars)) (Z.to_nat (k - 1))
  else None.

(** The entry keys of a trade record a pullback entry on [bars]: a LONG
    entered at the close and the time of a green bar that follows a red
    bar, while the latest visible HTF candle is green; [entry_candle]
    and [entry_htf] are the counters at that tick. *)
Definition entry_explained (bars : list Bar) (t : Trade) : Prop :=
  direction t = "LONG"%string /\
  exists previous entry gate,
    bar_at bars (entry_candle t - 1) = Some previous /\
    bar_at bars (entry_candle t) = Some entry /\
    htf_at bars (entry_htf t) = Some gate /\
    entry_htf t = (entry_candle t - 1) / 5 /\
    is_red (candle_of previous) = true /\
    is_green (candle_of entry) = true /\
    is_green gate = true /\
    entry_time t = index entry /\
    entry_price t = Close entry.

(** The exit keys of a trade record an exit on [bars]: at the close and
    the time of a red bar later than the entry bar, while the latest
    visible HTF candle is green. *)
Definition exit_explained (bars : list Bar) (t : Trade) : Prop :=
  exists e exit_bar gate,
    exit_keys t = Some e /\
    bar_at bars (exit_candle e) = Some exit_bar /\
    htf_at bars (exit_htf e) = Some gate /\
    exit_htf e = (exit_candle e - 1) / 5 /\
    entry_candle t < exit_candle e /\
    is_red (candle_of exit_bar) = true /\
    is_green gate = true /\
    exit_time e = index exit_bar /\
    exit_price e = Close exit_bar.

(** The trades of a log follow one another: each is entered after the
    tick [after], and after the exit of the trade before it. *)
Fixpoint in_sequence (after : Z) (log : list Trade) : Prop :=
  match log with
  | [] => True
  | t :: rest =>
      after < entry_candle t /\
      match exit_keys t with
      | Some e => entry_candle t < exit_candle e /\
                  in_sequence (exit_candle e) rest
      | None => False
      end
  end.

(** The tick of the last exit in a log, [after] when there is none. *)
Fixpoint last_exit (after : Z) (log : list Trade) : Z :=
  match log with
  | [] => after
  | t :: rest =>
      last_exit (match exit_keys t with
                 | Some e => exit_candle e
                 | None => after
                 end) rest
  end.

(** ** live_trader.py: the balance and the orders *)

Module Venue.

(** One entry of [get_account()["balances"]]: the asset, and what
    [float(b["free"])] evaluates to. *)
Record Balance : Set := { asset : string; free : Res float }.

Record Order : Set := { orderId : Z }.

(** The two requests that the trader sends with [create_order]. *)
Inductive OrderRequest : Set :=
| MarketBuy (symbol : string) (quoteOrderQty : float)
| MarketSell (symbol : string) (quantity : float).

(** The client as the trader uses it: what [get_account()["balances"]]
    and [create_order(...)] answer, or raise. *)
Record Client : Set := {
  get_account : Res (list Balance);
  create_order : OrderRequest -> Res Order
}.

(** The loop of [get_btc_balance] (lines 108-111). *)
Fixpoint first_btc (balances : list Balance) : Res float :=
  match balances with
  | [] => Ok 0%float
  | b :: rest =>
      if String.eqb (asset b) "BTC" then free b else first_btc rest
  end.

(** [get_btc_balance] (lines 104-114): every exception gives 0.0. *)
Definition get_btc_balance (client : Client) : float :=
  match get_account client with
  | Raise _ => 0%float
  | Ok balances =>
      match first_btc balances with
      | Ok qty => qty
      | Raise _ => 0%float
      end
  end.

(** [place_market_buy] (lines 116-129): the answer of the venue, or its
    exception, and the requests sent. *)
Definition place_market_buy (client : Client) (symbol : string)
    (quote_amount : float) : Res Order * list OrderRequest :=
  let request := MarketBuy symbol quote_amount in
  (create_order client request, [request]).

(** [place_market_sell] (lines 131-152).  [round] is Python's
    [round(qty, 6)]. *)
Definition place_market_sell (round : float -> float) (client : Client)
    (symbol : string) : Res (option Order) * list OrderRequest :=
  let qty := get_btc_balance client in
  if PrimFloat.leb qty 0%float then (Ok None, [])
  else
    let qty := round qty in
    let request := MarketSell symbol qty in
    match create_order client request with
    | Ok order => (Ok (Some order), [request])
    | Raise e => (Raise e, [request])
    end.

(** Whether a call returned. *)
Definition returns {A : Type} (r : Res A) : bool :=
  match r with
  | Ok _ => true
  | Raise _ => false
  end.

End Venue.

(** ** backtest.py: the script *)

(** The script prepares the rows of live_candles.csv (lines 143-166),
    hands them to [Backtest(...).run()] of backtesting.py (lines
    168-184), and reports on the adapter that the run leaves (lines
    186-206).  backtesting.py is not part of the repository: its run
    calls [next] on one adapter started by [init], once per row that it
    delivers; which rows it delivers is not modelled, and what is proved
    of the report holds for whatever rows reach [next]. *)
Module Replay.

(** [data[~data.index.duplicated(keep="first")]] (line 154): of the rows
    that share a timestamp the first one is kept. *)
Fixpoint drop_duplicated (seen : list Z) (rows : list Bar) : list Bar :=
  match rows with
  | [] => []
  | row :: rest =>
      if existsb (Z.eqb (index row)) seen then drop_duplicated seen rest
      else row :: drop_duplicated (index row :: seen) rest
  end.

(** The frame that is handed to the library, and whether the script
    warned that it does not start on a multiple of five minutes. *)
Record Prepared : Set := { data : list Bar; warned : bool }.

(** Lines 151-166, on the rows that [pd.read_csv] loaded: the
    duplicated timestamps are dropped, [data.index[0]] raises on an
    empty frame, and a misaligned start is warned about and kept. *)
Definition prepare (csv : list Bar) : Res Prepared :=
  let data := drop_duplicated [] csv in
  match getitem data 0 with
  | Raise e => Raise e
  | Ok first =>
      let first_minute := Live.minute (index first) in
      Ok {| data := data; warned := negb (first_minute mod 5 =? 0) |}
  end.

(** How the loop that prints the trade details ends: with one P&L
    percentage printed per trade, with an exception of the arithmetic,
    or with the lookup of a column that the frame does not have. *)
Inductive Details : Set :=
| Printed (pnl_pcts : list float)
| DetailsRaised (e : Exn)
| AttributeError.

(** [pd.DataFrame(trades_log)]: the frame has the exit columns when some
    trade has the exit keys, and shows NaN there for a trade without
    them. *)
Definition has_exit_columns (trades : list Trade) : bool :=
  existsb (fun trade => is_not_None (exit_keys trade)) trades.

Definition exit_price_column (trade : Trade) : float :=
  match exit_keys trade with
  | Some e => exit_price e
  | None => nan
  end.

(** Lines 195-203: [pnl_pct = (pnl / trade.entry_price) * 100] for each
    row of the frame, on Python floats. *)
Fixpoint pnl_pcts_of (trades : list Trade) : Res (list float) :=
  match trades with
  | [] => Ok []
  | trade :: rest =>
      let pnl :=
        PrimFloat.sub (exit_price_column trade) (entry_price trade) in
      match truediv pnl (entry_price trade) with
      | Raise e => Raise e
      | Ok q =>
          let pnl_pct := PrimFloat.mul q 100%float in
          match pnl_pcts_of rest with
          | Raise e => Raise e
          | Ok printed => Ok (pnl_pct :: printed)
          end
      end
  end.

Definition trade_details (trades : list Trade) : Details :=
  match trades with
  | [] => Printed []
  | _ :: _ =>
      if has_exit_columns trades then
        match pnl_pcts_of trades with
        | Ok printed => Printed printed
        | Raise e => DetailsRaised e
        end
      else AttributeError
  end.

(** What the end of the script leaves: the rows written to
    backtest_trades.csv, if the file is written, and how the printing
    of the trade details ended. *)
Record Outcome : Set := {
  saved : option (list Trade);
  details : Details
}.

(** Lines 186-206, on the adapter [stats._strategy] that the run
    leaves: the trade file is written only when there are trades, and
    before their details are printed. *)
Definition report (strategy : Backtest.PullbackBacktestAdapter)
    : Outcome :=
  let trades_log := Backtest.trades_log strategy in
  if 0 <? len trades_log then
    {| saved := Some trades_log; details := trade_details trades_log |}
  else {| saved := None; details := Printed [] |}.

End Replay.

(** The timestamps that a sequence of polls brings. *)
Fixpoint poll_times (polls : list (Res (Candle * Z) * bool)) : list Z :=
  match polls with
  | [] => []
  | (Ok (_, ts), _) :: rest => ts :: poll_times rest
  | (Raise _, _) :: rest => poll_times rest
  end.

(** The entry and exit times of the trades of a log, in the order of
    the log. *)
Fixpoint trade_times (log : list Trade) : list Z :=
  match log with
  | [] => []
  | t :: rest =>
      entry_time t
      :: match exit_keys t with
         | Some e => exit_time e :: trade_times rest
         | None => trade_times rest
         end
  end.

(** Two trade dicts with the same entry keys. *)
Definition same_entry (t t' : Trade) : Prop :=
  symbol t' = symbol t /\ direction t' = direction t /\
  entry_time t' = entry_time t /\ entry_price t' = entry_price t /\
  entry_candle t' = entry_candle t /\ entry_htf t' = entry_htf t.

(** What a tick reports while a position cannot be closed: no BUY, and
    every SELL ends in an exception. *)
Definition no_entry_failed_exit (o : Output) : Prop :=
  match out_order o with
  | Some Buy => False
  | Some Sell =>
      out_raised o = Some ZeroDivisionError \/
      out_raised o = Some BinanceAPIException
  | None => True
  end.

(** * Properties *)

(** ** Python list indexing *)

Lemma len_app {A : Type} (l1 l2 : list A) : len (l1 ++ l2) = len l1 + len l2.
Proof. unfold len. rewrite length_app. lia. Qed.

Lemma len_nonneg {A : Type} (l : list A) : 0 <= len l.
Proof. unfold len. lia. Qed.

Lemma getitem_last {A : Type} (l : list A) (x : A) :
  getitem (l ++ [x]) (-1) = Ok x.
Proof.
  unfold getitem. rewrite len_app. change (len [x]) with 1.
  change (-1 <? 0) with true. cbv beta iota zeta.
  pose proof (len_nonneg l) as Hl.
  replace (-1 + (len l + 1)) with (len l) by lia.
  destruct (Z.leb_spec 0 (len l)); [|lia].
  destruct (Z.ltb_spec (len l) (len l + 1)); [|lia].
  cbn [andb]. unfold len. rewrite Nat2Z.id.
  rewrite nth_error_app2 by lia. rewrite Nat.sub_diag. reflexivity.
Qed.

Lemma getitem_before_last {A : Type} (l : list A) (x y : A) :
  getitem (l ++ [x; y]) (-2) = Ok x.
Proof.
  unfold getitem. rewrite len_app. change (len [x; y]) with 2.
  change (-2 <? 0) with true. cbv beta iota zeta.
  pose proof (len_nonneg l) as Hl.
  replace (-2 + (len l + 2)) with (len l) by lia.
  destruct (Z.leb_spec 0 (len l)); [|lia].
  destruct (Z.ltb_spec (len l) (len l + 2)); [|lia].
  cbn [andb]. unfold len. rewrite Nat2Z.id.
  rewrite nth_error_app2 by lia. rewrite Nat.sub_diag. reflexivity.
Qed.

Lemma getitem_first {A : Type} (x : A) (l : list A) :
  getitem (x :: l) 0 = Ok x.
Proof.
  unfold getitem. change (0 <? 0) with false. cbv beta iota zeta.
  pose proof (len_nonneg l) as Hl.
  replace (len (x :: l)) with (len l + 1)
    by (unfold len; cbn [List.length]; lia).
  destruct (Z.ltb_spec 0 (len l + 1)); [|lia]. reflexivity.
Qed.

(** A list with an element ends with one; with two, ends with two. *)
Lemma ends_with_one {A : Type} (l : list A) :
  1 <= len l -> exists l' x, l = l' ++ [x].
Proof.
  intros H. destruct (exists_last (l := l)) as [l' [x E]].
  - intros ->. unfold len in H. cbn in H. lia.
  - exists l', x. exact E.
Qed.

Lemma ends_with_two {A : Type} (l : list A) :
  2 <= len l -> exists l' x y, l = l' ++ [x; y].
Proof.
  intros H. destruct (ends_with_one l) as [l1 [y ->]]; [lia|].
  rewrite len_app in H. change (len [y]) with 1 in H.
  destruct (ends_with_one l1) as [l2 [x ->]]; [lia|].
  exists l2, x, y. rewrite <- app_assoc. reflexivity.
Qed.

(** ** generate_signal *)

(** With fewer than two LTF candles or no HTF candle the method returns
    at its first test. *)
Lemma generate_signal_short (o : Objs) (position_open : bool) :
  len (ltf_obj o) < 2 \/ len (htf_obj o) < 1 ->
  generate_signal position_open o = (Ok HOLD, o).
Proof.
  intros H. unfold generate_signal, bind, read, ret.
  destruct (Z.ltb_spec (len (ltf_obj o)) 2) as [_|H2]; [reflexivity|].
  destruct (Z.ltb_spec (len (htf_obj o)) 1) as [_|H1]; [reflexivity|].
  lia.
Qed.

(** Otherwise it decides on the last two LTF candles and the last HTF
    candle. *)
Lemma generate_signal_enough (s : PullbackStrategy)
    (l h : list Candle) (previous_ltf current_ltf current_htf : Candle)
    (position_open : bool) :
  let o := {| self_obj := s;
              ltf_obj := l ++ [previous_ltf; current_ltf];
              htf_obj := h ++ [current_htf] |} in
  generate_signal position_open o =
  (Ok (if negb (is_green current_htf) then HOLD
       else if position_open
            then if is_red current_ltf then SELL else HOLD
            else if is_red previous_ltf && is_green current_ltf
                 then BUY else HOLD), o).
Proof.
  intros o. unfold generate_signal, bind, read, ret. subst o.
  cbn [ltf_obj htf_obj].
  pose proof (len_nonneg l) as Hl. pose proof (len_nonneg h) as Hh.
  rewrite !len_app.
  change (len [previous_ltf; current_ltf]) with 2.
  change (len [current_htf]) with 1.
  destruct (Z.ltb_spec (len l + 2) 2); [lia|].
  destruct (Z.ltb_spec (len h + 1) 1); [lia|].
  cbn [orb].
  assert (getitem (l ++ [previous_ltf; current_ltf]) (-1) = Ok current_ltf)
    as E1.
  { replace (l ++ [previous_ltf; current_ltf])
      with ((l ++ [previous_ltf]) ++ [current_ltf])
      by (rewrite <- app_assoc; reflexivity).
    apply getitem_last. }
  cbn [ltf_obj htf_obj].
  rewrite E1, getitem_before_last, getitem_last.
  destruct (is_green current_htf), position_open, (is_red current_ltf),
    (is_red previous_ltf), (is_green current_ltf); reflexivity.
Qed.

(** The method never raises and leaves the three objects as they
    were. *)
Lemma generate_signal_pure (o : Objs) (position_open : bool) :
  exists signal, generate_signal position_open o = (Ok signal, o).
Proof.
  destruct (Z.lt_ge_cases (len (ltf_obj o)) 2) as [H|H2].
  { exists HOLD. apply generate_signal_short. now left. }
  destruct (Z.lt_ge_cases (len (htf_obj o)) 1) as [H|H1].
  { exists HOLD. apply generate_signal_short. now right. }
  destruct o as [s l h]. cbn [ltf_obj htf_obj] in *.
  destruct (ends_with_two l) as [l' [p [c ->]]]; [lia|].
  destruct (ends_with_one h) as [h' [hc ->]]; [lia|].
  eexists. apply generate_signal_enough.
Qed.

Lemma call_generate_signal_short (strategy : PullbackStrategy)
    (ltf_candles htf_candles : list Candle) (position_open : bool) :
  len ltf_candles < 2 \/ len htf_candles < 1 ->
  call_generate_signal strategy ltf_candles htf_candles position_open =
  (Ok HOLD, {| self_obj := strategy; ltf_obj := ltf_candles;
               htf_obj := htf_candles |}).
Proof. intros H. apply generate_signal_short. exact H. Qed.

(** Comparing two floats in the other order gives the opposite
    answer. *)
Lemma SFcompare_antisym (x y : spec_float) :
  SFcompare y x =
  match SFcompare x y with
  | Some c => Some (CompOpp c)
  | None => None
  end.
Proof.
  destruct x as [s1|s1| |s1 m1 e1], y as [s2|s2| |s2 m2 e2]; cbn;
    try reflexivity; try (destruct s1; reflexivity);
    try (destruct s2; reflexivity); try (destruct s1, s2; reflexivity).
  destruct s1, s2; cbn; try reflexivity.
  - rewrite (Z.compare_antisym e1 e2).
    destruct (e1 ?= e2)%Z; cbn; try reflexivity.
    rewrite (Pos.compare_cont_antisym m1 m2 Eq). reflexivity.
  - rewrite (Z.compare_antisym e1 e2).
    destruct (e1 ?= e2)%Z; cbn; try reflexivity.
    rewrite (Pos.compare_cont_antisym m1 m2 Eq). cbn.
    destruct (Pos.compare_cont Eq m1 m2); reflexivity.
Qed.

(** A candle whose close is at most its open is not green. *)
Lemma le_not_green (c : Candle) :
  PrimFloat.leb (close c) (open c) = true -> is_green c = false.
Proof.
  unfold is_green. rewrite leb_spec, ltb_spec. unfold SFleb, SFltb.
  rewrite (SFcompare_antisym (Prim2SF (close c)) (Prim2SF (open c))).
  destruct (SFcompare (Prim2SF (close c)) (Prim2SF (open c))) as [[| |]|];
    cbn; intros H; try reflexivity; discriminate.
Qed.

(** C4.  Whatever the LTF history and the position flag, when the visible
    HTF history is not empty and its last candle is not green (its close
    is not above its open), [generate_signal] returns HOLD: neither BUY
    nor SELL, the exit while a position is open included. *)
Theorem htf_not_green_gives_hold (strategy : PullbackStrategy)
    (ltf_candles earlier_htf : list Candle) (current_htf : Candle)
    (position_open : bool) :
  is_green current_htf = false ->
  fst (call_generate_signal strategy ltf_candles
         (earlier_htf ++ [current_htf]) position_open) = Ok HOLD.
Proof.
  intros Hred.
  destruct (Z.lt_ge_cases (len ltf_candles) 2) as [H|H].
  - rewrite call_generate_signal_short by (now left). reflexivity.
  - destruct (ends_with_two ltf_candles) as [l [p [c ->]]]; [lia|].
    unfold call_generate_signal. rewrite generate_signal_enough.
    rewrite Hred. reflexivity.
Qed.

Lemma htf_not_green_gives_hold_witness :
  let red := {| open := 2%float; close := 1%float |} in
  let green := {| open := 1%float; close := 2%float |} in
  is_green red = false /\
  fst (call_generate_signal mkPullbackStrategy [green; red]
         ([green] ++ [red]) true) = Ok HOLD.
Proof.
  split; [reflexivity|].
  apply (htf_not_green_gives_hold mkPullbackStrategy
           [ {| open := 1%float; close := 2%float |};
             {| open := 2%float; close := 1%float |} ]
           [ {| open := 1%float; close := 2%float |} ]
           {| open := 2%float; close := 1%float |} true).
  reflexivity.
Defined.

(** C5.  With no position open, at least two LTF candles, at least one
    visible HTF candle and the last HTF candle green (close > open),
    [generate_signal] returns BUY exactly when the LTF candle before the
    last is red (close < open) and the last one is green (close > open),
    the comparisons being those of Python floats. *)
Theorem buy_iff_pullback (strategy : PullbackStrategy)
    (earlier_ltf : list Candle) (previous_ltf current_ltf : Candle)
    (earlier_htf : list Candle) (current_htf : Candle) :
  PrimFloat.ltb (open current_htf) (close current_htf) = true ->
  fst (call_generate_signal strategy
         (earlier_ltf ++ [previous_ltf; current_ltf])
         (earlier_htf ++ [current_htf]) false) = Ok BUY
  <-> PrimFloat.ltb (close previous_ltf) (open previous_ltf) = true /\
      PrimFloat.ltb (open current_ltf) (close current_ltf) = true.
Proof.
  intros Hgreen. unfold call_generate_signal.
  rewrite generate_signal_enough. unfold is_green, is_red.
  rewrite Hgreen. cbn [negb fst].
  destruct (PrimFloat.ltb (close previous_ltf) (open previous_ltf)),
    (PrimFloat.ltb (open current_ltf) (close current_ltf)); cbn [andb];
    split; intros H; try discriminate; try (destruct H; discriminate);
    auto.
Qed.

Lemma buy_iff_pullback_witness :
  let red := {| open := 2%float; close := 1%float |} in
  let green := {| open := 1%float; close := 2%float |} in
  PrimFloat.ltb (open green) (close green) = true /\
  fst (call_generate_signal mkPullbackStrategy
         ([] ++ [red; green]) ([] ++ [green]) false) = Ok BUY /\
  fst (call_generate_signal mkPullbackStrategy
         ([] ++ [green; green]) ([] ++ [green]) false) <> Ok BUY.
Proof.
  cbv zeta. split; [reflexivity|]. split.
  - apply (proj2 (buy_iff_pullback mkPullbackStrategy []
                    {| open := 2%float; close := 1%float |}
                    {| open := 1%float; close := 2%float |} []
                    {| open := 1%float; close := 2%float |} eq_refl)).
    split; reflexivity.
  - intros H.
    apply (proj1 (buy_iff_pullback mkPullbackStrategy []
                    {| open := 1%float; close := 2%float |}
                    {| open := 1%float; close := 2%float |} []
                    {| open := 1%float; close := 2%float |} eq_refl)) in H.
    destruct H as [H _]. vm_compute in H. discriminate.
Defined.

(** C6.  With a position open, at least two LTF candles, at least one
    visible HTF candle and the last HTF candle green (close > open),
    [generate_signal] returns SELL exactly when the last LTF candle is
    red (close < open), the comparisons being those of Python floats. *)
Theorem sell_iff_last_red (strategy : PullbackStrategy)
    (earlier_ltf : list Candle) (previous_ltf current_ltf : Candle)
    (earlier_htf : list Candle) (current_htf : Candle) :
  PrimFloat.ltb (open current_htf) (close current_htf) = true ->
  fst (call_generate_signal strategy
         (earlier_ltf ++ [previous_ltf; current_ltf])
         (earlier_htf ++ [current_htf]) true) = Ok SELL
  <-> PrimFloat.ltb (close current_ltf) (open current_ltf) = true.
Proof.
  intros Hgreen. unfold call_generate_signal.
  rewrite generate_signal_enough. unfold is_green, is_red.
  rewrite Hgreen. cbn [negb fst].
  destruct (PrimFloat.ltb (close current_ltf) (open current_ltf));
    split; intros H; try discriminate; reflexivity.
Qed.

Lemma sell_iff_last_red_witness :
  let red := {| open := 2%float; close := 1%float |} in
  let green := {| open := 1%float; close := 2%float |} in
  PrimFloat.ltb (open green) (close green) = true /\
  fst (call_generate_signal mkPullbackStrategy
         ([] ++ [green; red]) ([] ++ [green]) true) = Ok SELL /\
  fst (call_generate_signal mkPullbackStrategy
         ([] ++ [red; green]) ([] ++ [green]) true) <> Ok SELL.
Proof.
  cbv zeta. split; [reflexivity|]. split.
  - apply (proj2 (sell_iff_last_red mkPullbackStrategy []
                    {| open := 1%float; close := 2%float |}
                    {| open := 2%float; close := 1%float |} []
                    {| open := 1%float; close := 2%float |} eq_refl)).
    reflexivity.
  - intros H.
    apply (proj1 (sell_iff_last_red mkPullbackStrategy []
                    {| open := 2%float; close := 1%float |}
                    {| open := 1%float; close := 2%float |} []
                    {| open := 1%float; close := 2%float |} eq_refl)) in H.
    vm_compute in H. discriminate.
Defined.

(** C7.  With fewer than two LTF candles, or with no visible HTF candle,
    [generate_signal] returns HOLD whatever the position flag. *)
Theorem too_little_data_gives_hold (strategy : PullbackStrategy)
    (ltf_candles htf_candles : list Candle) (position_open : bool) :
  len ltf_candles < 2 \/ len htf_candles < 1 ->
  fst (call_generate_signal strategy ltf_candles htf_candles position_open)
  = Ok HOLD.
Proof.
  intros H. rewrite call_generate_signal_short by exact H. reflexivity.
Qed.

Lemma too_little_data_gives_hold_witness :
  let red := {| open := 2%float; close := 1%float |} in
  let green := {| open := 1%float; close := 2%float |} in
  (len [red; green] < 2 \/ len (@nil Candle) < 1) /\
  fst (call_generate_signal mkPullbackStrategy [red; green] [] false)
  = Ok HOLD.
Proof.
  split; [right; reflexivity|].
  apply (too_little_data_gives_hold mkPullbackStrategy
           [ {| open := 2%float; close := 1%float |};
             {| open := 1%float; close := 2%float |} ] [] false).
  right. reflexivity.
Defined.

(** ** The strategy as the drivers call it *)

Lemma call_generate_signal_pure (strategy : PullbackStrategy)
    (ltf_candles htf_candles : list Candle) (position_open : bool) :
  exists signal,
    call_generate_signal strategy ltf_candles htf_candles position_open =
    (Ok signal, {| self_obj := strategy; ltf_obj := ltf_candles;
                   htf_obj := htf_candles |}).
Proof. apply generate_signal_pure. Qed.

Lemma backtest_call_strategy (self : Backtest.PullbackBacktestAdapter) :
  exists signal,
    Backtest.call_strategy self = (self, Ok signal) /\
    fst (call_generate_signal (Backtest.strategy self)
           (Backtest.ltf_candles self) (Backtest.htf_candles self)
           (is_not_None (Backtest.current_trade self))) = Ok signal.
Proof.
  unfold Backtest.call_strategy.
  destruct (call_generate_signal_pure (Backtest.strategy self)
              (Backtest.ltf_candles self) (Backtest.htf_candles self)
              (is_not_None (Backtest.current_trade self))) as [signal E].
  exists signal. rewrite E. split; [|reflexivity].
  destruct self; reflexivity.
Qed.

Lemma live_call_strategy (self : Live.LiveTrader) :
  exists signal,
    Live.call_strategy self = (self, Ok signal) /\
    fst (call_generate_signal (Live.strategy self)
           (Live.ltf_candles self) (Live.htf_candles self)
           (is_not_None (Live.current_trade self))) = Ok signal.
Proof.
  unfold Live.call_strategy.
  destruct (call_generate_signal_pure (Live.strategy self)
              (Live.ltf_candles self) (Live.htf_candles self)
              (is_not_None (Live.current_trade self))) as [signal E].
  exists signal. rewrite E. split; [|reflexivity].
  destruct self; reflexivity.
Qed.

(** The signal tells which way the position flag was. *)
Lemma signal_matches_flag (strategy : PullbackStrategy)
    (ltf_candles htf_candles : list Candle) (position_open : bool)
    (signal : Signal) :
  fst (call_generate_signal strategy ltf_candles htf_candles position_open)
  = Ok signal ->
  match signal with
  | BUY => position_open = false
  | SELL => position_open = true
  | HOLD => True
  end.
Proof.
  destruct (Z.lt_ge_cases (len ltf_candles) 2) as [H|H2].
  { rewrite call_generate_signal_short by (now left).
    intros [= <-]. exact I. }
  destruct (Z.lt_ge_cases (len htf_candles) 1) as [H|H1].
  { rewrite call_generate_signal_short by (now right).
    intros [= <-]. exact I. }
  destruct (ends_with_two ltf_candles) as [l [p [c ->]]]; [lia|].
  destruct (ends_with_one htf_candles) as [h [hc ->]]; [lia|].
  unfold call_generate_signal. rewrite generate_signal_enough. cbn [fst].
  destruct (is_green hc), position_open, (is_red c), (is_red p),
    (is_green c); cbn; intros [= <-]; auto.
Qed.

(** A BUY is returned only on a green last LTF candle. *)
Lemma buy_on_green (strategy : PullbackStrategy)
    (ltf_candles htf_candles : list Candle) (current_ltf : Candle)
    (position_open : bool) :
  fst (call_generate_signal strategy (ltf_candles ++ [current_ltf])
         htf_candles position_open) = Ok BUY ->
  is_green current_ltf = true.
Proof.
  destruct (Z.lt_ge_cases (len (ltf_candles ++ [current_ltf])) 2)
    as [H|H2].
  { rewrite call_generate_signal_short by (now left). discriminate. }
  destruct (Z.lt_ge_cases (len htf_candles) 1) as [H|H1].
  { rewrite call_generate_signal_short by (now right). discriminate. }
  rewrite len_app in H2. change (len [current_ltf]) with 1 in H2.
  destruct (ends_with_one ltf_candles) as [l [p ->]]; [lia|].
  destruct (ends_with_one htf_candles) as [h [hc ->]]; [lia|].
  rewrite <- app_assoc. cbn [app].
  unfold call_generate_signal. rewrite generate_signal_enough. cbn [fst].
  destruct (is_green hc), position_open, (is_red current_ltf), (is_red p),
    (is_green current_ltf); cbn; intros [= ]; reflexivity.
Qed.

(** C9.  [generate_signal] is deterministic and stateless.  Run on the
    objects it receives by reference (the strategy instance and the two
    lists), an invocation returns a signal, never raises and leaves
    these objects as it found them; a second invocation that follows it
    on the same objects returns what it would have returned alone, so
    with the same position flag the same signal again: nothing is
    retained between calls.  The signal does not depend on the instance
    either.  So the backtest adapter and the live trader, calling it on
    equal histories with equal position flags, get the same signal and
    keep their state. *)
Theorem generate_signal_deterministic_stateless :
  (forall (o : Objs) (first_flag second_flag : bool),
     exists first second,
       generate_signal first_flag o = (Ok first, o) /\
       generate_signal second_flag o = (Ok second, o) /\
       (x <- generate_signal first_flag ;;
        y <- generate_signal second_flag ;;
        ret (x, y))%method o = (Ok (first, second), o) /\
       (first_flag = second_flag -> first = second)) /\
  (forall (strategy1 strategy2 : PullbackStrategy)
          (ltf_candles htf_candles : list Candle) (position_open : bool),
     exists signal,
       call_generate_signal strategy1 ltf_candles htf_candles position_open
       = (Ok signal, {| self_obj := strategy1; ltf_obj := ltf_candles;
                        htf_obj := htf_candles |}) /\
       call_generate_signal strategy2 ltf_candles htf_candles position_open
       = (Ok signal, {| self_obj := strategy2; ltf_obj := ltf_candles;
                        htf_obj := htf_candles |})) /\
  (forall (bt : Backtest.PullbackBacktestAdapter) (lv : Live.LiveTrader),
     Backtest.ltf_candles bt = Live.ltf_candles lv ->
     Backtest.htf_candles bt = Live.htf_candles lv ->
     is_not_None (Backtest.current_trade bt)
     = is_not_None (Live.current_trade lv) ->
     exists signal,
       Backtest.call_strategy bt = (bt, Ok signal) /\
       Live.call_strategy lv = (lv, Ok signal)).
Proof.
  split; [|split].
  - intros o p q.
    destruct (generate_signal_pure o p) as [s1 E1].
    destruct (generate_signal_pure o q) as [s2 E2].
    exists s1, s2. split; [exact E1|]. split; [exact E2|]. split.
    + unfold bind at 1. rewrite E1. unfold bind. rewrite E2. reflexivity.
    + intros <-. rewrite E1 in E2. now injection E2.
  - intros s1 s2 l h p.
    destruct (call_generate_signal_pure s1 l h p) as [signal E].
    exists signal. split; [exact E|].
    destruct s1, s2. exact E.
  - intros bt lv Hl Hh Hp.
    destruct (backtest_call_strategy bt) as [sb [Eb Sb]].
    destruct (live_call_strategy lv) as [sl [El Sl]].
    exists sb. split; [exact Eb|].
    rewrite El. f_equal. f_equal.
    rewrite Hl, Hh, Hp in Sb.
    destruct (Backtest.strategy bt), (Live.strategy lv).
    rewrite Sb in Sl. now injection Sl.
Qed.

(** The two drivers on the seventh bar of the sample, after the new
    candle is stored: both get BUY from histories of seven LTF candles
    and one HTF candle, and keep their state; two invocations in a row
    on the objects of the adapter give BUY twice and leave them as they
    were. *)
Lemma generate_signal_deterministic_stateless_witness :
  let seventh := {| index := 360; Open := 12.5%float;
                    Close := 13.5%float |} in
  let bt :=
    fst (Backtest.prepare
           (fst (Backtest.run Backtest.init (firstn 6 sample_bars)))
           seventh) in
  let lv :=
    fst (Live.prepare
           (fst (Live.feed (Live.init "BTCUSDT")
                   (all_orders_ok (firstn 6 sample_bars))))
           (candle_of seventh) (index seventh)) in
  let o := {| self_obj := Backtest.strategy bt;
              ltf_obj := Backtest.ltf_candles bt;
              htf_obj := Backtest.htf_candles bt |} in
  len (Backtest.ltf_candles bt) = 7 /\
  len (Backtest.htf_candles bt) = 1 /\
  Backtest.ltf_candles bt = Live.ltf_candles lv /\
  Backtest.htf_candles bt = Live.htf_candles lv /\
  is_not_None (Backtest.current_trade bt)
  = is_not_None (Live.current_trade lv) /\
  Backtest.call_strategy bt = (bt, Ok BUY) /\
  Live.call_strategy lv = (lv, Ok BUY) /\
  (x <- generate_signal false ;;
   y <- generate_signal false ;;
   ret (x, y))%method o = (Ok (BUY, BUY), o).
Proof.
  cbv zeta.
  set (bt := fst (Backtest.prepare
                    (fst (Backtest.run Backtest.init (firstn 6 sample_bars)))
                    {| index := 360; Open := 12.5%float;
                       Close := 13.5%float |})).
  set (lv := fst (Live.prepare
                    (fst (Live.feed (Live.init "BTCUSDT")
                            (all_orders_ok (firstn 6 sample_bars))))
                    (candle_of {| index := 360; Open := 12.5%float;
                                  Close := 13.5%float |})
                    (index {| index := 360; Open := 12.5%float;
                              Close := 13.5%float |}))).
  set (o := {| self_obj := Backtest.strategy bt;
               ltf_obj := Backtest.ltf_candles bt;
               htf_obj := Backtest.htf_candles bt |}).
  assert (Backtest.ltf_candles bt = Live.ltf_candles lv) as Hl
      by (vm_compute; reflexivity).
  assert (Backtest.htf_candles bt = Live.htf_candles lv) as Hh
      by (vm_compute; reflexivity).
  assert (is_not_None (Backtest.current_trade bt)
          = is_not_None (Live.current_trade lv)) as Hp
      by (vm_compute; reflexivity).
  split; [vm_compute; reflexivity|]. split; [vm_compute; reflexivity|].
  split; [exact Hl|]. split; [exact Hh|]. split; [exact Hp|].
  destruct (proj2 (proj2 generate_signal_deterministic_stateless)
              bt lv Hl Hh Hp) as [signal [Eb El]].
  assert (signal = BUY) as ->.
  { assert (snd (Backtest.call_strategy bt) = Ok BUY) as Hs
        by (vm_compute; reflexivity).
    rewrite Eb in Hs. cbn [snd] in Hs. now injection Hs. }
  split; [exact Eb|]. split; [exact El|].
  destruct (proj1 generate_signal_deterministic_stateless o false false)
    as [first [second [E1 [_ [E12 Hsame]]]]].
  assert (first = BUY) as Hfirst.
  { assert (fst (generate_signal false o) = Ok BUY) as Hs
        by (vm_compute; reflexivity).
    rewrite E1 in Hs. cbn [fst] in Hs. now injection Hs. }
  rewrite <- (Hsame eq_refl) in E12. rewrite Hfirst in E12. exact E12.
Defined.

(** ** Each driver implements the reference aggregation *)

Lemma len_is_5 {A : Type} (l : list A) :
  (len l =? 5) = (List.length l =? 5)%nat.
Proof.
  unfold len. destruct (Nat.eqb_spec (List.length l) 5) as [E|E].
  - rewrite E. reflexivity.
  - apply Z.eqb_neq. lia.
Qed.

Lemma getitem_first_snoc {A : Type} (l : list A) (x : A) :
  getitem (l ++ [x]) 0 = Ok (hd x (l ++ [x])).
Proof. destruct l; cbn [app hd]; apply getitem_first. Qed.

Lemma backtest_aggregate (self : Backtest.PullbackBacktestAdapter)
    (b : list Candle) (c : Candle) :
  Backtest._htf_bucket self = b ++ [c] ->
  Backtest.aggregate self =
  if (List.length (b ++ [c]) =? 5)%nat then
    let h := {| open := open (hd c (b ++ [c])); close := close c |} in
    (Backtest.set_pending self h, Ok (Some h))
  else (self, Ok None).
Proof.
  intros E. unfold Backtest.aggregate. rewrite E, len_is_5.
  destruct (List.length (b ++ [c]) =? 5)%nat; [|reflexivity].
  rewrite getitem_first_snoc, getitem_last. reflexivity.
Qed.

Lemma live_aggregate (self : Live.LiveTrader) (b : list Candle)
    (c : Candle) :
  Live._htf_bucket self = b ++ [c] ->
  Live.aggregate self =
  if (List.length (b ++ [c]) =? 5)%nat then
    let h := {| open := open (hd c (b ++ [c])); close := close c |} in
    (Live.set_pending self h, Ok (Some h))
  else (self, Ok None).
Proof.
  intros E. unfold Live.aggregate. rewrite E, len_is_5.
  destruct (List.length (b ++ [c]) =? 5)%nat; [|reflexivity].
  rewrite getitem_first_snoc, getitem_last. reflexivity.
Qed.

(** What [prepare] leaves: the aggregation has made one step of the
    reference model, the candle is counted, the HTF counter follows the
    visible history, and the position is untouched. *)
Lemma backtest_prepare (self : Backtest.PullbackBacktestAdapter)
    (data : Bar) :
  exists mid,
    Backtest.prepare self data =
    (mid, Ok (snd (Engine.step (backtest_aggregation self)
                     (candle_of data)))) /\
    backtest_aggregation mid =
    fst (Engine.step (backtest_aggregation self) (candle_of data)) /\
    Backtest.strategy mid = Backtest.strategy self /\
    Backtest.current_trade mid = Backtest.current_trade self /\
    Backtest.trades_log mid = Backtest.trades_log self /\
    Backtest.candle_count mid = Backtest.candle_count self + 1 /\
    Backtest.htf_count mid - len (Backtest.htf_candles mid) =
    Backtest.htf_count self - len (Backtest.htf_candles self).
Proof.
  unfold Backtest.prepare. fold (candle_of data).
  set (c := candle_of data).
  set (s1 := Backtest.store_candle
               (Backtest.promote_pending (Backtest.count_candle self)) c).
  rewrite (backtest_aggregate s1
             (Backtest._htf_bucket
                (Backtest.promote_pending (Backtest.count_candle self))) c)
    by reflexivity.
  subst s1. unfold Engine.step, Engine.push, Engine.promote.
  destruct self as [st l h b p a tr lg cc hc].
  unfold Backtest.promote_pending, Backtest.count_candle,
    backtest_aggregation.
  cbn [Backtest._htf_available_next Backtest._htf_pending
       Engine.available_next Engine.pending].
  destruct a, p as [pd|];
    cbn [Backtest.store_candle Backtest._htf_bucket Engine.bucket
         Backtest.strategy Backtest.ltf_candles Backtest.htf_candles
         Backtest._htf_pending Backtest._htf_available_next
         Backtest.current_trade Backtest.trades_log Backtest.candle_count
         Backtest.htf_count Engine.ltf_history Engine.visible_htf
         Engine.pending Engine.available_next];
    destruct (List.length (b ++ [c]) =? 5)%nat;
    eexists; (split; [reflexivity|]);
    cbn; repeat split; try reflexivity; rewrite ?len_app;
    change (len [pd]) with 1; lia.
Qed.

Lemma live_prepare (self : Live.LiveTrader) (candle_ltf : Candle)
    (ts : Z) :
  exists mid,
    Live.prepare self candle_ltf ts =
    (mid, Ok (snd (Engine.step (live_aggregation self) candle_ltf))) /\
    live_aggregation mid =
    fst (Engine.step (live_aggregation self) candle_ltf) /\
    Live.symbol mid = Live.symbol self /\
    Live.strategy mid = Live.strategy self /\
    Live.current_trade mid = Live.current_trade self /\
    Live.trade_file mid = Live.trade_file self /\
    Live.candle_count mid = Live.candle_count self + 1 /\
    Live.htf_count mid - len (Live.htf_candles mid) =
    Live.htf_count self - len (Live.htf_candles self) /\
    Live.candle_file mid =
    Live.candle_file self
    ++ [{| index := ts; Open := open candle_ltf;
           Close := close candle_ltf |}].
Proof.
  unfold Live.prepare.
  set (c := candle_ltf).
  set (s1 := Live.store_candle (Live.promote_pending self) c ts).
  rewrite (live_aggregate s1
             (Live._htf_bucket (Live.promote_pending self)) c)
    by reflexivity.
  subst s1. unfold Engine.step, Engine.push, Engine.promote.
  destruct self as [sy st l h b p a al seen tr cc hc tf cf].
  unfold Live.promote_pending, live_aggregation.
  cbn [Live._htf_available_next Live._htf_pending
       Engine.available_next Engine.pending].
  destruct a, p as [pd|];
    cbn [Live.store_candle Live._htf_bucket Engine.bucket
         Live.symbol Live.strategy Live.ltf_candles Live.htf_candles
         Live._htf_pending Live._htf_available_next
         Live._alignment_complete Live.last_candle_ts
         Live.current_trade Live.trade_file Live.candle_file
         Live.candle_count Live.htf_count Engine.ltf_history
         Engine.visible_htf Engine.pending Engine.available_next];
    destruct (List.length (b ++ [c]) =? 5)%nat;
    eexists; (split; [reflexivity|]);
    cbn; repeat split; try reflexivity; rewrite ?len_app;
    change (len [pd]) with 1; lia.
Qed.

(** ** The position tracker *)

(** C8.  A BUY while the position is open, or a SELL while it is flat,
    changes nothing in either driver: the state (position and trade log
    included) stays as it was, no order is placed, nothing is raised. *)
Theorem no_op_signal_changes_nothing
    (bt : Backtest.PullbackBacktestAdapter) (lv : Live.LiveTrader)
    (signal : Signal) (timestamp : Z) (price : float) (order_ok : bool) :
  no_op signal (Backtest.current_trade bt) = true ->
  no_op signal (Live.current_trade lv) = true ->
  Backtest.execute_orders bt signal timestamp price = (bt, None) /\
  Live.execute_orders lv signal timestamp price order_ok
  = (lv, (None, None)).
Proof.
  intros Hb Hl. unfold Backtest.execute_orders, Live.execute_orders.
  destruct signal, (Backtest.current_trade bt), (Live.current_trade lv);
    cbn in Hb, Hl; try discriminate; split; reflexivity.
Qed.

Lemma no_op_signal_changes_nothing_witness :
  let trade := open_trade "BTCUSDT" 60 2%float 7 1 in
  let bt := Backtest.set_trade Backtest.init (Some trade) [] in
  let lv := Live.set_trade (Live.init "BTCUSDT") (Some trade) [] in
  (no_op BUY (Backtest.current_trade bt) = true /\
   no_op BUY (Live.current_trade lv) = true /\
   Backtest.execute_orders bt BUY 120 3%float = (bt, None) /\
   Live.execute_orders lv BUY 120 3%float true = (lv, (None, None))) /\
  (no_op SELL (Backtest.current_trade Backtest.init) = true /\
   no_op SELL (Live.current_trade (Live.init "BTCUSDT")) = true /\
   Backtest.execute_orders Backtest.init SELL 120 3%float
   = (Backtest.init, None) /\
   Live.execute_orders (Live.init "BTCUSDT") SELL 120 3%float true
   = (Live.init "BTCUSDT", (None, None))).
Proof.
  split; (split; [reflexivity|]); (split; [reflexivity|]).
  - exact (no_op_signal_changes_nothing
             (Backtest.set_trade Backtest.init
                (Some (open_trade "BTCUSDT" 60 2%float 7 1)) [])
             (Live.set_trade (Live.init "BTCUSDT")
                (Some (open_trade "BTCUSDT" 60 2%float 7 1)) [])
             BUY 120 3%float true eq_refl eq_refl).
  - exact (no_op_signal_changes_nothing Backtest.init
             (Live.init "BTCUSDT") SELL 120 3%float true
             eq_refl eq_refl).
Defined.

Lemma flag_excludes_no_op (signal : Signal) (trade : option Trade) :
  match signal with
  | BUY => is_not_None trade = false
  | SELL => is_not_None trade = true
  | HOLD => True
  end ->
  no_op signal trade = false.
Proof. destruct signal, trade; cbn; auto; discriminate. Qed.

Lemma backtest_decide_signal (self : Backtest.PullbackBacktestAdapter)
    (completed : option Candle) (timestamp : Z) (price : float)
    (signal : Signal) :
  out_signal (snd (Backtest.decide self completed timestamp price))
  = Some signal ->
  no_op signal (Backtest.current_trade self) = false /\
  out_order (snd (Backtest.decide self completed timestamp price))
  = order_for signal.
Proof.
  unfold Backtest.decide.
  destruct ((len (Backtest.ltf_candles self) <? 2)
            || (len (Backtest.htf_candles self) <? 1));
    [discriminate|].
  destruct (backtest_call_strategy self) as [sg [Ec Sc]]. rewrite Ec.
  apply signal_matches_flag in Sc. apply flag_excludes_no_op in Sc.
  unfold Backtest.execute_orders.
  destruct sg, (Backtest.current_trade self); cbn in Sc |- *;
    try discriminate; intros [= <-]; split; reflexivity.
Qed.

Lemma live_decide_signal (self : Live.LiveTrader)
    (completed : option Candle) (ts : Z) (price : float)
    (order_ok : bool) (signal : Signal) :
  out_signal (snd (Live.decide self completed ts price order_ok))
  = Some signal ->
  no_op signal (Live.current_trade self) = false /\
  out_order (snd (Live.decide self completed ts price order_ok))
  = order_for signal.
Proof.
  unfold Live.decide.
  destruct ((len (Live.ltf_candles self) <? 2)
            || (len (Live.htf_candles self) <? 1));
    [discriminate|].
  destruct (live_call_strategy self) as [sg [Ec Sc]]. rewrite Ec.
  apply signal_matches_flag in Sc. apply flag_excludes_no_op in Sc.
  unfold Live.execute_orders.
  destruct sg, (Live.current_trade self) as [t|]; cbn in Sc |- *;
    try discriminate; destruct order_ok; cbn;
    try (destruct (truediv _ _)); cbn;
    intros [= <-]; split; reflexivity.
Qed.

(** C10.  [generate_signal] returns BUY only when [position_open] is
    false and SELL only when it is true.  So in both drivers, which pass
    their own position as the flag, every generated signal finds the
    guards open: a BUY never meets an open position, a SELL never meets
    a flat one, and the order call follows. *)
Theorem position_guards_never_fire :
  (forall (strategy : PullbackStrategy)
          (ltf_candles htf_candles : list Candle) (position_open : bool),
     (fst (call_generate_signal strategy ltf_candles htf_candles
             position_open) = Ok BUY -> position_open = false) /\
     (fst (call_generate_signal strategy ltf_candles htf_candles
             position_open) = Ok SELL -> position_open = true)) /\
  (forall (bt : Backtest.PullbackBacktestAdapter) (data : Bar)
          (signal : Signal),
     out_signal (snd (Backtest.next bt data)) = Some signal ->
     no_op signal (Backtest.current_trade bt) = false /\
     out_order (snd (Backtest.next bt data)) = order_for signal) /\
  (forall (lv : Live.LiveTrader) (candle_ltf : Candle) (ts : Z)
          (order_ok : bool) (signal : Signal),
     out_signal (snd (Live.tick lv candle_ltf ts order_ok)) = Some signal ->
     no_op signal (Live.current_trade lv) = false /\
     out_order (snd (Live.tick lv candle_ltf ts order_ok))
     = order_for signal).
Proof.
  split; [|split].
  - intros s l h p. split; intros H;
      exact (signal_matches_flag s l h p _ H).
  - intros bt data signal. unfold Backtest.next.
    destruct (backtest_prepare bt data) as [mid [E [_ [_ [Ht _]]]]].
    rewrite E. cbv zeta. rewrite <- Ht.
    apply backtest_decide_signal.
  - intros lv c ts ok signal. unfold Live.tick.
    destruct (live_prepare lv c ts) as [mid [E [_ [_ [_ [Ht _]]]]]].
    rewrite E. cbv zeta. rewrite <- Ht.
    apply live_decide_signal.
Qed.

Lemma position_guards_never_fire_witness :
  let s := fst (Backtest.run Backtest.init (firstn 6 sample_bars)) in
  let data := {| index := 360; Open := 12.5%float; Close := 13.5%float |} in
  out_signal (snd (Backtest.next s data)) = Some BUY /\
  no_op BUY (Backtest.current_trade s) = false /\
  out_order (snd (Backtest.next s data)) = Some Buy.
Proof.
  split; [vm_compute; reflexivity|].
  apply (proj1 (proj2 position_guards_never_fire)
           (fst (Backtest.run Backtest.init (firstn 6 sample_bars)))
           {| index := 360; Open := 12.5%float; Close := 13.5%float |}
           BUY).
  vm_compute. reflexivity.
Defined.

(** ** Groups of five candles *)

(** Induction over a list five elements at a time. *)
Lemma five_ind (P : list Candle -> Prop) :
  (forall l, (List.length l < 5)%nat -> P l) ->
  (forall c0 c1 c2 c3 c4 rest,
      P rest -> P (c0 :: c1 :: c2 :: c3 :: c4 :: rest)) ->
  forall l, P l.
Proof.
  intros Hshort Hfive l.
  assert (forall n l, (List.length l <= n)%nat -> P l) as H.
  { induction n as [|n IH]; intros l' Hn.
    - apply Hshort. lia.
    - destruct l' as [|c0 [|c1 [|c2 [|c3 [|c4 rest]]]]];
        try (apply Hshort; cbn; lia).
      apply Hfive. apply IH. cbn in Hn. lia. }
  apply (H (List.length l)). lia.
Qed.

Lemma htf_bars_short (l : list Candle) :
  (List.length l < 5)%nat -> htf_bars l = [] /\ leftover l = l.
Proof.
  intros H.
  destruct l as [|c0 [|c1 [|c2 [|c3 [|c4 rest]]]]];
    try (split; reflexivity).
  cbn in H. lia.
Qed.

Lemma leftover_length (cs : list Candle) :
  List.length (leftover cs) = (List.length cs mod 5)%nat.
Proof.
  induction cs as [l H|c0 c1 c2 c3 c4 rest IH] using five_ind.
  - destruct (htf_bars_short l H) as [_ ->].
    symmetry. apply Nat.mod_small. exact H.
  - cbn [leftover List.length]. rewrite IH. lia.
Qed.

Lemma htf_bars_length (cs : list Candle) :
  List.length (htf_bars cs) = (List.length cs / 5)%nat.
Proof.
  induction cs as [l H|c0 c1 c2 c3 c4 rest IH] using five_ind.
  - destruct (htf_bars_short l H) as [-> _].
    symmetry. apply Nat.div_small. exact H.
  - cbn [htf_bars List.length]. rewrite IH. lia.
Qed.

(** Feeding one more candle: it joins the bucket, or it is the fifth and
    completes an HTF bar. *)
Lemma htf_bars_snoc (cs : list Candle) (c : Candle) :
  if (List.length (leftover cs ++ [c]) =? 5)%nat then
    leftover (cs ++ [c]) = [] /\
    htf_bars (cs ++ [c]) =
    htf_bars cs
    ++ [{| open := open (hd c (leftover cs ++ [c])); close := close c |}]
  else
    leftover (cs ++ [c]) = leftover cs ++ [c] /\
    htf_bars (cs ++ [c]) = htf_bars cs.
Proof.
  induction cs as [l H|c0 c1 c2 c3 c4 rest IH] using five_ind.
  - destruct (htf_bars_short l H) as [-> ->].
    destruct l as [|c0 [|c1 [|c2 [|c3 [|c4 rest]]]]];
      cbn; try (split; reflexivity).
    cbn in H. lia.
  - cbn [leftover htf_bars app].
    destruct (List.length (leftover rest ++ [c]) =? 5)%nat;
      destruct IH as [IH1 IH2]; rewrite IH1, IH2; split; reflexivity.
Qed.

(** The HTF bars of a prefix are a prefix of the HTF bars. *)
Lemma htf_bars_firstn (cs : list Candle) (k : nat) :
  htf_bars (firstn k cs) = firstn (k / 5) (htf_bars cs).
Proof.
  revert k.
  induction cs as [l H|c0 c1 c2 c3 c4 rest IH] using five_ind; intros k.
  - destruct (htf_bars_short l H) as [-> _].
    rewrite firstn_nil.
    apply htf_bars_short.
    pose proof (firstn_le_length k l). pose proof (length_firstn k l). lia.
  - destruct k as [|[|[|[|[|k]]]]]; try reflexivity.
    cbn [firstn htf_bars].
    replace (S (S (S (S (S k)))) / 5)%nat with (S (k / 5)) by lia.
    cbn [firstn]. rewrite IH. reflexivity.
Qed.

(** The [n]-th HTF bar opens with candle [5n] and closes with candle
    [5n+4]. *)
Lemma htf_bars_nth (cs : list Candle) (n : nat) (first last : Candle) :
  nth_error cs (5 * n) = Some first ->
  nth_error cs (5 * n + 4) = Some last ->
  nth_error (htf_bars cs) n
  = Some {| open := open first; close := close last |}.
Proof.
  revert cs. induction n as [|n IH]; intros cs Hf Hl.
  - destruct cs as [|c0 [|c1 [|c2 [|c3 [|c4 rest]]]]]; cbn in Hf, Hl;
      try discriminate.
    injection Hf as <-. injection Hl as <-. reflexivity.
  - replace (5 * S n)%nat with (5 + 5 * n)%nat in Hf by lia.
    replace (5 * S n + 4)%nat with (5 + (5 * n + 4))%nat in Hl by lia.
    destruct cs as [|c0 [|c1 [|c2 [|c3 [|c4 rest]]]]]; cbn in Hf, Hl;
      try discriminate.
    cbn [htf_bars nth_error]. apply IH; assumption.
Qed.

(** ** The reference aggregation over a run *)

Lemma aggregation_after_empty : aggregation_after [] Engine.empty.
Proof. repeat split. Qed.

Lemma engine_step_after (cs : list Candle) (a : Engine.Aggregation)
    (c : Candle) :
  aggregation_after cs a ->
  aggregation_after (cs ++ [c]) (fst (Engine.step a c)) /\
  Engine.visible_htf (fst (Engine.step a c)) = htf_bars cs /\
  Engine.pending (fst (Engine.step a c)) = snd (Engine.step a c) /\
  htf_bars (cs ++ [c]) = htf_bars cs ++ option_list (snd (Engine.step a c)) /\
  is_not_None (snd (Engine.step a c))
  = (List.length (leftover cs ++ [c]) =? 5)%nat.
Proof.
  intros [Hl [Hb [Hv Ha]]].
  destruct a as [l v b p av]. cbn in Hl, Hb, Hv, Ha. subst l b av.
  pose proof (htf_bars_snoc cs c) as Hs.
  unfold Engine.step, Engine.promote, Engine.push, aggregation_after.
  destruct p as [pd|];
    cbn [is_not_None Engine.available_next Engine.pending Engine.bucket
         Engine.ltf_history Engine.visible_htf option_list] in *;
    destruct (List.length (leftover cs ++ [c]) =? 5)%nat;
    destruct Hs as [Hs1 Hs2]; cbn; rewrite Hs1, Hs2, <- Hv;
    rewrite ?app_nil_r; repeat split; reflexivity.
Qed.

(** ** One tick of each driver *)

(** [decide] touches the position and the trade log only. *)
Lemma backtest_decide_frame (self : Backtest.PullbackBacktestAdapter)
    (completed : option Candle) (timestamp : Z) (price : float) :
  let r := Backtest.decide self completed timestamp price in
  backtest_aggregation (fst r) = backtest_aggregation self /\
  Backtest.strategy (fst r) = Backtest.strategy self /\
  Backtest.candle_count (fst r) = Backtest.candle_count self /\
  Backtest.htf_count (fst r) = Backtest.htf_count self /\
  out_completed (snd r) = completed /\
  out_raised (snd r) = None.
Proof.
  unfold Backtest.decide.
  destruct ((len (Backtest.ltf_candles self) <? 2)
            || (len (Backtest.htf_candles self) <? 1));
    [cbn; repeat split; reflexivity|].
  destruct (backtest_call_strategy self) as [sg [Ec _]]. rewrite Ec.
  unfold Backtest.execute_orders.
  destruct sg, (Backtest.current_trade self); cbn;
    repeat split; reflexivity.
Qed.

Lemma live_decide_frame (self : Live.LiveTrader)
    (completed : option Candle) (ts : Z) (price : float)
    (order_ok : bool) :
  let r := Live.decide self completed ts price order_ok in
  live_aggregation (fst r) = live_aggregation self /\
  Live.symbol (fst r) = Live.symbol self /\
  Live.strategy (fst r) = Live.strategy self /\
  Live.candle_count (fst r) = Live.candle_count self /\
  Live.htf_count (fst r) = Live.htf_count self /\
  Live.candle_file (fst r) = Live.candle_file self /\
  out_completed (snd r) = completed.
Proof.
  unfold Live.decide.
  destruct ((len (Live.ltf_candles self) <? 2)
            || (len (Live.htf_candles self) <? 1));
    [cbn; repeat split; reflexivity|].
  destruct (live_call_strategy self) as [sg [Ec _]]. rewrite Ec.
  unfold Live.execute_orders.
  destruct sg, (Live.current_trade self) as [t|], order_ok; cbn;
    try (destruct (truediv _ _)); cbn; repeat split; reflexivity.
Qed.

(** A tick of the backtest adapter is a step of the reference
    aggregation, and it does not raise. *)
Lemma backtest_next_step (self : Backtest.PullbackBacktestAdapter)
    (data : Bar) :
  let r := Backtest.next self data in
  let e := Engine.step (backtest_aggregation self) (candle_of data) in
  backtest_aggregation (fst r) = fst e /\
  out_completed (snd r) = snd e /\
  out_raised (snd r) = None /\
  Backtest.candle_count (fst r) = Backtest.candle_count self + 1 /\
  Backtest.htf_count (fst r) - len (Backtest.htf_candles (fst r)) =
  Backtest.htf_count self - len (Backtest.htf_candles self).
Proof.
  unfold Backtest.next.
  destruct (backtest_prepare self data) as [mid [E [Ha [_ [_ [_ [Hc Hh]]]]]]].
  rewrite E. cbv zeta.
  destruct (backtest_decide_frame mid
              (snd (Engine.step (backtest_aggregation self)
                      (candle_of data)))
              (index data) (Close data))
    as [Fa [_ [Fc [Fh [Fo Fr]]]]].
  rewrite Fa, Fo, Fr, Fc, Fh.
  assert (Backtest.htf_candles
            (fst (Backtest.decide mid
                    (snd (Engine.step (backtest_aggregation self)
                            (candle_of data)))
                    (index data) (Close data)))
          = Backtest.htf_candles mid) as Ev.
  { change (Engine.visible_htf
              (backtest_aggregation
                 (fst (Backtest.decide mid
                         (snd (Engine.step (backtest_aggregation self)
                                 (candle_of data)))
                         (index data) (Close data))))
            = Engine.visible_htf (backtest_aggregation mid)).
    rewrite Fa. reflexivity. }
  rewrite Ev. repeat split; assumption.
Qed.

(** So is a tick of the live trader, whatever the order call does. *)
Lemma live_tick_step (self : Live.LiveTrader) (candle_ltf : Candle)
    (ts : Z) (order_ok : bool) :
  let r := Live.tick self candle_ltf ts order_ok in
  let e := Engine.step (live_aggregation self) candle_ltf in
  live_aggregation (fst r) = fst e /\
  out_completed (snd r) = snd e /\
  Live.symbol (fst r) = Live.symbol self /\
  Live.candle_count (fst r) = Live.candle_count self + 1 /\
  Live.htf_count (fst r) - len (Live.htf_candles (fst r)) =
  Live.htf_count self - len (Live.htf_candles self) /\
  Live.candle_file (fst r) =
  Live.candle_file self
  ++ [{| index := ts; Open := open candle_ltf; Close := close candle_ltf |}].
Proof.
  unfold Live.tick.
  destruct (live_prepare self candle_ltf ts)
    as [mid [E [Ha [Hs [_ [_ [_ [Hc [Hh Hf]]]]]]]]].
  rewrite E. cbv zeta.
  destruct (live_decide_frame mid
              (snd (Engine.step (live_aggregation self) candle_ltf))
              ts (close candle_ltf) order_ok)
    as [Fa [Fs [_ [Fc [Fh [Ff Fo]]]]]].
  rewrite Fa, Fo, Fs, Fc, Fh, Ff.
  assert (Live.htf_candles
            (fst (Live.decide mid
                    (snd (Engine.step (live_aggregation self) candle_ltf))
                    ts (close candle_ltf) order_ok))
          = Live.htf_candles mid) as Ev.
  { change (Engine.visible_htf
              (live_aggregation
                 (fst (Live.decide mid
                         (snd (Engine.step (live_aggregation self)
                                 candle_ltf))
                         ts (close candle_ltf) order_ok)))
            = Engine.visible_htf (live_aggregation mid)).
    rewrite Fa. reflexivity. }
  rewrite Ev. repeat split; assumption.
Qed.

(** ** Runs *)

Lemma backtest_run_cons (self : Backtest.PullbackBacktestAdapter)
    (data : Bar) (rest : list Bar) :
  Backtest.run self (data :: rest) =
  (fst (Backtest.run (fst (Backtest.next self data)) rest),
   snd (Backtest.next self data)
   :: snd (Backtest.run (fst (Backtest.next self data)) rest)).
Proof.
  cbn [Backtest.run].
  pose proof (backtest_next_step self data) as [_ [_ [Hr _]]].
  destruct (Backtest.next self data) as [s o]. cbn [fst snd] in *.
  rewrite Hr. destruct (Backtest.run s rest). reflexivity.
Qed.

Lemma backtest_run_app (self : Backtest.PullbackBacktestAdapter)
    (l1 l2 : list Bar) :
  Backtest.run self (l1 ++ l2) =
  (fst (Backtest.run (fst (Backtest.run self l1)) l2),
   snd (Backtest.run self l1)
   ++ snd (Backtest.run (fst (Backtest.run self l1)) l2)).
Proof.
  revert self. induction l1 as [|b l1 IH]; intros self.
  - cbn. destruct (Backtest.run self l2). reflexivity.
  - cbn [app]. rewrite !backtest_run_cons. cbn [fst snd].
    rewrite IH. reflexivity.
Qed.

Lemma live_feed_cons (self : Live.LiveTrader) (b : Bar) (order_ok : bool)
    (rest : list (Bar * bool)) :
  Live.feed self ((b, order_ok) :: rest) =
  (fst (Live.feed
          (fst (Live.tick self (candle_of b) (index b) order_ok)) rest),
   snd (Live.tick self (candle_of b) (index b) order_ok)
   :: snd (Live.feed
             (fst (Live.tick self (candle_of b) (index b) order_ok))
             rest)).
Proof.
  cbn [Live.feed].
  destruct (Live.tick self (candle_of b) (index b) order_ok) as [s o].
  cbn [fst snd]. destruct (Live.feed s rest). reflexivity.
Qed.

Lemma live_feed_app (self : Live.LiveTrader) (l1 l2 : list (Bar * bool)) :
  Live.feed self (l1 ++ l2) =
  (fst (Live.feed (fst (Live.feed self l1)) l2),
   snd (Live.feed self l1) ++ snd (Live.feed (fst (Live.feed self l1)) l2)).
Proof.
  revert self. induction l1 as [|[b ok] l1 IH]; intros self.
  - cbn. destruct (Live.feed self l2). reflexivity.
  - cbn [app]. rewrite !live_feed_cons. cbn [fst snd].
    rewrite IH. reflexivity.
Qed.

Lemma completed_of_snoc (outs : list Output) (o : Output) :
  completed_of (outs ++ [o]) = completed_of outs ++ option_list (out_completed o).
Proof.
  unfold completed_of. rewrite flat_map_app. cbn. rewrite app_nil_r.
  reflexivity.
Qed.

Lemma firstn_S_snoc {A : Type} (l : list A) (t : nat) (x : A) :
  nth_error l t = Some x -> firstn (S t) l = firstn t l ++ [x].
Proof.
  revert l. induction t as [|t IH]; intros [|y l] H; try discriminate.
  - injection H as ->. reflexivity.
  - cbn [nth_error] in H. rewrite firstn_cons, (IH l H). reflexivity.
Qed.

(** The state of the backtest adapter after a run from [init]. *)
Lemma backtest_run_state (bars : list Bar) :
  let r := Backtest.run Backtest.init bars in
  aggregation_after (map candle_of bars) (backtest_aggregation (fst r)) /\
  Backtest.htf_candles (fst r) = htf_bars (removelast (map candle_of bars)) /\
  completed_of (snd r) = htf_bars (map candle_of bars) /\
  List.length (snd r) = List.length bars /\
  Backtest.candle_count (fst r) = len bars /\
  Backtest.htf_count (fst r) = len (Backtest.htf_candles (fst r)).
Proof.
  induction bars as [|b bars IH] using rev_ind.
  - cbn. repeat split.
  - cbv zeta in IH |- *. rewrite backtest_run_app. cbn [fst snd].
    destruct IH as [Ia [Iv [Io [In [Ic Ih]]]]].
    set (s := fst (Backtest.run Backtest.init bars)) in *.
    rewrite backtest_run_cons. cbn [Backtest.run fst snd].
    destruct (backtest_next_step s b) as [Sa [So [_ [Sc Sh]]]].
    destruct (engine_step_after _ _ (candle_of b) Ia)
      as [Ea [Ev [_ [Eb _]]]].
    rewrite map_app. cbn [map]. rewrite removelast_last.
    rewrite Sa, completed_of_snoc, So, Io, <- Eb.
    rewrite !length_app, In, Sc, Ic, len_app.
    assert (Backtest.htf_candles (fst (Backtest.next s b))
            = htf_bars (map candle_of bars)) as Hv.
    { change (Engine.visible_htf
                (backtest_aggregation (fst (Backtest.next s b)))
              = htf_bars (map candle_of bars)).
      rewrite Sa. exact Ev. }
    split; [exact Ea|]. split; [exact Hv|]. split; [reflexivity|].
    split; [reflexivity|]. split; [reflexivity|]. lia.
Qed.

(** The state of the live trader after the engine was fed from
    [init]. *)
Lemma live_feed_state (sym : string) (ticks : list (Bar * bool)) :
  let r := Live.feed (Live.init sym) ticks in
  let bars := map fst ticks in
  aggregation_after (map candle_of bars) (live_aggregation (fst r)) /\
  Live.htf_candles (fst r) = htf_bars (removelast (map candle_of bars)) /\
  completed_of (snd r) = htf_bars (map candle_of bars) /\
  List.length (snd r) = List.length ticks /\
  Live.candle_count (fst r) = len ticks /\
  Live.htf_count (fst r) = len (Live.htf_candles (fst r)) /\
  Live.symbol (fst r) = sym /\
  Live.candle_file (fst r) = bars.
Proof.
  induction ticks as [|[b ok] ticks IH] using rev_ind.
  - cbn. repeat split.
  - cbv zeta in IH |- *. rewrite live_feed_app. cbn [fst snd].
    destruct IH as [Ia [Iv [Io [In [Ic [Ih [Is If]]]]]]].
    set (s := fst (Live.feed (Live.init sym) ticks)) in *.
    rewrite live_feed_cons. cbn [Live.feed fst snd].
    destruct (live_tick_step s (candle_of b) (index b) ok)
      as [Sa [So [Ss [Sc [Sh Sf]]]]].
    destruct (engine_step_after _ _ (candle_of b) Ia)
      as [Ea [Ev [_ [Eb _]]]].
    rewrite !map_app. cbn [map fst]. rewrite removelast_last.
    rewrite Sa, completed_of_snoc, So, Io, <- Eb, Ss, Sf, If.
    rewrite !length_app, In, Sc, Ic, len_app.
    assert (Live.htf_candles
              (fst (Live.tick s (candle_of b) (index b) ok))
            = htf_bars (map candle_of (map fst ticks))) as Hv.
    { change (Engine.visible_htf
                (live_aggregation
                   (fst (Live.tick s (candle_of b) (index b) ok)))
              = htf_bars (map candle_of (map fst ticks))).
      rewrite Sa. exact Ev. }
    split; [exact Ea|]. split; [exact Hv|]. split; [reflexivity|].
    split; [reflexivity|]. split; [reflexivity|]. split; [lia|].
    split; [exact Is|]. destruct b; reflexivity.
Qed.

(** The output of tick [t] is the output of the driver on the state the
    first [t] bars leave. *)
Lemma backtest_run_nth (bars : list Bar) (t : nat) (b : Bar) :
  nth_error bars t = Some b ->
  let s := fst (Backtest.run Backtest.init (firstn t bars)) in
  nth_error (snd (Backtest.run Backtest.init bars)) t
  = Some (snd (Backtest.next s b)) /\
  fst (Backtest.run Backtest.init (firstn (S t) bars))
  = fst (Backtest.next s b).
Proof.
  intros H. cbv zeta. split.
  - rewrite <- (firstn_skipn_middle t bars H) at 1.
    rewrite backtest_run_app, backtest_run_cons. cbn [fst snd].
    destruct (backtest_run_state (firstn t bars)) as [_ [_ [_ [Hn _]]]].
    assert (List.length (firstn t bars) = t) as Ht.
    { apply firstn_length_le.
      assert (nth_error bars t <> None) as Hs by (rewrite H; discriminate).
      apply nth_error_Some in Hs. lia. }
    rewrite nth_error_app2 by lia.
    rewrite Hn, Ht, Nat.sub_diag. reflexivity.
  - rewrite (firstn_S_snoc bars t b H).
    rewrite backtest_run_app, backtest_run_cons. reflexivity.
Qed.

Lemma live_feed_nth (sym : string) (ticks : list (Bar * bool)) (t : nat)
    (b : Bar) (order_ok : bool) :
  nth_error ticks t = Some (b, order_ok) ->
  let s := fst (Live.feed (Live.init sym) (firstn t ticks)) in
  nth_error (snd (Live.feed (Live.init sym) ticks)) t
  = Some (snd (Live.tick s (candle_of b) (index b) order_ok)) /\
  fst (Live.feed (Live.init sym) (firstn (S t) ticks))
  = fst (Live.tick s (candle_of b) (index b) order_ok).
Proof.
  intros H. cbv zeta. split.
  - rewrite <- (firstn_skipn_middle t ticks H) at 1.
    rewrite live_feed_app, live_feed_cons. cbn [fst snd].
    destruct (live_feed_state sym (firstn t ticks))
      as [_ [_ [_ [Hn _]]]].
    assert (List.length (firstn t ticks) = t) as Ht.
    { apply firstn_length_le.
      assert (nth_error ticks t <> None) as Hs by (rewrite H; discriminate).
      apply nth_error_Some in Hs. lia. }
    rewrite nth_error_app2 by lia.
    rewrite Hn, Ht, Nat.sub_diag. reflexivity.
  - rewrite (firstn_S_snoc ticks t _ H).
    rewrite live_feed_app, live_feed_cons. reflexivity.
Qed.

(** An HTF bar is completed on every fifth step of the reference model,
    and on no other. *)
Lemma completed_every_fifth (cs : list Candle) (a : Engine.Aggregation)
    (c : Candle) :
  aggregation_after cs a ->
  is_not_None (snd (Engine.step a c)) = true
  <-> (S (List.length cs) mod 5 = 0)%nat.
Proof.
  intros Ha.
  destruct (engine_step_after cs a c Ha) as [_ [_ [_ [_ ->]]]].
  rewrite length_app, leftover_length. cbn [List.length].
  rewrite Nat.eqb_eq. lia.
Qed.

Lemma nth_error_length {A : Type} (l : list A) (t : nat) (x : A) :
  nth_error l t = Some x -> (t < List.length l)%nat.
Proof.
  intros H. apply nth_error_Some. rewrite H. discriminate.
Qed.

Lemma backtest_bucket (bars : list Bar) :
  (forall n first last,
      nth_error bars (5 * n) = Some first ->
      nth_error bars (5 * n + 4) = Some last ->
      nth_error (completed_of (snd (Backtest.run Backtest.init bars))) n
      = Some {| open := Open first; close := Close last |}) /\
  (forall t o,
      nth_error (snd (Backtest.run Backtest.init bars)) t = Some o ->
      is_not_None (out_completed o) = true <-> (S t mod 5 = 0)%nat) /\
  (forall t,
      (t < List.length bars)%nat ->
      List.length
        (Backtest._htf_bucket
           (fst (Backtest.run Backtest.init (firstn (S t) bars))))
      = (S t mod 5)%nat).
Proof.
  split; [|split].
  - intros n first last Hf Hl.
    destruct (backtest_run_state bars) as [_ [_ [-> _]]].
    apply (htf_bars_nth _ n (candle_of first) (candle_of last));
      now apply map_nth_error.
  - intros t o Ho.
    destruct (backtest_run_state bars) as [_ [_ [_ [Hn _]]]].
    pose proof (nth_error_length _ _ _ Ho) as Ht. rewrite Hn in Ht.
    destruct (nth_error bars t) as [b|] eqn:Hb;
      [|apply nth_error_None in Hb; lia].
    destruct (backtest_run_nth bars t b Hb) as [Eo _].
    rewrite Eo in Ho. injection Ho as <-.
    destruct (backtest_next_step
                (fst (Backtest.run Backtest.init (firstn t bars))) b)
      as [_ [-> _]].
    destruct (backtest_run_state (firstn t bars)) as [Ha _].
    rewrite (completed_every_fifth _ _ (candle_of b) Ha).
    rewrite length_map, firstn_length_le by lia. reflexivity.
  - intros t Ht.
    destruct (backtest_run_state (firstn (S t) bars)) as [[_ [Hb _]] _].
    cbn [backtest_aggregation Engine.bucket] in Hb.
    rewrite Hb, leftover_length, length_map, firstn_length_le by lia.
    reflexivity.
Qed.

Lemma live_bucket (sym : string) (ticks : list (Bar * bool)) :
  (forall n first last,
      nth_error (map fst ticks) (5 * n) = Some first ->
      nth_error (map fst ticks) (5 * n + 4) = Some last ->
      nth_error (completed_of (snd (Live.feed (Live.init sym) ticks))) n
      = Some {| open := Open first; close := Close last |}) /\
  (forall t o,
      nth_error (snd (Live.feed (Live.init sym) ticks)) t = Some o ->
      is_not_None (out_completed o) = true <-> (S t mod 5 = 0)%nat) /\
  (forall t,
      (t < List.length ticks)%nat ->
      List.length
        (Live._htf_bucket
           (fst (Live.feed (Live.init sym) (firstn (S t) ticks))))
      = (S t mod 5)%nat).
Proof.
  split; [|split].
  - intros n first last Hf Hl.
    destruct (live_feed_state sym ticks) as [_ [_ [-> _]]].
    apply (htf_bars_nth _ n (candle_of first) (candle_of last));
      now apply map_nth_error.
  - intros t o Ho.
    destruct (live_feed_state sym ticks) as [_ [_ [_ [Hn _]]]].
    pose proof (nth_error_length _ _ _ Ho) as Ht. rewrite Hn in Ht.
    destruct (nth_error ticks t) as [[b ok]|] eqn:Hb;
      [|apply nth_error_None in Hb; lia].
    destruct (live_feed_nth sym ticks t b ok Hb) as [Eo _].
    rewrite Eo in Ho. injection Ho as <-.
    destruct (live_tick_step
                (fst (Live.feed (Live.init sym) (firstn t ticks)))
                (candle_of b) (index b) ok)
      as [_ [-> _]].
    destruct (live_feed_state sym (firstn t ticks)) as [Ha _].
    rewrite (completed_every_fifth _ _ (candle_of b) Ha).
    rewrite !length_map, firstn_length_le by lia. reflexivity.
  - intros t Ht.
    destruct (live_feed_state sym (firstn (S t) ticks))
      as [[_ [Hb _]] _].
    cbn [live_aggregation Engine.bucket] in Hb.
    rewrite Hb, leftover_length, !length_map, firstn_length_le by lia.
    reflexivity.
Qed.

(** C3.  In both drivers the [n]-th HTF bar synthesized over a run opens
    at the open of LTF bar [5n] and closes at the close of LTF bar
    [5n+4]; a tick completes an HTF bar exactly when it is a fifth push
    (tick [t], counted from 0, with [t+1] a multiple of 5); and the
    bucket holds [(t+1) mod 5] candles after tick [t], so it is empty at
    each completion. *)
Theorem htf_bucket_correct (bars : list Bar) (sym : string)
    (ticks : list (Bar * bool)) :
  ((forall n first last,
       nth_error bars (5 * n) = Some first ->
       nth_error bars (5 * n + 4) = Some last ->
       nth_error (completed_of (snd (Backtest.run Backtest.init bars))) n
       = Some {| open := Open first; close := Close last |}) /\
   (forall t o,
       nth_error (snd (Backtest.run Backtest.init bars)) t = Some o ->
       is_not_None (out_completed o) = true <-> (S t mod 5 = 0)%nat) /\
   (forall t,
       (t < List.length bars)%nat ->
       List.length
         (Backtest._htf_bucket
            (fst (Backtest.run Backtest.init (firstn (S t) bars))))
       = (S t mod 5)%nat)) /\
  ((forall n first last,
       nth_error (map fst ticks) (5 * n) = Some first ->
       nth_error (map fst ticks) (5 * n + 4) = Some last ->
       nth_error (completed_of (snd (Live.feed (Live.init sym) ticks))) n
       = Some {| open := Open first; close := Close last |}) /\
   (forall t o,
       nth_error (snd (Live.feed (Live.init sym) ticks)) t = Some o ->
       is_not_None (out_completed o) = true <-> (S t mod 5 = 0)%nat) /\
   (forall t,
       (t < List.length ticks)%nat ->
       List.length
         (Live._htf_bucket
            (fst (Live.feed (Live.init sym) (firstn (S t) ticks))))
       = (S t mod 5)%nat)).
Proof.
  split.
  - exact (backtest_bucket bars).
  - exact (live_bucket sym ticks).
Qed.

Lemma htf_bucket_correct_witness :
  nth_error sample_bars (5 * 1)
  = Some {| index := 300; Open := 13%float; Close := 12.5%float |} /\
  nth_error sample_bars (5 * 1 + 4)
  = Some {| index := 540; Open := 13%float; Close := 13.5%float |} /\
  nth_error (completed_of (snd (Backtest.run Backtest.init sample_bars))) 1
  = Some {| open := 13%float; close := 13.5%float |} /\
  nth_error
    (completed_of
       (snd (Live.feed (Live.init "BTCUSDT") (all_orders_ok sample_bars))))
    1
  = Some {| open := 13%float; close := 13.5%float |}.
Proof.
  split; [reflexivity|]. split; [reflexivity|]. split.
  - exact (proj1 (proj1 (htf_bucket_correct sample_bars "BTCUSDT"
                           (all_orders_ok sample_bars)))
             1%nat
             {| index := 300; Open := 13%float; Close := 12.5%float |}
             {| index := 540; Open := 13%float; Close := 13.5%float |}
             eq_refl eq_refl).
  - exact (proj1 (proj2 (htf_bucket_correct sample_bars "BTCUSDT"
                           (all_orders_ok sample_bars)))
             1%nat
             {| index := 300; Open := 13%float; Close := 12.5%float |}
             {| index := 540; Open := 13%float; Close := 13.5%float |}
             eq_refl eq_refl).
Defined.

(** ** The one-tick delay *)

(** Over the candles [cs], the [n]-th HTF bar is not among those that the
    first [t] candles complete while [t <= 5n+4], and is among them from
    [t = 5n+5] on. *)
Lemma delayed_visibility (cs : list Candle) (t n : nat) :
  (t < List.length cs)%nat ->
  ((t <= 5 * n + 4)%nat -> nth_error (htf_bars (firstn t cs)) n = None) /\
  ((5 * n + 5 <= t)%nat ->
   exists h, nth_error (htf_bars cs) n = Some h /\
             nth_error (htf_bars (firstn t cs)) n = Some h).
Proof.
  intros Ht. rewrite htf_bars_firstn, nth_error_firstn. split; intros H.
  - destruct (Nat.ltb_spec n (t / 5)) as [L|L]; [lia|reflexivity].
  - destruct (Nat.ltb_spec n (t / 5)) as [L|L]; [|lia].
    destruct (nth_error (htf_bars cs) n) as [h|] eqn:E.
    + exists h. split; reflexivity.
    + apply nth_error_None in E. rewrite htf_bars_length in E. lia.
Qed.

(** The [n]-th HTF bar is the one that the step on candle [5n+4]
    completes. *)
Lemma nth_completed_at (cs : list Candle) (n : nat) (c : Candle)
    (a : Engine.Aggregation) :
  nth_error cs (5 * n + 4) = Some c ->
  aggregation_after (firstn (5 * n + 4) cs) a ->
  snd (Engine.step a c) = nth_error (htf_bars cs) n.
Proof.
  intros Hc Ha.
  destruct (engine_step_after _ _ c Ha) as [_ [_ [_ [Hb _]]]].
  rewrite <- (firstn_S_snoc cs _ c Hc) in Hb.
  rewrite !htf_bars_firstn in Hb.
  replace (S (5 * n + 4) / 5)%nat with (S n) in Hb by lia.
  replace ((5 * n + 4) / 5)%nat with n in Hb by lia.
  pose proof (nth_error_length _ _ _ Hc) as Hlen.
  assert (List.length (firstn n (htf_bars cs)) = n) as Hn.
  { apply firstn_length_le. rewrite htf_bars_length. lia. }
  assert (nth_error (firstn (S n) (htf_bars cs)) n
          = nth_error (htf_bars cs) n) as E.
  { rewrite nth_error_firstn.
    destruct (Nat.ltb_spec n (S n)); [reflexivity|lia]. }
  rewrite <- E, Hb, nth_error_app2 by lia.
  rewrite Hn, Nat.sub_diag.
  destruct (snd (Engine.step a c)); reflexivity.
Qed.

Lemma backtest_delay (bars : list Bar) (t n : nat) :
  (t < List.length bars)%nat ->
  let visible :=
    Backtest.htf_candles
      (fst (Backtest.run Backtest.init (firstn (S t) bars))) in
  let completed := completed_of (snd (Backtest.run Backtest.init bars)) in
  ((t <= 5 * n + 4)%nat -> nth_error visible n = None) /\
  ((5 * n + 5 <= t)%nat ->
   exists h, nth_error completed n = Some h /\
             nth_error visible n = Some h) /\
  (forall o,
      nth_error (snd (Backtest.run Backtest.init bars)) (5 * n + 4)
      = Some o ->
      out_completed o = nth_error completed n).
Proof.
  intros Ht. cbv zeta.
  destruct (backtest_run_state bars) as [_ [_ [Hc [Hn _]]]].
  destruct (backtest_run_state (firstn (S t) bars)) as [_ [Hv _]].
  rewrite Hv, Hc, <- firstn_map, removelast_firstn
    by (rewrite length_map; exact Ht).
  destruct (delayed_visibility (map candle_of bars) t n) as [D1 D2];
    [rewrite length_map; exact Ht|].
  split; [exact D1|]. split; [exact D2|].
  intros o Ho.
  pose proof (nth_error_length _ _ _ Ho) as Hlen. rewrite Hn in Hlen.
  destruct (nth_error bars (5 * n + 4)) as [b|] eqn:Hb;
    [|apply nth_error_None in Hb; lia].
  destruct (backtest_run_nth bars _ b Hb) as [Eo _].
  replace o
    with (snd (Backtest.next
                 (fst (Backtest.run Backtest.init
                         (firstn (5 * n + 4) bars))) b))
    by congruence.
  destruct (backtest_next_step
              (fst (Backtest.run Backtest.init (firstn (5 * n + 4) bars)))
              b) as [_ [-> _]].
  apply nth_completed_at.
  - now apply map_nth_error.
  - rewrite firstn_map.
    exact (proj1 (backtest_run_state (firstn (5 * n + 4) bars))).
Qed.

Lemma live_delay (sym : string) (ticks : list (Bar * bool)) (t n : nat) :
  (t < List.length ticks)%nat ->
  let visible :=
    Live.htf_candles
      (fst (Live.feed (Live.init sym) (firstn (S t) ticks))) in
  let completed := completed_of (snd (Live.feed (Live.init sym) ticks)) in
  ((t <= 5 * n + 4)%nat -> nth_error visible n = None) /\
  ((5 * n + 5 <= t)%nat ->
   exists h, nth_error completed n = Some h /\
             nth_error visible n = Some h) /\
  (forall o,
      nth_error (snd (Live.feed (Live.init sym) ticks)) (5 * n + 4)
      = Some o ->
      out_completed o = nth_error completed n).
Proof.
  intros Ht. cbv zeta.
  destruct (live_feed_state sym ticks) as [_ [_ [Hc [Hn _]]]].
  destruct (live_feed_state sym (firstn (S t) ticks)) as [_ [Hv _]].
  rewrite Hv, Hc, <- !firstn_map, removelast_firstn
    by (rewrite !length_map; exact Ht).
  destruct (delayed_visibility (map candle_of (map fst ticks)) t n)
    as [D1 D2]; [rewrite !length_map; exact Ht|].
  split; [exact D1|]. split; [exact D2|].
  intros o Ho.
  pose proof (nth_error_length _ _ _ Ho) as Hlen. rewrite Hn in Hlen.
  destruct (nth_error ticks (5 * n + 4)) as [[b ok]|] eqn:Hb;
    [|apply nth_error_None in Hb; lia].
  destruct (live_feed_nth sym ticks _ b ok Hb) as [Eo _].
  replace o
    with (snd (Live.tick
                 (fst (Live.feed (Live.init sym)
                         (firstn (5 * n + 4) ticks)))
                 (candle_of b) (index b) ok))
    by congruence.
  destruct (live_tick_step
              (fst (Live.feed (Live.init sym) (firstn (5 * n + 4) ticks)))
              (candle_of b) (index b) ok) as [_ [-> _]].
  apply nth_completed_at.
  - rewrite map_map.
    exact (map_nth_error (fun x : Bar * bool => candle_of (fst x)) _ _ Hb).
  - rewrite !firstn_map.
    exact (proj1 (live_feed_state sym (firstn (5 * n + 4) ticks))).
Qed.

(** C2.  In both drivers, after tick [t] (counted from 0) the [n]-th
    completed HTF bar (counted from 0) is absent from the visible HTF
    history while [t <= 5n+4] and present in it from [t = 5n+5] on; and
    that bar is the one tick [5n+4] completes.  So it becomes visible
    exactly one tick after its completion. *)
Theorem htf_visible_one_tick_after_completion (bars : list Bar)
    (sym : string) (ticks : list (Bar * bool)) (t n : nat) :
  ((t < List.length bars)%nat ->
   let visible :=
     Backtest.htf_candles
       (fst (Backtest.run Backtest.init (firstn (S t) bars))) in
   let completed := completed_of (snd (Backtest.run Backtest.init bars)) in
   ((t <= 5 * n + 4)%nat -> nth_error visible n = None) /\
   ((5 * n + 5 <= t)%nat ->
    exists h, nth_error completed n = Some h /\
              nth_error visible n = Some h) /\
   (forall o,
       nth_error (snd (Backtest.run Backtest.init bars)) (5 * n + 4)
       = Some o ->
       out_completed o = nth_error completed n)) /\
  ((t < List.length ticks)%nat ->
   let visible :=
     Live.htf_candles
       (fst (Live.feed (Live.init sym) (firstn (S t) ticks))) in
   let completed := completed_of (snd (Live.feed (Live.init sym) ticks)) in
   ((t <= 5 * n + 4)%nat -> nth_error visible n = None) /\
   ((5 * n + 5 <= t)%nat ->
    exists h, nth_error completed n = Some h /\
              nth_error visible n = Some h) /\
   (forall o,
       nth_error (snd (Live.feed (Live.init sym) ticks)) (5 * n + 4)
       = Some o ->
       out_completed o = nth_error completed n)).
Proof.
  split.
  - exact (backtest_delay bars t n).
  - exact (live_delay sym ticks t n).
Qed.

Lemma htf_visible_one_tick_after_completion_witness :
  (4 < List.length sample_bars)%nat /\
  (5 < List.length sample_bars)%nat /\
  nth_error
    (Backtest.htf_candles
       (fst (Backtest.run Backtest.init (firstn 5 sample_bars)))) 0 = None /\
  (exists h,
      nth_error (completed_of (snd (Backtest.run Backtest.init sample_bars)))
        0 = Some h /\
      nth_error
        (Backtest.htf_candles
           (fst (Backtest.run Backtest.init (firstn 6 sample_bars)))) 0
      = Some h).
Proof.
  split; [cbn; lia|]. split; [cbn; lia|]. split.
  - refine (proj1 (proj1 (htf_visible_one_tick_after_completion
                            sample_bars "BTCUSDT"
                            (all_orders_ok sample_bars) 4 0) _) _);
      cbn; lia.
  - refine (proj1 (proj2 (proj1 (htf_visible_one_tick_after_completion
                                   sample_bars "BTCUSDT"
                                   (all_orders_ok sample_bars) 5 0) _)) _);
      cbn; lia.
Defined.

(** ** Parity of the two drivers *)

(** A green candle that does not open below zero closes above zero. *)
Lemma green_close_nonzero (c : Candle) :
  is_green c = true -> nonneg (open c) = true ->
  PrimFloat.eqb (close c) 0%float = false.
Proof.
  unfold is_green, nonneg. rewrite ltb_spec, leb_spec, eqb_spec.
  change (Prim2SF 0%float) with (S754_zero false).
  destruct (Prim2SF (open c)) as [s|[]| |[] m e],
    (Prim2SF (close c)) as [s'|[]| |[] m' e']; cbn; congruence.
Qed.

Lemma truediv_nonzero (a b : float) :
  PrimFloat.eqb b 0%float = false -> truediv a b = Ok (PrimFloat.div a b).
Proof. intros H. unfold truediv. rewrite H. reflexivity. Qed.

Lemma same_state_lists (l : Live.LiveTrader)
    (b : Backtest.PullbackBacktestAdapter) :
  live_aggregation l = backtest_aggregation b ->
  Live.ltf_candles l = Backtest.ltf_candles b /\
  Live.htf_candles l = Backtest.htf_candles b.
Proof.
  intros H. split.
  - exact (f_equal Engine.ltf_history H).
  - exact (f_equal Engine.visible_htf H).
Qed.

(** From the same state, with the order call returning and a non-zero
    entry price, [decide] does the same in both drivers. *)
Lemma parity_decide (l : Live.LiveTrader)
    (b : Backtest.PullbackBacktestAdapter) (completed : option Candle)
    (ts : Z) (earlier : list Candle) (c : Candle) :
  same_state l b ->
  Live.symbol l = "BTCUSDT"%string ->
  entry_price_nonzero (Live.current_trade l) ->
  Live.ltf_candles l = earlier ++ [c] ->
  nonneg (open c) = true ->
  let rl := Live.decide l completed ts (close c) true in
  let rb := Backtest.decide b completed ts (close c) in
  same_state (fst rl) (fst rb) /\
  Live.symbol (fst rl) = "BTCUSDT"%string /\
  entry_price_nonzero (Live.current_trade (fst rl)) /\
  snd rl = snd rb.
Proof.
  intros HS Hsym Hentry Hltf Hopen.
  pose proof HS as [Ha [Hs [Ht [Hf [Hc Hh]]]]].
  destruct (same_state_lists l b Ha) as [El Eh].
  unfold Live.decide, Backtest.decide. cbv zeta.
  rewrite <- El, <- Eh.
  destruct ((len (Live.ltf_candles l) <? 2)
            || (len (Live.htf_candles l) <? 1)).
  { cbn. repeat split; assumption. }
  destruct (live_call_strategy l) as [sl [Cl Sl]].
  destruct (backtest_call_strategy b) as [sb [Cb Sb]].
  rewrite Cl, Cb.
  assert (sb = sl) as ->.
  { rewrite <- El, <- Eh, <- Ht, <- Hs, Sl in Sb. now injection Sb. }
  assert (sl = BUY -> PrimFloat.eqb (close c) 0%float = false) as Hbuy.
  { intros ->. apply green_close_nonzero; [|exact Hopen].
    rewrite Hltf in Sl. exact (buy_on_green _ _ _ _ _ Sl). }
  unfold Live.execute_orders, Backtest.execute_orders.
  rewrite <- Ht. clear Ht.
  destruct sl, (Live.current_trade l) as [t|] eqn:Et; cbn [fst snd];
    try (split; [exact HS|]; split; [exact Hsym|];
         split; [rewrite Et; exact Hentry|reflexivity]).
  - (* BUY while flat: the position is opened *)
    rewrite Hsym, Hc, Hh.
    split; [|split; [exact Hsym|split; [|reflexivity]]].
    + repeat split; cbn; assumption.
    + cbn. exact (Hbuy eq_refl).
  - (* SELL while open: the trade is completed and logged *)
    cbn [entry_price_nonzero] in Hentry.
    cbn [update_exit entry_price].
    rewrite (truediv_nonzero _ _ Hentry), Hc, Hh, Hf. cbn [fst snd].
    split; [|split; [exact Hsym|split; [exact I|reflexivity]]].
    repeat split; cbn; assumption.
Qed.

Lemma engine_step_ltf (a : Engine.Aggregation) (c : Candle) :
  Engine.ltf_history (fst (Engine.step a c)) = Engine.ltf_history a ++ [c].
Proof.
  unfold Engine.step, Engine.push, Engine.promote.
  destruct (Engine.available_next a), (Engine.pending a);
    cbn [Engine.bucket Engine.ltf_history];
    destruct (List.length _ =? 5)%nat; reflexivity.
Qed.

(** One tick keeps the two drivers in the same state and gives the same
    output. *)
Lemma parity_step (l : Live.LiveTrader)
    (b : Backtest.PullbackBacktestAdapter) (data : Bar) :
  same_state l b ->
  Live.symbol l = "BTCUSDT"%string ->
  entry_price_nonzero (Live.current_trade l) ->
  nonneg (Open data) = true ->
  let rl := Live.tick l (candle_of data) (index data) true in
  let rb := Backtest.next b data in
  same_state (fst rl) (fst rb) /\
  Live.symbol (fst rl) = "BTCUSDT"%string /\
  entry_price_nonzero (Live.current_trade (fst rl)) /\
  snd rl = snd rb.
Proof.
  intros [Ha [Hs [Ht [Hf [Hc Hh]]]]] Hsym Hentry Hopen.
  unfold Live.tick, Backtest.next. cbv zeta.
  destruct (live_prepare l (candle_of data) (index data))
    as [lm [El [La [Ls [Lst [Lt [Lf [Lc [Lh _]]]]]]]]].
  destruct (backtest_prepare b data)
    as [bm [Eb [Ba [Bst [Bt [Bl [Bc Bh]]]]]]].
  rewrite El, Eb, Ha.
  assert (live_aggregation lm = backtest_aggregation bm) as Hm
    by (rewrite La, Ba, Ha; reflexivity).
  destruct (same_state_lists l b Ha) as [_ Eh].
  destruct (same_state_lists lm bm Hm) as [_ Ehm].
  assert (same_state lm bm) as HS.
  { split; [exact Hm|]. split; [congruence|]. split; [congruence|].
    split; [congruence|]. split.
    - rewrite Lc, Bc, Hc. reflexivity.
    - rewrite Ehm, Eh in Lh. lia. }
  assert (Live.ltf_candles lm = Live.ltf_candles l ++ [candle_of data])
    as Hltf.
  { change (Engine.ltf_history (live_aggregation lm)
            = Engine.ltf_history (live_aggregation l) ++ [candle_of data]).
    rewrite La. apply engine_step_ltf. }
  apply (parity_decide lm bm _ (index data) (Live.ltf_candles l)
           (candle_of data) HS); try assumption; congruence.
Qed.

(** Over a whole run, from states that agree. *)
Lemma parity_run (bars : list Bar) :
  Forall (fun b => nonneg (Open b) = true) bars ->
  forall (l : Live.LiveTrader) (b : Backtest.PullbackBacktestAdapter),
    same_state l b ->
    Live.symbol l = "BTCUSDT"%string ->
    entry_price_nonzero (Live.current_trade l) ->
    same_state (fst (Live.feed l (all_orders_ok bars)))
      (fst (Backtest.run b bars)) /\
    snd (Live.feed l (all_orders_ok bars)) = snd (Backtest.run b bars).
Proof.
  induction 1 as [|data bars Hopen _ IH]; intros l b HS Hsym Hentry.
  - cbn. split; [exact HS|reflexivity].
  - cbn [all_orders_ok map]. fold (all_orders_ok bars).
    rewrite live_feed_cons, backtest_run_cons. cbn [fst snd].
    destruct (parity_step l b data HS Hsym Hentry Hopen)
      as [HS' [Hsym' [Hentry' Eo]]].
    destruct (IH _ _ HS' Hsym' Hentry') as [HS'' Eos].
    split; [exact HS''|]. rewrite Eo, Eos. reflexivity.
Qed.

Lemma same_state_init :
  same_state (Live.init "BTCUSDT") Backtest.init.
Proof. repeat split. Qed.




(** ** The polling loop around the engine *)

(** A tick neither reads nor writes the bookkeeping of the loop. *)
Lemma live_tick_forget (self : Live.LiveTrader) (c : Candle) (ts : Z)
    (order_ok : bool) :
  Live.tick (Live.forget_loop self) c ts order_ok =
  (Live.forget_loop (fst (Live.tick self c ts order_ok)),
   snd (Live.tick self c ts order_ok)) /\
  Live.last_candle_ts (fst (Live.tick self c ts order_ok))
  = Live.last_candle_ts self /\
  Live._alignment_complete (fst (Live.tick self c ts order_ok))
  = Live._alignment_complete self.
Proof.
  unfold Live.tick, Live.prepare, Live.decide, Live.aggregate,
    Live.call_strategy, Live.execute_orders, Live.promote_pending.
  destruct self as [sy st l h b p a al seen tr cc hc tf cf].
  cbn [Live.forget_loop Live.symbol Live.strategy Live.ltf_candles
       Live.htf_candles Live._htf_bucket Live._htf_pending
       Live._htf_available_next Live._alignment_complete
       Live.last_candle_ts Live.current_trade Live.candle_count
       Live.htf_count Live.trade_file Live.candle_file].
  destruct a, p as [pd|];
    cbn [Live.store_candle Live.set_pending Live.set_trade
         Live.forget_loop Live.symbol Live.strategy Live.ltf_candles
         Live.htf_candles Live._htf_bucket Live._htf_pending
         Live._htf_available_next Live._alignment_complete
         Live.last_candle_ts Live.current_trade Live.candle_count
         Live.htf_count Live.trade_file Live.candle_file];
    destruct (len (b ++ [c]) =? 5);
    try destruct (getitem (b ++ [c]) 0);
    try destruct (getitem (b ++ [c]) (-1));
    cbn [Live.store_candle Live.set_pending Live.set_trade
         Live.forget_loop Live.symbol Live.strategy Live.ltf_candles
         Live.htf_candles Live._htf_bucket Live._htf_pending
         Live._htf_available_next Live._alignment_complete
         Live.last_candle_ts Live.current_trade Live.candle_count
         Live.htf_count Live.trade_file Live.candle_file fst snd];
    try (repeat split; reflexivity);
    match goal with
    | |- context [if ?t then _ else _] => destruct t
    end; try (repeat split; reflexivity);
    match goal with
    | |- context [call_generate_signal ?s ?x ?y ?z] =>
        destruct (call_generate_signal s x y z) as [[sg|ex] o]
    end; try (repeat split; reflexivity);
    destruct sg, tr as [t|], order_ok; try (repeat split; reflexivity);
    cbn; try (destruct (truediv _ _)); repeat split; reflexivity.
Qed.

Lemma live_run_cons (self : Live.LiveTrader) (fetched : Res (Candle * Z))
    (order_ok : bool) (rest : list (Res (Candle * Z) * bool)) :
  Live.run self ((fetched, order_ok) :: rest) =
  (fst (Live.run (fst (Live.iteration self fetched order_ok)) rest),
   snd (Live.iteration self fetched order_ok)
   :: snd (Live.run (fst (Live.iteration self fetched order_ok)) rest)).
Proof.
  cbn [Live.run].
  destruct (Live.iteration self fetched order_ok) as [s o].
  cbn [fst snd]. destruct (Live.run s rest). reflexivity.
Qed.

Lemma forget_set_seen (self : Live.LiveTrader) (ts : Z) (aligned : bool) :
  Live.forget_loop (Live.set_seen self ts aligned) = Live.forget_loop self.
Proof. reflexivity. Qed.

(** The loop of [run] is the engine fed with the accepted bars: same
    engine state, same signals, same completed HTF bars. *)
Lemma live_run_feed (polls : list (Res (Candle * Z) * bool)) :
  forall self : Live.LiveTrader,
    let ticks :=
      accepted (Live.last_candle_ts self) (Live._alignment_complete self)
        polls in
    Live.forget_loop (fst (Live.run self polls))
    = fst (Live.feed (Live.forget_loop self) ticks) /\
    signals_of (snd (Live.run self polls))
    = signals_of (snd (Live.feed (Live.forget_loop self) ticks)) /\
    completed_of (snd (Live.run self polls))
    = completed_of (snd (Live.feed (Live.forget_loop self) ticks)).
Proof.
  induction polls as [|[fetched ok] rest IH]; intros self; cbv zeta.
  { cbn. repeat split. }
  rewrite live_run_cons. cbn [fst snd accepted].
  assert (forall s c ts,
             Live.last_candle_ts s = Some ts ->
             Live._alignment_complete s = true ->
             Live.forget_loop s = Live.forget_loop self ->
             let r := Live.tick s c ts ok in
             let ticks :=
               ({| index := ts; Open := open c; Close := close c |}, ok)
               :: accepted (Some ts) true rest in
             Live.forget_loop (fst (Live.run (fst r) rest))
             = fst (Live.feed (Live.forget_loop self) ticks) /\
             signals_of (snd r :: snd (Live.run (fst r) rest))
             = signals_of (snd (Live.feed (Live.forget_loop self) ticks)) /\
             completed_of (snd r :: snd (Live.run (fst r) rest))
             = completed_of (snd (Live.feed (Live.forget_loop self) ticks)))
    as Htick.
  { intros s c ts Hseen Hal Hf. cbv zeta.
    rewrite live_feed_cons. cbn [fst snd index].
    replace (candle_of {| index := ts; Open := open c; Close := close c |})
      with c by (destruct c; reflexivity).
    destruct (live_tick_forget s c ts ok) as [Et [Es Ea]].
    rewrite <- Hf, Et. cbn [fst snd].
    destruct (IH (fst (Live.tick s c ts ok))) as [I1 [I2 I3]].
    rewrite Es, Ea, Hseen, Hal in I1, I2, I3.
    unfold signals_of, completed_of in *. cbn [flat_map].
    rewrite I1, I2, I3. repeat split. }
  unfold Live.iteration.
  destruct fetched as [[c ts]|e]; [|apply (IH self)].
  destruct (Live.last_candle_ts self) as [last|] eqn:Eseen.
  - destruct (ts =? last) eqn:Edup.
    + specialize (IH self). rewrite Eseen in IH. apply IH.
    + destruct (Live._alignment_complete self) eqn:Eal;
        cbn [Live.set_seen Live._alignment_complete negb orb].
      * apply Htick; reflexivity.
      * destruct (Live.minute ts mod 5 =? 0).
        -- apply Htick; reflexivity.
        -- apply (IH (Live.set_seen self ts false)).
  - destruct (Live._alignment_complete self) eqn:Eal;
      cbn [Live.set_seen Live._alignment_complete negb orb].
    + apply Htick; reflexivity.
    + destruct (Live.minute ts mod 5 =? 0).
      * apply Htick; reflexivity.
      * apply (IH (Live.set_seen self ts false)).
Qed.

Lemma accepted_orders_ok (polls : list (Res (Candle * Z) * bool)) :
  Forall (fun p => snd p = true) polls ->
  forall seen aligned,
    accepted seen aligned polls
    = all_orders_ok (map fst (accepted seen aligned polls)).
Proof.
  induction 1 as [|[fetched ok] rest Hok _ IH]; intros seen aligned.
  - reflexivity.
  - cbn [accepted snd] in *. subst ok.
    destruct fetched as [[c ts]|e]; [|apply IH].
    destruct (match seen with Some last => ts =? last | None => false end);
      [apply IH|].
    destruct (aligned || (Live.minute ts mod 5 =? 0)); [|apply IH].
    cbn [map fst all_orders_ok]. f_equal. apply IH.
Qed.

Lemma accepted_opens (polls : list (Res (Candle * Z) * bool)) :
  Forall (fun p => match fst p with
                   | Ok (c, _) => nonneg (open c) = true
                   | Raise _ => True
                   end) polls ->
  forall seen aligned,
    Forall (fun b => nonneg (Open b) = true)
      (map fst (accepted seen aligned polls)).
Proof.
  induction 1 as [|[fetched ok] rest Hopen _ IH]; intros seen aligned.
  - constructor.
  - cbn [accepted fst] in *.
    destruct fetched as [[c ts]|e]; [|apply IH].
    destruct (match seen with Some last => ts =? last | None => false end);
      [apply IH|].
    destruct (aligned || (Live.minute ts mod 5 =? 0)); [|apply IH].
    cbn [map fst]. constructor; [exact Hopen|apply IH].
Qed.

(** X1.  The parity of the two drivers extends to the polling loop.
    Calling [next] once for every row of the candle log that a live
    session wrote (live_candles.csv, rows in file order, on an adapter
    started by [init]) gives back the signals and the trades of the
    session, whatever the polls were (failed fetches, repeated
    timestamps, candles before the alignment), when every order call of
    the session returned and no fetched candle opened below zero.  This
    is about [next] row by row: which rows the run loop of
    backtesting.py hands to [next] is that library's business (it hands
    over the rows from the second on). *)
Theorem replay_of_live_candles (polls : list (Res (Candle * Z) * bool)) :
  Forall (fun p => snd p = true) polls ->
  Forall (fun p => match fst p with
                   | Ok (c, _) => nonneg (open c) = true
                   | Raise _ => True
                   end) polls ->
  let live := Live.run (Live.init "BTCUSDT") polls in
  let replay := Backtest.run Backtest.init (Live.candle_file (fst live)) in
  signals_of (snd live) = signals_of (snd replay) /\
  Live.trade_file (fst live) = Backtest.trades_log (fst replay).
Proof.
  intros Hok Hopen. cbv zeta.
  destruct (live_run_feed polls (Live.init "BTCUSDT")) as [Ef [Es _]].
  cbn [Live.init Live.last_candle_ts Live._alignment_complete] in Ef, Es.
  fold (Live.init "BTCUSDT") in Ef, Es.
  change (Live.forget_loop (Live.init "BTCUSDT"))
    with (Live.init "BTCUSDT") in Ef, Es.
  set (ticks := accepted None false polls) in *.
  assert (Live.candle_file (fst (Live.run (Live.init "BTCUSDT") polls))
          = map fst ticks) as Ec.
  { change (Live.candle_file
              (Live.forget_loop
                 (fst (Live.run (Live.init "BTCUSDT") polls)))
            = map fst ticks).
    rewrite Ef.
    exact (proj2 (proj2 (proj2 (proj2 (proj2 (proj2 (proj2
             (live_feed_state "BTCUSDT" ticks)))))))). }
  assert (Live.trade_file (fst (Live.run (Live.init "BTCUSDT") polls))
          = Live.trade_file (fst (Live.feed (Live.init "BTCUSDT") ticks)))
    as Et.
  { change (Live.trade_file
              (Live.forget_loop
                 (fst (Live.run (Live.init "BTCUSDT") polls)))
            = Live.trade_file
                (fst (Live.feed (Live.init "BTCUSDT") ticks))).
    rewrite Ef. reflexivity. }
  rewrite Ec, Et, Es.
  pose proof (parity_run (map fst ticks)
                (accepted_opens polls Hopen None false)
                (Live.init "BTCUSDT") Backtest.init same_state_init
                eq_refl I) as P.
  unfold ticks in P.
  rewrite <- (accepted_orders_ok polls Hok None false) in P.
  fold ticks in P.
  destruct P as [[_ [_ [_ [Hf _]]]] Eo].
  split; [rewrite Eo; reflexivity|exact Hf].
Qed.

Lemma replay_of_live_candles_witness :
  map (fun b => (index b - 300, Open b, Close b))
    (Live.candle_file (fst (Live.run (Live.init "BTCUSDT") sample_polls)))
  = map (fun b => (index b, Open b, Close b)) sample_bars /\
  signals_of (snd (Live.run (Live.init "BTCUSDT") sample_polls))
  = signals_of
      (snd (Backtest.run Backtest.init
              (Live.candle_file
                 (fst (Live.run (Live.init "BTCUSDT") sample_polls))))) /\
  Live.trade_file (fst (Live.run (Live.init "BTCUSDT") sample_polls))
  = Backtest.trades_log
      (fst (Backtest.run Backtest.init
              (Live.candle_file
                 (fst (Live.run (Live.init "BTCUSDT") sample_polls))))).
Proof.
  split; [vm_compute; reflexivity|].
  apply (replay_of_live_candles sample_polls).
  - repeat constructor.
  - repeat constructor.
Defined.

(** X2.  The alignment gate of the live loop.  A new candle that arrives
    before the alignment, on a minute that is not a multiple of five, is
    dropped: only its timestamp is remembered.  A new candle that arrives
    once the stream is aligned, or on a multiple of five minutes, goes
    through the engine, and the stream stays aligned. *)
Theorem alignment_gate (self : Live.LiveTrader) (c : Candle) (ts : Z)
    (order_ok : bool) :
  Live.last_candle_ts self <> Some ts ->
  (Live._alignment_complete self = false ->
   Live.minute ts mod 5 <> 0 ->
   Live.iteration self (Ok (c, ts)) order_ok
   = (Live.set_seen self ts false, Live.idle)) /\
  (Live._alignment_complete self = true \/ Live.minute ts mod 5 = 0 ->
   Live.iteration self (Ok (c, ts)) order_ok
   = Live.tick (Live.set_seen self ts true) c ts order_ok /\
   Live._alignment_complete
     (fst (Live.iteration self (Ok (c, ts)) order_ok)) = true).
Proof.
  intros Hnew.
  assert (match Live.last_candle_ts self with
          | Some seen => ts =? seen
          | None => false
          end = false) as Hdup.
  { destruct (Live.last_candle_ts self) as [seen|]; [|reflexivity].
    apply Z.eqb_neq. intros ->. now apply Hnew. }
  unfold Live.iteration. rewrite Hdup. split.
  - intros Hal Hmin. cbn [Live.set_seen Live._alignment_complete].
    rewrite Hal. cbn [negb].
    apply Z.eqb_neq in Hmin. rewrite Hmin. reflexivity.
  - intros H. cbn [Live.set_seen Live._alignment_complete].
    assert (forall s, Live._alignment_complete s = true ->
                      Live._alignment_complete
                        (fst (Live.tick s c ts order_ok)) = true) as Hkeep.
    { intros s Hs.
      destruct (live_tick_forget s c ts order_ok) as [_ [_ ->]]. exact Hs. }
    destruct (Live._alignment_complete self) eqn:Hal; cbn [negb].
    + split; [reflexivity|]. apply Hkeep. reflexivity.
    + destruct H as [H|H]; [discriminate|].
      rewrite H. cbn [Z.eqb]. split; [reflexivity|].
      apply Hkeep. reflexivity.
Qed.

Lemma alignment_gate_witness :
  let c := {| open := 1%float; close := 2%float |} in
  let polls :=
    map (fun m => (Ok (c, 60 * m), true)) [1; 2; 3; 4; 5; 6; 7] in
  map index (Live.candle_file (fst (Live.run (Live.init "BTCUSDT") polls)))
  = [300; 360; 420] /\
  Live.iteration (Live.init "BTCUSDT") (Ok (c, 60)) true
  = (Live.set_seen (Live.init "BTCUSDT") 60 false, Live.idle).
Proof.
  split; [vm_compute; reflexivity|].
  apply (proj1 (alignment_gate (Live.init "BTCUSDT")
                  {| open := 1%float; close := 2%float |} 60 true
                  ltac:(discriminate)));
    [reflexivity|vm_compute; discriminate].
Defined.

Lemma pending_clears_bucket (cs : list Candle) (a : Engine.Aggregation) :
  aggregation_after cs a ->
  Engine.visible_htf a = htf_bars (removelast cs) ->
  Engine.pending a <> None ->
  Engine.bucket a = [].
Proof.
  intros [_ [Hb [Hv _]]] Hvis Hp.
  apply length_zero_iff_nil. rewrite Hb, leftover_length.
  apply (f_equal (@List.length Candle)) in Hv.
  rewrite length_app, Hvis, !htf_bars_length in Hv.
  rewrite removelast_firstn_len, length_firstn in Hv.
  destruct (Engine.pending a); [|congruence].
  cbn [option_list List.length] in Hv. lia.
Qed.

(** X3.  The invariants of the engine state at every tick boundary, in both
    drivers: the bucket holds fewer than five candles, the counters count
    the stored candles, a pending HTF candle is flagged for the next tick
    and leaves the bucket empty, and every fed bar is stored in order. *)
Theorem engine_invariants (bars : list Bar) (sym : string)
    (ticks : list (Bar * bool)) :
  (let s := fst (Backtest.run Backtest.init bars) in
   len (Backtest._htf_bucket s) < 5 /\
   Backtest.ltf_candles s = map candle_of bars /\
   Backtest.candle_count s = len (Backtest.ltf_candles s) /\
   Backtest.htf_count s = len (Backtest.htf_candles s) /\
   Backtest._htf_available_next s = is_not_None (Backtest._htf_pending s) /\
   (Backtest._htf_pending s <> None -> Backtest._htf_bucket s = [])) /\
  (let s := fst (Live.feed (Live.init sym) ticks) in
   len (Live._htf_bucket s) < 5 /\
   Live.ltf_candles s = map candle_of (map fst ticks) /\
   Live.candle_count s = len (Live.ltf_candles s) /\
   Live.htf_count s = len (Live.htf_candles s) /\
   Live._htf_available_next s = is_not_None (Live._htf_pending s) /\
   (Live._htf_pending s <> None -> Live._htf_bucket s = [])).
Proof.
  split; cbv zeta.
  - destruct (backtest_run_state bars) as [Ha [Hv [_ [_ [Hc Hh]]]]].
    pose proof (pending_clears_bucket _ _ Ha Hv) as Hp.
    destruct Ha as [Hl [Hb [_ Hav]]].
    cbn [backtest_aggregation Engine.ltf_history Engine.bucket
         Engine.pending Engine.available_next] in Hl, Hb, Hav, Hp.
    repeat split; try assumption.
    + unfold len. rewrite Hb, leftover_length. lia.
    + rewrite Hc, Hl. unfold len. rewrite length_map. reflexivity.
  - destruct (live_feed_state sym ticks) as [Ha [Hv [_ [_ [Hc [Hh _]]]]]].
    pose proof (pending_clears_bucket _ _ Ha Hv) as Hp.
    destruct Ha as [Hl [Hb [_ Hav]]].
    cbn [live_aggregation Engine.ltf_history Engine.bucket
         Engine.pending Engine.available_next] in Hl, Hb, Hav, Hp.
    repeat split; try assumption.
    + unfold len. rewrite Hb, leftover_length. lia.
    + rewrite Hc, Hl. unfold len. rewrite !length_map. reflexivity.
Qed.

(** X4.  The replay never raises: [next] returns normally from every state,
    so a run gives one output for every bar. *)
Theorem replay_never_raises (self : Backtest.PullbackBacktestAdapter)
    (data : Bar) (bars : list Bar) :
  out_raised (snd (Backtest.next self data)) = None /\
  List.length (snd (Backtest.run self bars)) = List.length bars.
Proof.
  split.
  - exact (proj1 (proj2 (proj2 (backtest_next_step self data)))).
  - revert self. induction bars as [|b bars IH]; intros self.
    + reflexivity.
    + rewrite backtest_run_cons. cbn [snd List.length]. now rewrite IH.
Qed.

(** X5.  The polling loop of [run], started from [__init__], is the
    engine fed with the bars that the duplicate filter and the alignment
    gate accept: it ends in the same engine state, having generated the
    same signals and completed the same HTF bars. *)
Theorem live_loop_is_gated_engine (sym : string)
    (polls : list (Res (Candle * Z) * bool)) :
  let ticks := accepted None false polls in
  Live.forget_loop (fst (Live.run (Live.init sym) polls))
  = fst (Live.feed (Live.init sym) ticks) /\
  signals_of (snd (Live.run (Live.init sym) polls))
  = signals_of (snd (Live.feed (Live.init sym) ticks)) /\
  completed_of (snd (Live.run (Live.init sym) polls))
  = completed_of (snd (Live.feed (Live.init sym) ticks)).
Proof.
  cbv zeta.
  destruct (live_run_feed polls (Live.init sym)) as [Ef [Es Ec]].
  split; [exact Ef|]. split; [exact Es|exact Ec].
Qed.

(** ** compare_trades.py *)

Lemma idxmin_from_least (l p : list Z) (best_at : nat) (best : Z) :
  nth_error p best_at = Some best ->
  Forall (fun x => best <= x) p ->
  exists m,
    nth_error (p ++ l)
      (Compare.idxmin_from best_at best (List.length p) l) = Some m /\
    Forall (fun x => m <= x) (p ++ l).
Proof.
  revert p best_at best.
  induction l as [|x rest IH]; intros p best_at best Hat Hall.
  - exists best. rewrite app_nil_r. split; assumption.
  - cbn [Compare.idxmin_from].
    replace (p ++ x :: rest) with ((p ++ [x]) ++ rest)
      by (rewrite <- app_assoc; reflexivity).
    replace (S (List.length p)) with (List.length (p ++ [x]))
      by (rewrite length_app; cbn; lia).
    destruct (Z.ltb_spec x best) as [Hlt|Hge].
    + replace (List.length p) with (List.length p + 0)%nat at 1 by lia.
      apply IH.
      * replace (List.length p + 0)%nat with (List.length p) by lia.
        rewrite nth_error_app2 by lia. rewrite Nat.sub_diag. reflexivity.
      * apply Forall_app. split.
        -- eapply Forall_impl; [|exact Hall]. cbn. intros; lia.
        -- constructor; [lia|constructor].
    + apply IH.
      * rewrite nth_error_app1; [exact Hat|].
        apply nth_error_Some. rewrite Hat. discriminate.
      * apply Forall_app. split; [exact Hall|].
        constructor; [exact Hge|constructor].
Qed.

(** [idxmin] fails on the empty series only, and otherwise points at a
    smallest value. *)
Lemma idxmin_least (l : list Z) :
  l <> [] ->
  exists i m,
    Compare.idxmin l = Some i /\ nth_error l i = Some m /\
    Forall (fun x => m <= x) l.
Proof.
  destruct l as [|x rest]; [congruence|]. intros _.
  destruct (idxmin_from_least rest [x] 0 x eq_refl) as [m [Hn Hall]].
  { constructor; [lia|constructor]. }
  exists (Compare.idxmin_from 0 x 1 rest), m. repeat split; assumption.
Qed.

(** The backtest trade that the loop compares a live trade with: one
    whose entry time is closest. *)
Lemma closest_backtest_trade (backtest_trades : list Compare.Row)
    (live_trade : Compare.Row) :
  backtest_trades <> [] ->
  exists i bt,
    Compare.idxmin
      (map (fun bt => Z.abs (Compare.entry_time bt
                             - Compare.entry_time live_trade))
         backtest_trades) = Some i /\
    nth_error backtest_trades i = Some bt /\
    forall other,
      In other backtest_trades ->
      Z.abs (Compare.entry_time bt - Compare.entry_time live_trade)
      <= Z.abs (Compare.entry_time other - Compare.entry_time live_trade).
Proof.
  intros Hne.
  set (f := fun bt => Z.abs (Compare.entry_time bt
                             - Compare.entry_time live_trade)).
  destruct (idxmin_least (map f backtest_trades)) as [i [m [Hi [Hn Hall]]]].
  { destruct backtest_trades; [congruence|discriminate]. }
  rewrite nth_error_map in Hn.
  destruct (nth_error backtest_trades i) as [bt|] eqn:Hbt; [|discriminate].
  injection Hn as <-.
  exists i, bt. split; [exact Hi|]. split; [exact Hbt|].
  intros other Hin. rewrite Forall_forall in Hall.
  exact (Hall (f other) (in_map f _ _ Hin)).
Qed.

(** Two cells that [!=] does not tell apart hold the same text. *)
Lemma ne_false (a b : Compare.Cell) : Compare.ne a b = false -> a = b.
Proof.
  destruct a as [s|], b as [s'|]; cbn; try discriminate.
  intros H. apply negb_false_iff, String.eqb_eq in H. now subst.
Qed.

(** The two counters of the loop move together. *)
Lemma validate_counters (backtest_trades live_trades : list Compare.Row) :
  forall matched checked findings matched' checked',
    Compare.validate backtest_trades live_trades matched checked
    = Some (findings, (matched', checked')) ->
    matched' - checked' = matched - checked /\ checked <= checked'.
Proof.
  induction live_trades as [|live rest IH];
    intros m c f m' c' H; cbn [Compare.validate] in H.
  - injection H as _ <- <-. lia.
  - destruct (Compare.idxmin _) as [i|]; [|discriminate].
    destruct (nth_error backtest_trades i) as [bt|]; [|discriminate].
    destruct (Compare.ne _ _); [injection H as _ <- <-; lia|].
    destruct (_ <? _); [injection H as _ <- <-; lia|].
    destruct (_ <? _); [injection H as _ <- <-; lia|].
    destruct (Compare.validate backtest_trades rest (m + 1) (c + 1))
      as [[f1 [m1 c1]]|] eqn:E; [|discriminate].
    injection H as _ <- <-.
    destruct (IH _ _ _ _ _ E). lia.
Qed.

(** X6.  Whatever the two trade files hold, when the script ends it
    reports "Trade logic matches": [matched] and [checked] are always
    equal, also after a mismatch ended the loop, so the divergence
    verdict is never printed. *)
Theorem compare_verdict_always_matches
    (backtest_trades live_trades : list Compare.Row) (r : Compare.Report) :
  Compare.script backtest_trades live_trades = Some r ->
  Compare.matched r = Compare.checked r /\
  Compare.verdict r = Compare.LogicMatches.
Proof.
  unfold Compare.script. intros H.
  destruct (Compare.validate backtest_trades live_trades 0 0)
    as [[f [m c]]|] eqn:E; [|discriminate].
  destruct (validate_counters _ _ _ _ _ _ _ E) as [Hd _].
  injection H as <-. cbn.
  assert (m = c) as -> by lia.
  rewrite Z.eqb_refl. split; reflexivity.
Qed.

Lemma compare_verdict_always_matches_witness :
  let bt := [{| Compare.direction := Compare.Text "LONG"; Compare.entry_time := 360;
                Compare.exit_time := 480 |}] in
  let live := [{| Compare.direction := Compare.Text "LONG"; Compare.entry_time := 360;
                  Compare.exit_time := 900 |}] in
  Compare.script bt live
  = Some {| Compare.findings := [Compare.ExitTimeMismatch 420];
            Compare.matched := 0; Compare.checked := 0;
            Compare.verdict := Compare.LogicMatches |} /\
  Compare.verdict
    {| Compare.findings := [Compare.ExitTimeMismatch 420];
       Compare.matched := 0; Compare.checked := 0;
       Compare.verdict := Compare.LogicMatches |}
  = Compare.LogicMatches.
Proof.
  split; [reflexivity|].
  exact (proj2 (compare_verdict_always_matches
                  [{| Compare.direction := Compare.Text "LONG";
                      Compare.entry_time := 360;
                      Compare.exit_time := 480 |}]
                  [{| Compare.direction := Compare.Text "LONG";
                      Compare.entry_time := 360;
                      Compare.exit_time := 900 |}]
                  _ eq_refl)).
Defined.

Lemma validate_raises (backtest_trades live_trades : list Compare.Row)
    (matched checked : Z) :
  Compare.validate backtest_trades live_trades matched checked = None
  <-> backtest_trades = [] /\ live_trades <> [].
Proof.
  revert matched checked.
  induction live_trades as [|live rest IH]; intros m c.
  - cbn. split; [discriminate|]. intros [_ H]. congruence.
  - destruct backtest_trades as [|b bts].
    + cbn. split; [|reflexivity]. intros _. split; [reflexivity|discriminate].
    + split; [|intros [H _]; discriminate].
      intros H. exfalso. cbn [Compare.validate] in H.
      destruct (closest_backtest_trade (b :: bts) live) as [i [bt [Hi [Hn _]]]];
        [discriminate|].
      rewrite Hi, Hn in H.
      destruct (Compare.ne _ _); [discriminate|].
      destruct (_ <? _); [discriminate|].
      destruct (_ <? _); [discriminate|].
      destruct (Compare.validate (b :: bts) rest (m + 1) (c + 1))
        as [[f1 [m1 c1]]|] eqn:E; [discriminate|].
      apply IH in E. destruct E as [E _]. discriminate.
Qed.

(** X7.  The script fails exactly when one of the two trade files
    cannot be loaded (backtest_trades.csv does not exist when the
    backtest logged no trade), or when both are loaded, there are live
    trades to check and the backtest frame holds none (the search for
    the closest trade is then over an empty series); in every other case
    it ends with a report. *)
Theorem compare_fails_iff_no_backtest_trade
    (backtest_file live_file : option (list Compare.Row)) :
  Compare.main backtest_file live_file = None
  <-> backtest_file = None \/ live_file = None \/
      (backtest_file = Some [] /\
       exists live_trades, live_file = Some live_trades /\ live_trades <> []).
Proof.
  unfold Compare.main.
  destruct backtest_file as [backtest_trades|];
    [|split; [intros _; left; reflexivity|reflexivity]].
  destruct live_file as [live_trades|];
    [|split; [intros _; right; left; reflexivity|reflexivity]].
  unfold Compare.script.
  destruct (Compare.validate backtest_trades live_trades 0 0)
    as [[f [m c]]|] eqn:E.
  - split; [discriminate|].
    intros [H|[H|[Hb [lv [Hl Hne]]]]]; try discriminate.
    injection Hb as ->. injection Hl as ->.
    assert (Compare.validate [] lv 0 0 = None) as E'
        by (apply validate_raises; split; [reflexivity|exact Hne]).
    congruence.
  - split; [|reflexivity]. intros _. right. right.
    apply (validate_raises backtest_trades live_trades 0 0) in E.
    destruct E as [-> Hne]. split; [reflexivity|].
    exists live_trades. split; [reflexivity|exact Hne].
Qed.

Lemma validate_sound (backtest_trades live_trades : list Compare.Row) :
  forall matched checked findings matched' checked',
    Compare.validate backtest_trades live_trades matched checked
    = Some (findings, (matched', checked')) ->
    let k := Z.to_nat (checked' - checked) in
    (k <= List.length live_trades)%nat /\
    Forall
      (fun live =>
         exists bt,
           In bt backtest_trades /\ agrees bt live /\
           forall other,
             In other backtest_trades ->
             Z.abs (Compare.entry_time bt - Compare.entry_time live)
             <= Z.abs (Compare.entry_time other - Compare.entry_time live))
      (firstn k live_trades) /\
    ((k < List.length live_trades)%nat ->
     forall others,
       Compare.validate backtest_trades (firstn (S k) live_trades ++ others)
         matched checked
       = Some (findings, (matched', checked'))).
Proof.
  induction live_trades as [|live rest IH];
    intros m c f m' c' H; cbv zeta; cbn [Compare.validate] in H.
  - injection H as _ _ <-. rewrite Z.sub_diag. cbn.
    split; [lia|]. split; [constructor|]. intros; lia.
  - assert (forall fs,
               Some (fs, (m, c)) = Some (f, (m', c')) ->
               (forall others,
                   Compare.validate backtest_trades (live :: others) m c
                   = Some (fs, (m, c))) ->
               (Z.to_nat (c' - c) <= List.length (live :: rest))%nat /\
               Forall
                 (fun live =>
                    exists bt,
                      In bt backtest_trades /\ agrees bt live /\
                      forall other,
                        In other backtest_trades ->
                        Z.abs (Compare.entry_time bt
                               - Compare.entry_time live)
                        <= Z.abs (Compare.entry_time other
                                  - Compare.entry_time live))
                 (firstn (Z.to_nat (c' - c)) (live :: rest)) /\
               ((Z.to_nat (c' - c) < List.length (live :: rest))%nat ->
                forall others,
                  Compare.validate backtest_trades
                    (firstn (S (Z.to_nat (c' - c))) (live :: rest) ++ others)
                    m c
                  = Some (f, (m', c')))) as Hbreak.
    { intros fs E Hv. injection E as <- <- <-. rewrite Z.sub_diag.
      cbn [Z.to_nat firstn List.length app].
      split; [lia|]. split; [constructor|]. intros _ others. apply Hv. }
    destruct (Compare.idxmin _) as [i|] eqn:Hi; [|discriminate].
    destruct (nth_error backtest_trades i) as [bt|] eqn:Hn; [|discriminate].
    destruct (Compare.ne (Compare.direction bt) (Compare.direction live))
      eqn:Hd.
    { apply (Hbreak _ H). intros others. cbn [Compare.validate].
      rewrite Hi, Hn, Hd. reflexivity. }
    destruct (Compare.MAX_TIME_DIFF
              <? Z.abs (Compare.entry_time bt - Compare.entry_time live))
      eqn:He.
    { apply (Hbreak _ H). intros others. cbn [Compare.validate].
      rewrite Hi, Hn, Hd, He. reflexivity. }
    destruct (Compare.MAX_TIME_DIFF
              <? Z.abs (Compare.exit_time bt - Compare.exit_time live))
      eqn:Hx.
    { apply (Hbreak _ H). intros others. cbn [Compare.validate].
      rewrite Hi, Hn, Hd, He, Hx. reflexivity. }
    clear Hbreak.
    destruct (Compare.validate backtest_trades rest (m + 1) (c + 1))
      as [[f1 [m1 c1]]|] eqn:E; [|discriminate].
    injection H as <- <- <-.
    destruct (validate_counters _ _ _ _ _ _ _ E) as [_ Hle].
    destruct (IH _ _ _ _ _ E) as [Hk [Hall Hpre]].
    replace (Z.to_nat (c1 - c)) with (S (Z.to_nat (c1 - (c + 1)))) by lia.
    rewrite !firstn_cons. cbn [List.length].
    split; [lia|]. split.
    + constructor; [|exact Hall].
      exists bt. split; [eapply nth_error_In; exact Hn|]. split.
      * apply ne_false in Hd.
        apply Z.ltb_ge in He, Hx. repeat split; assumption.
      * assert (backtest_trades <> []) as Hne
            by (intros ->; destruct i; discriminate).
        destruct (closest_backtest_trade backtest_trades live Hne)
          as [i' [bt' [Hi' [Hn' Hmin]]]].
        rewrite Hi in Hi'. injection Hi' as <-.
        rewrite Hn in Hn'. injection Hn' as <-. exact Hmin.
    + intros Hlt others. rewrite <- app_comm_cons.
      cbn [Compare.validate]. rewrite Hi, Hn, Hd, He, Hx.
      rewrite (Hpre ltac:(lia) others). reflexivity.
Qed.

(** X8.  In the report, [checked] counts the leading live trades that
    passed: each of them agrees (same direction, entry and exit at most
    two minutes apart) with a backtest trade whose entry time is closest
    to its own.  The loop stops at the first live trade that does not
    pass, and the live trades after that one have no influence on the
    report. *)
Theorem compare_checks_leading_trades
    (backtest_trades live_trades : list Compare.Row) (r : Compare.Report) :
  Compare.script backtest_trades live_trades = Some r ->
  let k := Z.to_nat (Compare.checked r) in
  (k <= List.length live_trades)%nat /\
  Forall
    (fun live =>
       exists bt,
         In bt backtest_trades /\ agrees bt live /\
         forall other,
           In other backtest_trades ->
           Z.abs (Compare.entry_time bt - Compare.entry_time live)
           <= Z.abs (Compare.entry_time other - Compare.entry_time live))
    (firstn k live_trades) /\
  ((k < List.length live_trades)%nat ->
   forall others,
     Compare.script backtest_trades (firstn (S k) live_trades ++ others)
     = Some r).
Proof.
  unfold Compare.script. intros H. cbv zeta.
  destruct (Compare.validate backtest_trades live_trades 0 0)
    as [[f [m c]]|] eqn:E; [|discriminate].
  destruct (validate_sound _ _ _ _ _ _ _ E) as [Hk [Hall Hpre]].
  rewrite Z.sub_0_r in Hk, Hall, Hpre.
  injection H as <-. cbn [Compare.checked].
  split; [exact Hk|]. split; [exact Hall|].
  intros Hlt others. rewrite (Hpre Hlt others). reflexivity.
Qed.

Lemma compare_checks_leading_trades_witness :
  let t1 := {| Compare.direction := Compare.Text "LONG"; Compare.entry_time := 360;
               Compare.exit_time := 480 |} in
  let t2 := {| Compare.direction := Compare.Text "LONG"; Compare.entry_time := 540;
               Compare.exit_time := 600 |} in
  let late := {| Compare.direction := Compare.Text "LONG"; Compare.entry_time := 540;
                 Compare.exit_time := 900 |} in
  let r := {| Compare.findings :=
                [Compare.Match 0 0; Compare.ExitTimeMismatch 300];
              Compare.matched := 1; Compare.checked := 1;
              Compare.verdict := Compare.LogicMatches |} in
  Compare.script [t1; t2] [t1; late; t2] = Some r /\
  forall others, Compare.script [t1; t2] ([t1; late] ++ others) = Some r.
Proof.
  split; [reflexivity|].
  refine (proj2 (proj2 (compare_checks_leading_trades
                          [{| Compare.direction := Compare.Text "LONG";
                              Compare.entry_time := 360;
                              Compare.exit_time := 480 |};
                           {| Compare.direction := Compare.Text "LONG";
                              Compare.entry_time := 540;
                              Compare.exit_time := 600 |}]
                          [{| Compare.direction := Compare.Text "LONG";
                              Compare.entry_time := 360;
                              Compare.exit_time := 480 |};
                           {| Compare.direction := Compare.Text "LONG";
                              Compare.entry_time := 540;
                              Compare.exit_time := 900 |};
                           {| Compare.direction := Compare.Text "LONG";
                              Compare.entry_time := 540;
                              Compare.exit_time := 600 |}]
                          _ eq_refl)) _).
  cbn. lia.
Defined.

(** ** More on the polling loop and the first ticks *)

(** X9.  A poll that brings the timestamp of the previous poll again
    changes nothing, whatever the first one did: the candle is not
    processed twice, and a signal whose order call raised is not tried
    again. *)
Theorem repeated_poll_is_ignored (self : Live.LiveTrader)
    (c c' : Candle) (ts : Z) (order_ok order_ok' : bool) :
  let s := fst (Live.iteration self (Ok (c, ts)) order_ok) in
  Live.iteration s (Ok (c', ts)) order_ok' = (s, Live.idle).
Proof.
  cbv zeta.
  assert (Live.last_candle_ts
            (fst (Live.iteration self (Ok (c, ts)) order_ok)) = Some ts)
    as Hseen.
  { unfold Live.iteration.
    destruct (Live.last_candle_ts self) as [seen|] eqn:Eseen.
    - destruct (Z.eqb_spec ts seen) as [->|_]; [exact Eseen|].
      destruct (Live._alignment_complete self);
        cbn [Live.set_seen Live._alignment_complete negb].
      + destruct (live_tick_forget (Live.set_seen self ts true) c ts
                    order_ok) as [_ [-> _]]. reflexivity.
      + destruct (Live.minute ts mod 5 =? 0); [|reflexivity].
        destruct (live_tick_forget
                    (Live.set_seen (Live.set_seen self ts false) ts true)
                    c ts order_ok) as [_ [-> _]]. reflexivity.
    - destruct (Live._alignment_complete self);
        cbn [Live.set_seen Live._alignment_complete negb].
      + destruct (live_tick_forget (Live.set_seen self ts true) c ts
                    order_ok) as [_ [-> _]]. reflexivity.
      + destruct (Live.minute ts mod 5 =? 0); [|reflexivity].
        destruct (live_tick_forget
                    (Live.set_seen (Live.set_seen self ts false) ts true)
                    c ts order_ok) as [_ [-> _]]. reflexivity. }
  unfold Live.iteration at 1. rewrite Hseen, Z.eqb_refl. reflexivity.
Qed.

Lemma backtest_decide_warm_up (self : Backtest.PullbackBacktestAdapter)
    (completed : option Candle) (timestamp : Z) (price : float) :
  out_signal (snd (Backtest.decide self completed timestamp price)) = None
  <-> len (Backtest.ltf_candles self) < 2
      \/ len (Backtest.htf_candles self) < 1.
Proof.
  unfold Backtest.decide.
  destruct (Z.ltb_spec (len (Backtest.ltf_candles self)) 2);
    destruct (Z.ltb_spec (len (Backtest.htf_candles self)) 1);
    cbn [orb snd out_signal]; try (split; [intros _; lia|reflexivity]).
  destruct (backtest_call_strategy self) as [sg [-> _]].
  destruct (Backtest.execute_orders self sg timestamp price).
  cbn. split; [discriminate|lia].
Qed.

Lemma live_decide_warm_up (self : Live.LiveTrader)
    (completed : option Candle) (ts : Z) (price : float)
    (order_ok : bool) :
  out_signal (snd (Live.decide self completed ts price order_ok)) = None
  <-> len (Live.ltf_candles self) < 2 \/ len (Live.htf_candles self) < 1.
Proof.
  unfold Live.decide.
  destruct (Z.ltb_spec (len (Live.ltf_candles self)) 2);
    destruct (Z.ltb_spec (len (Live.htf_candles self)) 1);
    cbn [orb snd out_signal]; try (split; [intros _; lia|reflexivity]).
  destruct (live_call_strategy self) as [sg [-> _]].
  destruct (Live.execute_orders self sg ts price order_ok) as [s [o r]].
  cbn. split; [discriminate|lia].
Qed.

(** After [prepare] on a state that the candles [cs] led to, the LTF
    history is [cs] and the new candle, and the visible HTF history is
    what [cs] completed. *)
Lemma prepared_histories (cs : list Candle) (a : Engine.Aggregation)
    (c : Candle) :
  aggregation_after cs a ->
  Engine.ltf_history (fst (Engine.step a c)) = cs ++ [c] /\
  Engine.visible_htf (fst (Engine.step a c)) = htf_bars cs.
Proof.
  intros Ha. split.
  - rewrite engine_step_ltf. destruct Ha as [-> _]. reflexivity.
  - exact (proj1 (proj2 (engine_step_after cs a c Ha))).
Qed.

Lemma warm_up_arith (t : nat) (cs : list Candle) (c : Candle) :
  List.length cs = t ->
  (len (cs ++ [c]) < 2 \/ len (htf_bars cs) < 1) <-> (t < 5)%nat.
Proof.
  intros Ht. unfold len. rewrite length_app, htf_bars_length, Ht.
  cbn [List.length]. lia.
Qed.

(** X10.  In both drivers, a run from the initial state generates no
    signal on its first five ticks and one signal on every later tick:
    the strategy is first called on the sixth candle, when the first HTF
    candle has become visible. *)
Theorem first_signal_on_sixth_tick (bars : list Bar) (sym : string)
    (ticks : list (Bar * bool)) (t : nat) (o : Output) :
  (nth_error (snd (Backtest.run Backtest.init bars)) t = Some o ->
   out_signal o = None <-> (t < 5)%nat) /\
  (nth_error (snd (Live.feed (Live.init sym) ticks)) t = Some o ->
   out_signal o = None <-> (t < 5)%nat).
Proof.
  split; intros Ho.
  - destruct (backtest_run_state bars) as [_ [_ [_ [Hn _]]]].
    pose proof (nth_error_length _ _ _ Ho) as Ht. rewrite Hn in Ht.
    destruct (nth_error bars t) as [b|] eqn:Hb;
      [|apply nth_error_None in Hb; lia].
    destruct (backtest_run_nth bars t b Hb) as [Eo _].
    replace o with
      (snd (Backtest.next
              (fst (Backtest.run Backtest.init (firstn t bars))) b))
      by congruence.
    set (s := fst (Backtest.run Backtest.init (firstn t bars))).
    destruct (backtest_run_state (firstn t bars)) as [Ha _]. fold s in Ha.
    unfold Backtest.next.
    destruct (backtest_prepare s b) as [mid [E [Hm _]]].
    rewrite E. cbv zeta. rewrite backtest_decide_warm_up.
    destruct (prepared_histories _ _ (candle_of b) Ha) as [Hl Hv].
    rewrite <- Hm in Hl, Hv.
    cbn [backtest_aggregation Engine.ltf_history Engine.visible_htf]
      in Hl, Hv.
    rewrite Hl, Hv. apply warm_up_arith.
    rewrite length_map. apply firstn_length_le. lia.
  - destruct (live_feed_state sym ticks) as [_ [_ [_ [Hn _]]]].
    pose proof (nth_error_length _ _ _ Ho) as Ht. rewrite Hn in Ht.
    destruct (nth_error ticks t) as [[b ok]|] eqn:Hb;
      [|apply nth_error_None in Hb; lia].
    destruct (live_feed_nth sym ticks t b ok Hb) as [Eo _].
    replace o with
      (snd (Live.tick
              (fst (Live.feed (Live.init sym) (firstn t ticks)))
              (candle_of b) (index b) ok))
      by congruence.
    set (s := fst (Live.feed (Live.init sym) (firstn t ticks))).
    destruct (live_feed_state sym (firstn t ticks)) as [Ha _]. fold s in Ha.
    unfold Live.tick.
    destruct (live_prepare s (candle_of b) (index b)) as [mid [E [Hm _]]].
    rewrite E. cbv zeta. rewrite live_decide_warm_up.
    destruct (prepared_histories _ _ (candle_of b) Ha) as [Hl Hv].
    rewrite <- Hm in Hl, Hv.
    cbn [live_aggregation Engine.ltf_history Engine.visible_htf] in Hl, Hv.
    rewrite Hl, Hv. apply warm_up_arith.
    rewrite !length_map. apply firstn_length_le. lia.
Qed.

Lemma first_signal_on_sixth_tick_witness :
  let outs := snd (Backtest.run Backtest.init sample_bars) in
  (exists o, nth_error outs 4 = Some o /\ out_signal o = None) /\
  (exists o, nth_error outs 5 = Some o /\ out_signal o = Some HOLD).
Proof.
  split; eexists; (split; [vm_compute; reflexivity|]).
  - apply (proj1 (first_signal_on_sixth_tick sample_bars "BTCUSDT" [] 4 _)).
    + vm_compute. reflexivity.
    + lia.
  - vm_compute. reflexivity.
Defined.

(** ** What a signal other than HOLD tells *)

Lemma signal_facts (strategy : PullbackStrategy)
    (ltf_candles htf_candles : list Candle) (position_open : bool)
    (signal : Signal) :
  fst (call_generate_signal strategy ltf_candles htf_candles position_open)
  = Ok signal ->
  signal <> HOLD ->
  exists l previous_ltf current_ltf h current_htf,
    ltf_candles = l ++ [previous_ltf; current_ltf] /\
    htf_candles = h ++ [current_htf] /\
    is_green current_htf = true /\
    match signal with
    | BUY => position_open = false /\ is_red previous_ltf = true /\
             is_green current_ltf = true
    | SELL => position_open = true /\ is_red current_ltf = true
    | HOLD => False
    end.
Proof.
  destruct (Z.lt_ge_cases (len ltf_candles) 2) as [H|H2].
  { rewrite call_generate_signal_short by (now left).
    intros [= <-] Hn. congruence. }
  destruct (Z.lt_ge_cases (len htf_candles) 1) as [H|H1].
  { rewrite call_generate_signal_short by (now right).
    intros [= <-] Hn. congruence. }
  destruct (ends_with_two ltf_candles) as [l [p [c ->]]]; [lia|].
  destruct (ends_with_one htf_candles) as [h [hc ->]]; [lia|].
  unfold call_generate_signal. rewrite generate_signal_enough. cbn [fst].
  intros E Hn. exists l, p, c, h, hc.
  split; [reflexivity|]. split; [reflexivity|].
  destruct (is_green hc), position_open, (is_red c) eqn:Ec,
    (is_red p) eqn:Ep, (is_green c) eqn:Eg;
    cbn in E; injection E as <-; try congruence; repeat split.
Qed.

Lemma hold_under_gate (strategy : PullbackStrategy)
    (ltf_candles h : list Candle) (last : Candle) (position_open : bool)
    (signal : Signal) :
  is_green last = false ->
  fst (call_generate_signal strategy ltf_candles (h ++ [last]) position_open)
  = Ok signal ->
  signal = HOLD.
Proof.
  intros Hred Hs.
  destruct signal; [exfalso|exfalso|reflexivity];
    (destruct (signal_facts _ _ _ _ _ Hs ltac:(discriminate))
       as [l [p [c [h' [hc [_ [Eh [Hg _]]]]]]]];
     apply app_inj_tail in Eh; destruct Eh as [_ ->]; congruence).
Qed.

(** X11.  In both drivers, on a tick where the latest visible HTF candle
    is not green, no order is placed and the position and the trade log
    stay as they are: no entry, and no exit from an open position
    either. *)
Theorem htf_gate_blocks_orders (bt : Backtest.PullbackBacktestAdapter)
    (data : Bar) (lv : Live.LiveTrader) (candle_ltf : Candle) (ts : Z)
    (order_ok : bool) (h : list Candle) (last : Candle) :
  is_green last = false ->
  (Backtest.htf_candles (fst (Backtest.prepare bt data)) = h ++ [last] ->
   out_order (snd (Backtest.next bt data)) = None /\
   Backtest.current_trade (fst (Backtest.next bt data))
   = Backtest.current_trade bt /\
   Backtest.trades_log (fst (Backtest.next bt data))
   = Backtest.trades_log bt) /\
  (Live.htf_candles (fst (Live.prepare lv candle_ltf ts)) = h ++ [last] ->
   out_order (snd (Live.tick lv candle_ltf ts order_ok)) = None /\
   out_raised (snd (Live.tick lv candle_ltf ts order_ok)) = None /\
   Live.current_trade (fst (Live.tick lv candle_ltf ts order_ok))
   = Live.current_trade lv /\
   Live.trade_file (fst (Live.tick lv candle_ltf ts order_ok))
   = Live.trade_file lv).
Proof.
  intros Hred. split.
  - unfold Backtest.next.
    destruct (backtest_prepare bt data) as [mid [E [_ [_ [Ht [Hl _]]]]]].
    rewrite E. cbn [fst]. cbv zeta. intros Hv.
    unfold Backtest.decide.
    destruct ((len (Backtest.ltf_candles mid) <? 2)
              || (len (Backtest.htf_candles mid) <? 1));
      [cbn; repeat split; assumption|].
    destruct (backtest_call_strategy mid) as [sg [-> Sc]].
    rewrite Hv in Sc. apply (hold_under_gate _ _ _ _ _ _ Hred) in Sc.
    subst sg. cbn. repeat split; assumption.
  - unfold Live.tick.
    destruct (live_prepare lv candle_ltf ts)
      as [mid [E [_ [_ [_ [Ht [Hl _]]]]]]].
    rewrite E. cbn [fst]. cbv zeta. intros Hv.
    unfold Live.decide.
    destruct ((len (Live.ltf_candles mid) <? 2)
              || (len (Live.htf_candles mid) <? 1));
      [cbn; repeat split; assumption|].
    destruct (live_call_strategy mid) as [sg [-> Sc]].
    rewrite Hv in Sc. apply (hold_under_gate _ _ _ _ _ _ Hred) in Sc.
    subst sg. cbn. repeat split; assumption.
Qed.

Lemma htf_gate_blocks_orders_witness :
  let red := {| open := 13%float; close := 12%float |} in
  let trade := open_trade "BTCUSDT" 60 2%float 7 1 in
  let bt :=
    {| Backtest.strategy := mkPullbackStrategy;
       Backtest.ltf_candles := [red; red];
       Backtest.htf_candles := [red];
       Backtest._htf_bucket := [red];
       Backtest._htf_pending := None;
       Backtest._htf_available_next := false;
       Backtest.current_trade := Some trade;
       Backtest.trades_log := [];
       Backtest.candle_count := 6;
       Backtest.htf_count := 1 |} in
  let data := {| index := 420; Open := 13%float; Close := 12%float |} in
  is_green red = false /\
  Backtest.htf_candles (fst (Backtest.prepare bt data)) = [] ++ [red] /\
  out_order (snd (Backtest.next bt data)) = None /\
  Backtest.current_trade (fst (Backtest.next bt data)) = Some trade /\
  Backtest.trades_log (fst (Backtest.next bt data)) = [].
Proof.
  split; [reflexivity|]. split; [reflexivity|].
  refine (proj1 (htf_gate_blocks_orders _ _ (Live.init "BTCUSDT")
                   {| open := 13%float; close := 12%float |} 0 true
                   [] {| open := 13%float; close := 12%float |} eq_refl) _).
  reflexivity.
Defined.

(** ** The trade log read against the bars *)

Lemma bar_at_app (bars : list Bar) (x : Bar) (n : Z) (b : Bar) :
  bar_at bars n = Some b -> bar_at (bars ++ [x]) n = Some b.
Proof.
  unfold bar_at. destruct (1 <=? n); [|discriminate].
  intros H. rewrite nth_error_app1; [exact H|].
  apply nth_error_Some. rewrite H. discriminate.
Qed.

Lemma bar_at_last (bars : list Bar) (x : Bar) :
  bar_at (bars ++ [x]) (len bars + 1) = Some x.
Proof.
  unfold bar_at, len.
  destruct (Z.leb_spec 1 (Z.of_nat (List.length bars) + 1)); [|lia].
  replace (Z.to_nat (Z.of_nat (List.length bars) + 1 - 1))
    with (List.length bars) by lia.
  rewrite nth_error_app2 by lia. rewrite Nat.sub_diag. reflexivity.
Qed.

Lemma htf_bars_app_one (cs : list Candle) (c : Candle) :
  exists more, htf_bars (cs ++ [c]) = htf_bars cs ++ more.
Proof.
  pose proof (htf_bars_snoc cs c) as H.
  destruct (List.length (leftover cs ++ [c]) =? 5)%nat;
    destruct H as [_ ->]; eexists; [reflexivity|].
  symmetry. apply app_nil_r.
Qed.

Lemma htf_at_app (bars : list Bar) (x : Bar) (k : Z) (g : Candle) :
  htf_at bars k = Some g -> htf_at (bars ++ [x]) k = Some g.
Proof.
  unfold htf_at. destruct (1 <=? k); [|discriminate].
  intros H. rewrite map_app. cbn [map].
  destruct (htf_bars_app_one (map candle_of bars) (candle_of x))
    as [more ->].
  rewrite nth_error_app1; [exact H|].
  apply nth_error_Some. rewrite H. discriminate.
Qed.

Lemma entry_explained_app (bars : list Bar) (x : Bar) (t : Trade) :
  entry_explained bars t -> entry_explained (bars ++ [x]) t.
Proof.
  intros [Hd [p [e [g [Hp [He [Hg H]]]]]]].
  split; [exact Hd|]. exists p, e, g.
  split; [now apply bar_at_app|]. split; [now apply bar_at_app|].
  split; [now apply htf_at_app|]. exact H.
Qed.

Lemma exit_explained_app (bars : list Bar) (x : Bar) (t : Trade) :
  exit_explained bars t -> exit_explained (bars ++ [x]) t.
Proof.
  intros [e [b [g [He [Hb [Hg H]]]]]]. exists e, b, g.
  split; [exact He|]. split; [now apply bar_at_app|].
  split; [now apply htf_at_app|]. exact H.
Qed.

Lemma in_sequence_snoc (log : list Trade) (t : Trade) (e : Exit) :
  forall after,
    in_sequence after log ->
    exit_keys t = Some e ->
    last_exit after log < entry_candle t ->
    entry_candle t < exit_candle e ->
    in_sequence after (log ++ [t]) /\
    last_exit after (log ++ [t]) = exit_candle e.
Proof.
  induction log as [|t0 log IH]; intros after Hs He Hlast Hlt.
  - cbn in *. rewrite He. repeat split; assumption.
  - cbn [in_sequence last_exit app] in *.
    destruct Hs as [H0 Hs].
    destruct (exit_keys t0) as [e0|]; [|contradiction].
    destruct Hs as [H1 Hs].
    destruct (IH _ Hs He Hlast Hlt) as [I1 I2].
    repeat split; assumption.
Qed.

(** The HTF candle that gates a tick is the last one that the earlier
    bars completed. *)
Lemma gate_at (bars : list Bar) (b : Bar) (h : list Candle)
    (gate : Candle) :
  htf_bars (map candle_of bars) = h ++ [gate] ->
  htf_at (bars ++ [b]) (len (htf_bars (map candle_of bars))) = Some gate /\
  len (htf_bars (map candle_of bars)) = (len bars + 1 - 1) / 5.
Proof.
  intros Hh. split.
  - unfold htf_at. rewrite map_app. cbn [map].
    destruct (htf_bars_app_one (map candle_of bars) (candle_of b))
      as [more ->].
    rewrite Hh. unfold len. rewrite length_app. cbn [List.length].
    destruct (Z.leb_spec 1 (Z.of_nat (List.length h + 1))); [|lia].
    replace (Z.to_nat (Z.of_nat (List.length h + 1) - 1))
      with (List.length h) by lia.
    rewrite nth_error_app1 by (rewrite length_app; cbn; lia).
    rewrite nth_error_app2 by lia. rewrite Nat.sub_diag. reflexivity.
  - unfold len. rewrite htf_bars_length, length_map. lia.
Qed.

(** The candle before the last belongs to the last of the earlier
    bars. *)
Lemma previous_bar (bars : list Bar) (b : Bar) (l : list Candle)
    (previous_ltf : Candle) :
  map candle_of bars = l ++ [previous_ltf] ->
  exists previous,
    bar_at (bars ++ [b]) (len bars + 1 - 1) = Some previous /\
    candle_of previous = previous_ltf.
Proof.
  intros H.
  destruct (exists_last (l := bars)) as [bl [pb ->]].
  { intros ->. destruct l; discriminate. }
  rewrite map_app in H. cbn [map] in H.
  apply app_inj_tail in H. destruct H as [_ H].
  exists pb. split; [|exact H].
  apply bar_at_app. rewrite len_app. change (len [pb]) with 1.
  replace (len bl + 1 + 1 - 1) with (len bl + 1) by lia.
  apply bar_at_last.
Qed.

(** What [decide] does to the position, on the tick that follows
    [bars]. *)
Lemma backtest_decide_trade (bars : list Bar) (b : Bar)
    (mid : Backtest.PullbackBacktestAdapter) (completed : option Candle) :
  Backtest.ltf_candles mid = map candle_of bars ++ [candle_of b] ->
  Backtest.htf_candles mid = htf_bars (map candle_of bars) ->
  Backtest.candle_count mid = len bars + 1 ->
  Backtest.htf_count mid = len (htf_bars (map candle_of bars)) ->
  let s' := fst (Backtest.decide mid completed (index b) (Close b)) in
  (Backtest.current_trade s' = Backtest.current_trade mid /\
   Backtest.trades_log s' = Backtest.trades_log mid) \/
  (Backtest.current_trade mid = None /\
   Backtest.trades_log s' = Backtest.trades_log mid /\
   exists t,
     Backtest.current_trade s' = Some t /\
     exit_keys t = None /\
     symbol t = "BTCUSDT"%string /\
     entry_candle t = len bars + 1 /\
     entry_explained (bars ++ [b]) t) \/
  (exists t e gate,
      Backtest.current_trade mid = Some t /\
      Backtest.current_trade s' = None /\
      Backtest.trades_log s' = Backtest.trades_log mid ++ [update_exit t e] /\
      exit_candle e = len bars + 1 /\
      htf_at (bars ++ [b]) (exit_htf e) = Some gate /\
      exit_htf e = (exit_candle e - 1) / 5 /\
      is_red (candle_of b) = true /\
      is_green gate = true /\
      exit_time e = index b /\
      exit_price e = Close b).
Proof.
  intros Hl Hv Hc Hh. cbv zeta. unfold Backtest.decide.
  destruct ((len (Backtest.ltf_candles mid) <? 2)
            || (len (Backtest.htf_candles mid) <? 1));
    [left; split; reflexivity|].
  destruct (backtest_call_strategy mid) as [sg [-> Sc]].
  rewrite Hl, Hv in Sc.
  unfold Backtest.execute_orders.
  destruct sg.
  - (* BUY *)
    destruct (signal_facts _ _ _ _ _ Sc ltac:(discriminate))
      as [l [p [c [h [g [El [Eh [Hg [Hp [Hr Hgr]]]]]]]]]].
    destruct (Backtest.current_trade mid) as [t|] eqn:Et;
      [discriminate|].
    right. left. split; [reflexivity|]. split; [reflexivity|].
    eexists. split; [reflexivity|].
    unfold open_trade. cbn [exit_keys symbol entry_candle].
    split; [reflexivity|]. split; [reflexivity|]. split; [exact Hc|].
    replace (l ++ [p; c]) with ((l ++ [p]) ++ [c]) in El
      by (rewrite <- app_assoc; reflexivity).
    apply app_inj_tail in El. destruct El as [El Ec].
    destruct (previous_bar bars b l p El) as [pb [Hpb Epb]].
    destruct (gate_at bars b h g Eh) as [Hgate Hdiv].
    split; [reflexivity|]. exists pb, b, g.
    cbn [entry_candle entry_htf entry_time entry_price].
    rewrite Hc, Hh.
    split; [exact Hpb|]. split; [apply bar_at_last|].
    split; [exact Hgate|]. split; [exact Hdiv|].
    split; [rewrite Epb; exact Hr|]. split; [rewrite Ec; exact Hgr|].
    split; [exact Hg|]. split; reflexivity.
  - (* SELL *)
    destruct (signal_facts _ _ _ _ _ Sc ltac:(discriminate))
      as [l [p [c [h [g [El [Eh [Hg [Hp Hr]]]]]]]]].
    destruct (Backtest.current_trade mid) as [t|] eqn:Et;
      [|discriminate].
    right. right.
    replace (l ++ [p; c]) with ((l ++ [p]) ++ [c]) in El
      by (rewrite <- app_assoc; reflexivity).
    apply app_inj_tail in El. destruct El as [El Ec].
    destruct (gate_at bars b h g Eh) as [Hgate Hdiv].
    eexists t, _, g. split; [reflexivity|]. split; [reflexivity|].
    split; [reflexivity|]. cbn [exit_candle exit_htf exit_time exit_price].
    rewrite Hc, Hh.
    split; [reflexivity|]. split; [exact Hgate|]. split; [exact Hdiv|].
    split; [rewrite Ec; exact Hr|]. split; [exact Hg|]. split; reflexivity.
  - left. split; reflexivity.
Qed.

Lemma entry_explained_update (bars : list Bar) (t : Trade) (e : Exit) :
  entry_explained bars t -> entry_explained bars (update_exit t e).
Proof. intros H. exact H. Qed.

(** The position and the trade log of the backtest adapter after a run
    from [init]. *)
Lemma backtest_log_invariant (bars : list Bar) :
  let s := fst (Backtest.run Backtest.init bars) in
  Forall (fun t => symbol t = "BTCUSDT"%string /\
                   entry_explained bars t /\ exit_explained bars t)
    (Backtest.trades_log s) /\
  in_sequence 0 (Backtest.trades_log s) /\
  last_exit 0 (Backtest.trades_log s) <= len bars /\
  match Backtest.current_trade s with
  | Some t =>
      symbol t = "BTCUSDT"%string /\ exit_keys t = None /\
      entry_explained bars t /\
      last_exit 0 (Backtest.trades_log s) < entry_candle t /\
      entry_candle t <= len bars
  | None => True
  end.
Proof.
  induction bars as [|b bars IH] using rev_ind.
  - cbn. repeat split; try constructor. unfold len. cbn. lia.
  - cbv zeta in IH |- *. rewrite backtest_run_app. cbn [fst snd].
    set (s := fst (Backtest.run Backtest.init bars)) in *.
    rewrite backtest_run_cons. cbn [Backtest.run fst].
    destruct IH as [Iall [Iseq [Ilast Icur]]].
    destruct (backtest_run_state bars) as [Ha [_ [_ [_ [Hc Hh]]]]].
    fold s in Ha, Hc, Hh.
    unfold Backtest.next.
    destruct (backtest_prepare s b) as [mid [E [Hm [_ [Ht [Hl [Hcc Hhc]]]]]]].
    rewrite E. cbv zeta.
    destruct (prepared_histories _ _ (candle_of b) Ha) as [Pl Pv].
    rewrite <- Hm in Pl, Pv.
    cbn [backtest_aggregation Engine.ltf_history Engine.visible_htf]
      in Pl, Pv.
    assert (Backtest.htf_count mid = len (htf_bars (map candle_of bars)))
      as Hcount by (rewrite <- Pv; lia).
    assert (Backtest.candle_count mid = len bars + 1) as Hcandle
      by (rewrite Hcc, Hc; reflexivity).
    pose proof (backtest_decide_trade bars b mid
                  (snd (Engine.step (backtest_aggregation s) (candle_of b)))
                  Pl Pv Hcandle Hcount) as Hd.
    cbv zeta in Hd.
    set (s' := fst (Backtest.decide mid
                      (snd (Engine.step (backtest_aggregation s)
                              (candle_of b)))
                      (index b) (Close b))) in *.
    rewrite len_app. change (len [b]) with 1.
    assert (Forall (fun t => symbol t = "BTCUSDT"%string /\
                             entry_explained (bars ++ [b]) t /\
                             exit_explained (bars ++ [b]) t)
              (Backtest.trades_log s)) as Iall'.
    { eapply Forall_impl; [|exact Iall]. cbn.
      intros t [H1 [H2 H3]]. split; [exact H1|].
      split; [now apply entry_explained_app|now apply exit_explained_app]. }
    rewrite Ht, Hl in Hd.
    destruct Hd as [[Hd1 Hd2]|[[Hn [Hd2 [t [Hd1 [Hx [Hsy [Hec Hee]]]]]]]
                              |[t [e [g [Hs [Hd1 [Hd2 [Hxc Hrest]]]]]]]]].
    + rewrite Hd1, Hd2.
      split; [exact Iall'|]. split; [exact Iseq|]. split; [lia|].
      destruct (Backtest.current_trade s) as [t|]; [|exact I].
      destruct Icur as [C1 [C2 [C3 [C4 C5]]]].
      split; [exact C1|]. split; [exact C2|].
      split; [now apply entry_explained_app|]. lia.
    + rewrite Hd1, Hd2.
      split; [exact Iall'|]. split; [exact Iseq|]. split; [lia|].
      split; [exact Hsy|]. split; [exact Hx|]. split; [exact Hee|]. lia.
    + rewrite Hd1, Hd2. rewrite Hs in Icur.
      destruct Icur as [C1 [C2 [C3 [C4 C5]]]].
      destruct (in_sequence_snoc (Backtest.trades_log s)
                  (update_exit t e) e 0 Iseq eq_refl)
        as [S1 S2]; [exact C4|cbn [update_exit entry_candle]; lia|].
      split; [|split; [exact S1|split; [rewrite S2; lia|exact I]]].
      apply Forall_app. split; [exact Iall'|].
      constructor; [|constructor].
      split; [exact C1|]. split; [now apply entry_explained_app|].
      destruct Hrest as [Hg [Hdiv [Hr [Hgreen [Htime Hprice]]]]].
      exists e, b, g. split; [reflexivity|].
      split; [rewrite Hxc; apply bar_at_last|].
      split; [exact Hg|]. split; [exact Hdiv|].
      split; [cbn [update_exit entry_candle]; lia|].
      repeat split; assumption.
Qed.

(** X12.  Every trade that a backtest run logs is explained by the bars:
    it is a LONG entered at the close and timestamp of a green bar that
    follows a red bar, and exited at the close and timestamp of a later
    red bar, each time while the latest visible HTF candle was green;
    its candle and HTF numbers are the counters of those two ticks.  The
    position left open at the end of the run has such an entry and no
    exit keys.  The trades that the live trader writes are explained in
    the same way when no bar opens below zero and every order call
    returns. *)
Theorem logged_trades_explained (bars : list Bar) :
  (let s := fst (Backtest.run Backtest.init bars) in
   Forall (fun t => entry_explained bars t /\ exit_explained bars t)
     (Backtest.trades_log s) /\
   (forall t, Backtest.current_trade s = Some t ->
              entry_explained bars t /\ exit_keys t = None)) /\
  (Forall (fun b => nonneg (Open b) = true) bars ->
   let s := fst (Live.feed (Live.init "BTCUSDT") (all_orders_ok bars)) in
   Forall (fun t => entry_explained bars t /\ exit_explained bars t)
     (Live.trade_file s) /\
   (forall t, Live.current_trade s = Some t ->
              entry_explained bars t /\ exit_keys t = None)).
Proof.
  destruct (backtest_log_invariant bars) as [Iall [_ [_ Icur]]].
  cbv zeta in Iall, Icur.
  assert (Forall (fun t => entry_explained bars t /\ exit_explained bars t)
            (Backtest.trades_log (fst (Backtest.run Backtest.init bars))) /\
          (forall t,
              Backtest.current_trade (fst (Backtest.run Backtest.init bars))
              = Some t ->
              entry_explained bars t /\ exit_keys t = None)) as Hb.
  { split.
    - eapply Forall_impl; [|exact Iall]. cbn. intros t [_ H]. exact H.
    - intros t Ht. rewrite Ht in Icur.
      destruct Icur as [_ [C2 [C3 _]]]. split; assumption. }
  split; [exact Hb|].
  intros Hopen. cbv zeta.
  destruct (parity_run bars Hopen (Live.init "BTCUSDT") Backtest.init
              same_state_init eq_refl I) as [[_ [_ [Ht [Hf _]]]] _].
  rewrite Ht, Hf. exact Hb.
Qed.

Lemma logged_trades_explained_witness :
  Forall (fun b => nonneg (Open b) = true) sample_bars /\
  Forall (fun t => entry_explained sample_bars t
                   /\ exit_explained sample_bars t)
    (Live.trade_file
       (fst (Live.feed (Live.init "BTCUSDT") (all_orders_ok sample_bars)))).
Proof.
  assert (Forall (fun b => nonneg (Open b) = true) sample_bars) as H
    by (repeat constructor).
  split; [exact H|].
  exact (proj1 (proj2 (logged_trades_explained sample_bars) H)).
Defined.

(** X13.  A backtest run holds one position at a time: in its log every
    trade is exited after it was entered and before the next one is
    entered, and the position that is open at the end was entered after
    the last exit. *)
Theorem one_position_at_a_time (bars : list Bar) :
  let s := fst (Backtest.run Backtest.init bars) in
  in_sequence 0 (Backtest.trades_log s) /\
  last_exit 0 (Backtest.trades_log s) <= Backtest.candle_count s /\
  (forall t, Backtest.current_trade s = Some t ->
             last_exit 0 (Backtest.trades_log s) < entry_candle t /\
             entry_candle t <= Backtest.candle_count s).
Proof.
  cbv zeta.
  destruct (backtest_log_invariant bars) as [_ [Iseq [Ilast Icur]]].
  destruct (backtest_run_state bars) as [_ [_ [_ [_ [Hc _]]]]].
  cbv zeta in Iseq, Ilast, Icur. rewrite Hc.
  split; [exact Iseq|]. split; [exact Ilast|].
  intros t Ht. rewrite Ht in Icur.
  destruct Icur as [_ [_ [_ [C4 C5]]]]. split; assumption.
Qed.

(** ** The balance and the orders *)

Lemma balance_without_btc (balances : list Venue.Balance) :
  Forall (fun b => Venue.asset b <> "BTC"%string) balances ->
  Venue.first_btc balances = Ok 0%float.
Proof.
  induction 1 as [|b rest Hb _ IH]; [reflexivity|].
  cbn [Venue.first_btc].
  destruct (String.eqb_spec (Venue.asset b) "BTC"); [contradiction|].
  exact IH.
Qed.

(** X14.  When the account query fails, or the account lists no BTC, or
    the free BTC amount is not above zero, [place_market_sell] sends no
    order and returns normally; the exit of the live trader then goes
    on as after a filled order, though nothing was sold.  For an entry
    price other than zero the trade row is written with the exit keys
    and the position is reset.  For an entry price of zero the exit keys
    are added to the position, the P&L percentage raises
    [ZeroDivisionError], no row is written and the position is kept. *)
Theorem sell_without_balance_is_recorded (round : float -> float)
    (client : Venue.Client) (self : Live.LiveTrader) (t : Trade)
    (ts : Z) (price : float) :
  (exists e, Venue.get_account client = Raise e) \/
  (exists balances,
      Venue.get_account client = Ok balances /\
      Forall (fun b => Venue.asset b <> "BTC"%string) balances) \/
  PrimFloat.leb (Venue.get_btc_balance client) 0%float = true ->
  Live.current_trade self = Some t ->
  let sold := Venue.place_market_sell round client (Live.symbol self) in
  let r := Live.execute_orders self SELL ts price
             (Venue.returns (fst sold)) in
  let closed :=
    update_exit t
      {| exit_time := ts; exit_price := price;
         exit_candle := Live.candle_count self;
         exit_htf := Live.htf_count self |} in
  sold = (Ok None, []) /\
  if PrimFloat.eqb (entry_price t) 0%float then
    snd r = (Some Sell, Some ZeroDivisionError) /\
    Live.current_trade (fst r) = Some closed /\
    Live.trade_file (fst r) = Live.trade_file self
  else
    snd r = (Some Sell, None) /\
    Live.current_trade (fst r) = None /\
    Live.trade_file (fst r) = Live.trade_file self ++ [closed].
Proof.
  intros Hbal Hopen. cbv zeta.
  assert (PrimFloat.leb (Venue.get_btc_balance client) 0%float = true)
    as Hzero.
  { destruct Hbal as [[e He]|[[bs [Hb Hall]]|H]]; [| |exact H].
    - unfold Venue.get_btc_balance. rewrite He. reflexivity.
    - unfold Venue.get_btc_balance.
      rewrite Hb, (balance_without_btc bs Hall). reflexivity. }
  assert (Venue.place_market_sell round client (Live.symbol self)
          = (Ok None, [])) as Hsold.
  { unfold Venue.place_market_sell. rewrite Hzero. reflexivity. }
  rewrite Hsold. split; [reflexivity|].
  unfold Live.execute_orders. rewrite Hopen.
  cbn [fst Venue.returns update_exit entry_price].
  unfold truediv.
  destruct (PrimFloat.eqb (entry_price t) 0%float); cbn; repeat split.
Qed.

Lemma sell_without_balance_is_recorded_witness :
  let client :=
    {| Venue.get_account :=
         Ok [{| Venue.asset := "USDT"; Venue.free := Ok 100%float |}];
       Venue.create_order := fun _ => Raise BinanceAPIException |} in
  let trade := open_trade "BTCUSDT" 360 13.5%float 7 1 in
  let self := Live.set_trade (Live.init "BTCUSDT") (Some trade) [] in
  Venue.place_market_sell (fun q => q) client "BTCUSDT" = (Ok None, []) /\
  Live.trade_file
    (fst (Live.execute_orders self SELL 480 13%float
            (Venue.returns
               (fst (Venue.place_market_sell (fun q => q) client
                       (Live.symbol self))))))
  = [] ++ [update_exit trade
             {| exit_time := 480; exit_price := 13%float;
                exit_candle := 0; exit_htf := 0 |}].
Proof.
  assert (Forall (fun b => Venue.asset b <> "BTC"%string)
            [{| Venue.asset := "USDT"; Venue.free := Ok 100%float |}])
    as Hno by (constructor; [cbn; discriminate|constructor]).
  pose proof
    (sell_without_balance_is_recorded (fun q => q)
       {| Venue.get_account :=
            Ok [{| Venue.asset := "USDT"; Venue.free := Ok 100%float |}];
          Venue.create_order := fun _ => Raise BinanceAPIException |}
       (Live.set_trade (Live.init "BTCUSDT")
          (Some (open_trade "BTCUSDT" 360 13.5%float 7 1)) [])
       (open_trade "BTCUSDT" 360 13.5%float 7 1) 480 13%float
       (or_intror (or_introl (ex_intro _ _ (conj eq_refl Hno))))
       eq_refl) as H.
  cbv zeta in H. destruct H as [H1 H2].
  change (PrimFloat.eqb
            (entry_price (open_trade "BTCUSDT" 360 13.5%float 7 1))
            0%float) with false in H2.
  destruct H2 as [_ [_ H2]].
  split; [exact H1|exact H2].
Defined.

(** ** The replay script and the candles of a live session *)

Lemma drop_duplicated_fresh (rows : list Bar) :
  forall seen,
    (forall row, In row rows -> ~ In (index row) seen) ->
    NoDup (map index rows) ->
    Replay.drop_duplicated seen rows = rows.
Proof.
  induction rows as [|row rest IH]; intros seen Hfresh Hnd; [reflexivity|].
  cbn [Replay.drop_duplicated map] in *.
  inversion Hnd as [|? ? Hnotin Hnd']; subst.
  destruct (existsb (Z.eqb (index row)) seen) eqn:E.
  - exfalso. apply existsb_exists in E. destruct E as [x [Hin Hx]].
    apply Z.eqb_eq in Hx. subst x.
    exact (Hfresh row (or_introl eq_refl) Hin).
  - f_equal. apply IH; [|exact Hnd'].
    intros r Hr [Heq|Hin].
    + apply Hnotin. rewrite Heq. apply in_map. exact Hr.
    + exact (Hfresh r (or_intror Hr) Hin).
Qed.

Lemma increasing_NoDup (l : list Z) : StronglySorted Z.lt l -> NoDup l.
Proof.
  induction 1 as [|x l _ IH Hall]; constructor; [|exact IH].
  intros Hin. rewrite Forall_forall in Hall.
  specialize (Hall x Hin). lia.
Qed.

(** With timestamps that never decrease, the accepted bars have
    increasing timestamps, all later than the last one seen. *)
Lemma accepted_increasing (polls : list (Res (Candle * Z) * bool)) :
  forall seen aligned,
    StronglySorted Z.le (poll_times polls) ->
    (forall last, seen = Some last ->
                  Forall (fun ts => last <= ts) (poll_times polls)) ->
    StronglySorted Z.lt (map index (map fst (accepted seen aligned polls))) /\
    (forall last, seen = Some last ->
                  Forall (fun ts => last < ts)
                    (map index (map fst (accepted seen aligned polls)))).
Proof.
  induction polls as [|[[[c ts]|e] ok] rest IH]; intros seen aligned Hs Hlast.
  - cbn. split; [constructor|]. intros; constructor.
  - cbn [accepted poll_times] in *.
    inversion Hs as [|? ? Hs' Hall]; subst.
    assert (forall last, seen = Some last -> last <= ts) as Hle.
    { intros last E. specialize (Hlast last E).
      inversion Hlast; assumption. }
    assert (forall last, seen = Some last ->
                         Forall (fun x => last <= x) (poll_times rest))
      as Hrest.
    { intros last E. specialize (Hlast last E).
      inversion Hlast; assumption. }
    destruct (IH (Some ts) true Hs') as [A1 A2].
    { intros last [= <-]. exact Hall. }
    destruct (IH (Some ts) false Hs') as [B1 B2].
    { intros last [= <-]. exact Hall. }
    assert (forall (P : Z -> Prop) l,
               Forall (fun x => ts < x) l ->
               (forall x, ts < x -> P x) -> Forall P l) as Himpl.
    { intros P l H HP. eapply Forall_impl; [|exact H]. exact HP. }
    destruct seen as [last|].
    + destruct (Z.eqb_spec ts last) as [->|Hne].
      * apply IH; [exact Hs'|]. intros l0 [= <-]. exact Hall.
      * pose proof (Hle last eq_refl) as Hl.
        destruct (aligned || (Live.minute ts mod 5 =? 0)).
        -- cbn [map fst index]. split.
           ++ constructor; [exact A1|exact (A2 ts eq_refl)].
           ++ intros l0 [= <-]. constructor; [lia|].
              apply (Himpl _ _ (A2 ts eq_refl)). intros; lia.
        -- split; [exact B1|].
           intros l0 [= <-].
           apply (Himpl _ _ (B2 ts eq_refl)). intros; lia.
    + destruct (aligned || (Live.minute ts mod 5 =? 0)).
      * cbn [map fst index]. split.
        -- constructor; [exact A1|exact (A2 ts eq_refl)].
        -- intros l0 [=].
      * split; [exact B1|]. intros l0 [=].
  - cbn [accepted poll_times] in *. apply IH; assumption.
Qed.

(** The first bar that the alignment gate accepts falls on a multiple of
    five minutes. *)
Lemma accepted_starts_aligned (polls : list (Res (Candle * Z) * bool)) :
  forall seen first rest,
    accepted seen false polls = first :: rest ->
    Live.minute (index (fst first)) mod 5 = 0.
Proof.
  induction polls as [|[[[c ts]|e] ok] more IH]; intros seen first rest H;
    cbn [accepted] in H.
  - discriminate.
  - destruct (match seen with Some last => ts =? last | None => false end);
      [exact (IH _ _ _ H)|].
    cbn [orb] in H.
    destruct (Z.eqb_spec (Live.minute ts mod 5) 0) as [E|_];
      [|exact (IH _ _ _ H)].
    injection H as <- _. exact E.
  - exact (IH _ _ _ H).
Qed.

(** The two files that a live session leaves. *)
Lemma live_session_files (sym : string)
    (polls : list (Res (Candle * Z) * bool)) :
  let live := fst (Live.run (Live.init sym) polls) in
  let fed := fst (Live.feed (Live.init sym) (accepted None false polls)) in
  Live.candle_file live = map fst (accepted None false polls) /\
  Live.trade_file live = Live.trade_file fed /\
  Live.current_trade live = Live.current_trade fed.
Proof.
  cbv zeta.
  destruct (live_run_feed polls (Live.init sym)) as [Ef _].
  cbn [Live.init Live.last_candle_ts Live._alignment_complete] in Ef.
  fold (Live.init sym) in Ef.
  change (Live.forget_loop (Live.init sym)) with (Live.init sym) in Ef.
  rewrite <- Ef. split; [|split; reflexivity].
  change (Live.candle_file
            (Live.forget_loop (fst (Live.run (Live.init sym) polls)))
          = map fst (accepted None false polls)).
  rewrite Ef.
  exact (proj2 (proj2 (proj2 (proj2 (proj2 (proj2 (proj2
           (live_feed_state sym (accepted None false polls))))))))).
Qed.

(** The percentages are printed for all trades, unless one of them has
    a zero entry price. *)
Lemma pnl_pcts_of_spec (trades : list Trade) :
  match Replay.pnl_pcts_of trades with
  | Ok printed =>
      len printed = len trades /\
      Forall (fun t => PrimFloat.eqb (entry_price t) 0%float = false) trades
  | Raise e =>
      e = ZeroDivisionError /\
      Exists (fun t => PrimFloat.eqb (entry_price t) 0%float = true) trades
  end.
Proof.
  induction trades as [|t rest IH]; cbn [Replay.pnl_pcts_of].
  - split; [reflexivity|constructor].
  - unfold truediv.
    destruct (PrimFloat.eqb (entry_price t) 0%float) eqn:E.
    + split; [reflexivity|]. apply Exists_cons_hd. exact E.
    + destruct (Replay.pnl_pcts_of rest) as [printed|e].
      * destruct IH as [Hl Hall]. split.
        -- unfold len in *. cbn [List.length]. lia.
        -- constructor; assumption.
      * destruct IH as [He Hex]. split; [exact He|].
        apply Exists_cons_tl. exact Hex.
Qed.

Lemma trade_details_spec (trades : list Trade) :
  Forall (fun t => exit_keys t <> None) trades ->
  match Replay.trade_details trades with
  | Replay.Printed printed =>
      len printed = len trades /\
      Forall (fun t => PrimFloat.eqb (entry_price t) 0%float = false) trades
  | Replay.DetailsRaised e =>
      e = ZeroDivisionError /\
      Exists (fun t => PrimFloat.eqb (entry_price t) 0%float = true) trades
  | Replay.AttributeError => False
  end.
Proof.
  intros Hexit. unfold Replay.trade_details.
  destruct trades as [|t rest]; [split; [reflexivity|constructor]|].
  replace (Replay.has_exit_columns (t :: rest)) with true.
  - pose proof (pnl_pcts_of_spec (t :: rest)) as H.
    destruct (Replay.pnl_pcts_of (t :: rest)); exact H.
  - inversion Hexit as [|? ? Ht _]; subst.
    unfold Replay.has_exit_columns. cbn [existsb].
    destruct (exit_keys t); [reflexivity|congruence].
Qed.

Lemma logged_trades_closed (bars : list Bar) :
  Forall (fun t => exit_keys t <> None)
    (Backtest.trades_log (fst (Backtest.run Backtest.init bars))).
Proof.
  destruct (backtest_log_invariant bars) as [Iall _]. cbv zeta in Iall.
  eapply Forall_impl; [|exact Iall]. cbn.
  intros t [_ [_ [e [x [g [He _]]]]]]. congruence.
Qed.

(** X15.  The candle file of a live session needs no repair by the
    replay script.  Take a live session whose polls bring timestamps
    that never decrease.  The rows of its live_candles.csv carry
    strictly increasing timestamps, so the script drops no row as a
    duplicate; and if the session accepted no candle the script fails on
    the empty frame ([IndexError] at [data.index[0]]), otherwise the
    first row falls on a multiple of five minutes and the script hands
    the rows as they are to the backtesting library, without the
    alignment warning. *)
Theorem replay_data_of_live_session (sym : string)
    (polls : list (Res (Candle * Z) * bool)) :
  StronglySorted Z.le (poll_times polls) ->
  let csv := Live.candle_file (fst (Live.run (Live.init sym) polls)) in
  StronglySorted Z.lt (map index csv) /\
  Replay.drop_duplicated [] csv = csv /\
  match csv with
  | [] => Replay.prepare csv = Raise IndexError
  | _ :: _ =>
      Replay.prepare csv
      = Ok {| Replay.data := csv; Replay.warned := false |}
  end.
Proof.
  intros Hsorted. cbv zeta.
  destruct (live_session_files sym polls) as [Ec _]. rewrite Ec.
  set (ticks := accepted None false polls) in *.
  destruct (accepted_increasing polls None false Hsorted) as [Hinc _];
    [discriminate|]. fold ticks in Hinc.
  assert (Replay.drop_duplicated [] (map fst ticks) = map fst ticks) as Hdd.
  { apply drop_duplicated_fresh; [intros row _ []|].
    apply increasing_NoDup. exact Hinc. }
  split; [exact Hinc|]. split; [exact Hdd|].
  unfold Replay.prepare. rewrite Hdd.
  destruct ticks as [|tk tks] eqn:Etk; [reflexivity|].
  cbn [map]. rewrite getitem_first. cbv zeta.
  rewrite (accepted_starts_aligned polls None tk tks Etk). reflexivity.
Qed.

Lemma replay_data_of_live_session_witness :
  let csv :=
    Live.candle_file (fst (Live.run (Live.init "BTCUSDT") sample_polls)) in
  StronglySorted Z.le (poll_times sample_polls) /\
  len csv = 12 /\
  Replay.prepare csv = Ok {| Replay.data := csv; Replay.warned := false |}.
Proof.
  cbv zeta.
  assert (StronglySorted Z.le (poll_times sample_polls)) as Hs.
  { repeat (constructor; [|repeat (constructor; [vm_compute; discriminate|]);
                           constructor]).
    constructor. }
  split; [exact Hs|]. split; [vm_compute; reflexivity|].
  pose proof (replay_data_of_live_session "BTCUSDT" sample_polls Hs) as H.
  cbv zeta in H. destruct H as [_ [_ H]].
  destruct (Live.candle_file
              (fst (Live.run (Live.init "BTCUSDT") sample_polls)))
    as [|first rest] eqn:E; [vm_compute in E; discriminate|].
  exact H.
Defined.

(** X16.  Whatever rows reach [next] in the replay, the end of the
    script writes backtest_trades.csv if and only if the run logged a
    trade, and before it prints the trade details; the printing fails
    exactly when a logged trade was entered at price zero: the division
    for the P&L percentage raises [ZeroDivisionError] then, with the
    trade file already written.  Otherwise one percentage is printed per
    trade.  The exit columns that the printing reads are never
    missing. *)
Theorem replay_details_fail_iff_zero_entry (delivered : list Bar) :
  let strategy := fst (Backtest.run Backtest.init delivered) in
  let r := Replay.report strategy in
  let log := Backtest.trades_log strategy in
  Replay.saved r = (if 0 <? len log then Some log else None) /\
  match Replay.details r with
  | Replay.Printed pnl_pcts =>
      len pnl_pcts = len log /\
      Forall (fun t => PrimFloat.eqb (entry_price t) 0%float = false) log
  | Replay.DetailsRaised e =>
      e = ZeroDivisionError /\ Replay.saved r = Some log /\
      Exists (fun t => PrimFloat.eqb (entry_price t) 0%float = true) log
  | Replay.AttributeError => False
  end.
Proof.
  cbv zeta. unfold Replay.report.
  pose proof (trade_details_spec _ (logged_trades_closed delivered)) as Hdet.
  set (log := Backtest.trades_log
                (fst (Backtest.run Backtest.init delivered))) in *.
  destruct (Z.ltb_spec 0 (len log)) as [Hlen|Hlen];
    cbn [Replay.saved Replay.details].
  - split; [reflexivity|].
    destruct (Replay.trade_details log) as [printed|e|];
      [exact Hdet| |exact Hdet].
    destruct Hdet as [He Hex]. split; [exact He|].
    split; [reflexivity|exact Hex].
  - split; [reflexivity|].
    destruct log as [|t log']; [split; [reflexivity|constructor]|].
    unfold len in Hlen. cbn [List.length] in Hlen. lia.
Qed.

Lemma replay_details_fail_iff_zero_entry_witness :
  let r :=
    Replay.report (fst (Backtest.run Backtest.init zero_entry_bars)) in
  Replay.details r = Replay.DetailsRaised ZeroDivisionError /\
  Replay.saved r
  = Some (Backtest.trades_log
            (fst (Backtest.run Backtest.init zero_entry_bars))).
Proof.
  cbv zeta.
  pose proof (replay_details_fail_iff_zero_entry zero_entry_bars) as H.
  cbv zeta in H. destruct H as [_ H].
  assert (Replay.details
            (Replay.report
               (fst (Backtest.run Backtest.init zero_entry_bars)))
          = Replay.DetailsRaised ZeroDivisionError) as Hd
      by (vm_compute; reflexivity).
  rewrite Hd in H. destruct H as [_ [Hs _]].
  split; [exact Hd|exact Hs].
Defined.

(** ** The colours of a candle *)

Lemma green_not_red (c : Candle) : is_green c = true -> is_red c = false.
Proof.
  unfold is_green, is_red. rewrite !ltb_spec. unfold SFltb.
  rewrite (SFcompare_antisym (Prim2SF (open c)) (Prim2SF (close c))).
  destruct (SFcompare (Prim2SF (open c)) (Prim2SF (close c))) as [[| |]|];
    cbn; intros H; try reflexivity; discriminate.
Qed.

Lemma flat_no_colour (c : Candle) :
  PrimFloat.eqb (close c) (open c) = true ->
  is_green c = false /\ is_red c = false.
Proof.
  unfold is_green, is_red. rewrite !ltb_spec, eqb_spec.
  unfold SFltb, SFeqb.
  rewrite (SFcompare_antisym (Prim2SF (close c)) (Prim2SF (open c))).
  destruct (SFcompare (Prim2SF (close c)) (Prim2SF (open c))) as [[| |]|];
    cbn; intros H; try discriminate; split; reflexivity.
Qed.

(** X17.  The candles on which the strategy answers BUY for a flat
    account are never candles on which it would answer SELL for an open
    position: a candle is not green and red at once, so on the same
    candle lists the answer with a position open is HOLD.  A position is
    therefore never closed by the candle that opened it. *)
Theorem entry_candle_is_no_exit_candle (strategy : PullbackStrategy)
    (ltf_candles htf_candles : list Candle) :
  fst (call_generate_signal strategy ltf_candles htf_candles false) = Ok BUY ->
  fst (call_generate_signal strategy ltf_candles htf_candles true) = Ok HOLD.
Proof.
  intros H.
  destruct (signal_facts _ _ _ _ _ H ltac:(discriminate))
    as [l [p [c [h [hc [-> [-> [Hg [_ [_ Hc]]]]]]]]]].
  unfold call_generate_signal. rewrite generate_signal_enough.
  rewrite Hg, (green_not_red c Hc). reflexivity.
Qed.

Lemma entry_candle_is_no_exit_candle_witness :
  let red := {| open := 2%float; close := 1%float |} in
  let green := {| open := 1%float; close := 2%float |} in
  fst (call_generate_signal mkPullbackStrategy [red; green] [green] false)
  = Ok BUY /\
  fst (call_generate_signal mkPullbackStrategy [red; green] [green] true)
  = Ok HOLD.
Proof.
  split; [reflexivity|].
  apply (entry_candle_is_no_exit_candle mkPullbackStrategy
           [{| open := 2%float; close := 1%float |};
            {| open := 1%float; close := 2%float |}]
           [{| open := 1%float; close := 2%float |}]).
  reflexivity.
Defined.

(** X18.  A last LTF candle that closes where it opened is neither green
    nor red, and the strategy answers HOLD on it, whatever the earlier
    candles, the HTF candles and the position flag: a flat candle opens
    no position and closes none. *)
Theorem flat_candle_gives_hold (strategy : PullbackStrategy)
    (earlier_ltf : list Candle) (current_ltf : Candle)
    (htf_candles : list Candle) (position_open : bool) :
  PrimFloat.eqb (close current_ltf) (open current_ltf) = true ->
  fst (call_generate_signal strategy (earlier_ltf ++ [current_ltf])
         htf_candles position_open) = Ok HOLD.
Proof.
  intros Hflat. destruct (flat_no_colour _ Hflat) as [Hg Hr].
  destruct (call_generate_signal_pure strategy (earlier_ltf ++ [current_ltf])
              htf_candles position_open) as [signal E].
  rewrite E. cbn [fst].
  destruct signal; [exfalso|exfalso|reflexivity];
    (assert (fst (call_generate_signal strategy
                    (earlier_ltf ++ [current_ltf]) htf_candles
                    position_open) = Ok _) as Hs by (rewrite E; reflexivity);
     destruct (signal_facts _ _ _ _ _ Hs ltac:(discriminate))
       as [l [p [c [h [hc [El [_ [_ Hm]]]]]]]];
     change (l ++ [p; c]) with (l ++ [p] ++ [c]) in El;
     rewrite app_assoc in El; apply app_inj_tail in El;
     destruct El as [_ ->]; cbn beta iota in Hm).
  - destruct Hm as [_ [_ Hc]]. congruence.
  - destruct Hm as [_ Hc]. congruence.
Qed.

Lemma flat_candle_gives_hold_witness :
  let red := {| open := 2%float; close := 1%float |} in
  let green := {| open := 1%float; close := 2%float |} in
  let flat := {| open := 1.5%float; close := 1.5%float |} in
  PrimFloat.eqb (close flat) (open flat) = true /\
  fst (call_generate_signal mkPullbackStrategy ([red; red] ++ [flat])
         [green] true) = Ok HOLD.
Proof.
  split; [reflexivity|].
  apply (flat_candle_gives_hold mkPullbackStrategy
           [{| open := 2%float; close := 1%float |};
            {| open := 2%float; close := 1%float |}]
           {| open := 1.5%float; close := 1.5%float |}
           [{| open := 1%float; close := 2%float |}] true).
  reflexivity.
Defined.

(** ** The comparison on copies of the same trades *)

Lemma NoDup_map_injective {A B : Type} (f : A -> B) (l : list A) (a b : A) :
  NoDup (map f l) -> In a l -> In b l -> f a = f b -> a = b.
Proof.
  induction l as [|x l IH]; intros Hnd Ha Hb E; [destruct Ha|].
  cbn [map] in Hnd. inversion Hnd as [|? ? Hnotin Hnd']; subst.
  destruct Ha as [->|Ha], Hb as [->|Hb].
  - reflexivity.
  - exfalso. apply Hnotin. rewrite E. apply in_map. exact Hb.
  - exfalso. apply Hnotin. rewrite <- E. apply in_map. exact Ha.
  - exact (IH Hnd' Ha Hb E).
Qed.

(** A live trade that is also in the backtest frame, whose entry times
    are distinct, passes against itself, with both differences zero,
    unless its direction cell is NaN. *)
Lemma validate_copies (backtest_trades : list Compare.Row) :
  NoDup (map Compare.entry_time backtest_trades) ->
  forall live_trades matched checked,
    incl live_trades backtest_trades ->
    Forall (fun live => Compare.direction live <> Compare.NaN)
      live_trades ->
    Compare.validate backtest_trades live_trades matched checked
    = Some (map (fun _ => Compare.Match 0 0) live_trades,
            (matched + len live_trades, checked + len live_trades)).
Proof.
  intros Hnd. induction live_trades as [|live rest IH];
    intros matched checked Hincl Htext.
  - cbn. unfold len. cbn. rewrite !Z.add_0_r. reflexivity.
  - assert (In live backtest_trades) as Hin
        by (apply Hincl; left; reflexivity).
    assert (backtest_trades <> []) as Hne
        by (intros ->; destruct Hin).
    inversion Htext as [|? ? Hlive Hrest]; subst.
    destruct (closest_backtest_trade backtest_trades live Hne)
      as [i [bt [Hi [Hn Hleast]]]].
    assert (bt = live) as ->.
    { apply (NoDup_map_injective Compare.entry_time backtest_trades);
        [exact Hnd|exact (nth_error_In _ _ Hn)|exact Hin|].
      specialize (Hleast live Hin). lia. }
    cbn [Compare.validate]. rewrite Hi, Hn.
    assert (Compare.ne (Compare.direction live) (Compare.direction live)
            = false) as ->.
    { destruct (Compare.direction live) as [d|]; [|congruence].
      cbn. rewrite String.eqb_refl. reflexivity. }
    rewrite !Z.sub_diag. cbn [Z.abs].
    change (Compare.MAX_TIME_DIFF <? 0) with false. cbv iota.
    rewrite IH by
      (try exact Hrest; intros x Hx; apply Hincl; right; exact Hx).
    cbn [map]. do 3 f_equal; unfold len; cbn [List.length]; lia.
Qed.

(** X19.  When both frames are loaded, the backtest trades have distinct
    entry times, and every live trade is also a backtest trade (same
    direction, entry time and exit time) whose direction cell is a text
    and not NaN, the script validates every live trade against its own
    copy, never against a neighbour: each finding is a match with both
    time differences zero, and [checked] is the number of live trades.
    (A NaN direction differs from itself and ends the loop with a
    direction mismatch.) *)
Theorem compare_validates_copies
    (backtest_trades live_trades : list Compare.Row) :
  NoDup (map Compare.entry_time backtest_trades) ->
  incl live_trades backtest_trades ->
  Forall (fun live => Compare.direction live <> Compare.NaN) live_trades ->
  Compare.main (Some backtest_trades) (Some live_trades)
  = Some {| Compare.findings :=
              map (fun _ => Compare.Match 0 0) live_trades;
            Compare.matched := len live_trades;
            Compare.checked := len live_trades;
            Compare.verdict := Compare.LogicMatches |}.
Proof.
  intros Hnd Hincl Htext. unfold Compare.main, Compare.script.
  rewrite (validate_copies backtest_trades Hnd live_trades 0 0 Hincl Htext).
  cbn [Z.add]. rewrite Z.eqb_refl. reflexivity.
Qed.

Lemma compare_validates_copies_witness :
  let first := {| Compare.direction := Compare.Text "LONG";
                  Compare.entry_time := 360; Compare.exit_time := 480 |} in
  let second := {| Compare.direction := Compare.Text "LONG";
                   Compare.entry_time := 420; Compare.exit_time := 900 |} in
  NoDup (map Compare.entry_time [first; second]) /\
  incl [second] [first; second] /\
  Forall (fun live => Compare.direction live <> Compare.NaN) [second] /\
  Compare.main (Some [first; second]) (Some [second])
  = Some {| Compare.findings := [Compare.Match 0 0];
            Compare.matched := 1; Compare.checked := 1;
            Compare.verdict := Compare.LogicMatches |}.
Proof.
  cbv zeta.
  assert (NoDup (map Compare.entry_time
                   [{| Compare.direction := Compare.Text "LONG";
                       Compare.entry_time := 360;
                       Compare.exit_time := 480 |};
                    {| Compare.direction := Compare.Text "LONG";
                       Compare.entry_time := 420;
                       Compare.exit_time := 900 |}])) as Hnd.
  { cbn. constructor.
    - intros [H|[]]. discriminate.
    - constructor; [intros []|constructor]. }
  assert (incl [{| Compare.direction := Compare.Text "LONG";
                   Compare.entry_time := 420;
                   Compare.exit_time := 900 |}]
               [{| Compare.direction := Compare.Text "LONG";
                   Compare.entry_time := 360;
                   Compare.exit_time := 480 |};
                {| Compare.direction := Compare.Text "LONG";
                   Compare.entry_time := 420;
                   Compare.exit_time := 900 |}]) as Hincl.
  { intros x [<-|[]]. right. left. reflexivity. }
  assert (Forall (fun live => Compare.direction live <> Compare.NaN)
            [{| Compare.direction := Compare.Text "LONG";
                Compare.entry_time := 420;
                Compare.exit_time := 900 |}]) as Htext.
  { constructor; [cbn; discriminate|constructor]. }
  split; [exact Hnd|]. split; [exact Hincl|]. split; [exact Htext|].
  exact (compare_validates_copies _ _ Hnd Hincl Htext).
Defined.

(** ** The times of the logged trades *)

Lemma increasing_nth_error (bars : list Bar) :
  StronglySorted Z.lt (map index bars) ->
  forall i j b1 b2,
    nth_error bars i = Some b1 -> nth_error bars j = Some b2 ->
    (i < j)%nat -> index b1 < index b2.
Proof.
  induction bars as [|b bars IH]; intros Hs i j b1 b2 H1 H2 Hij.
  - destruct i; discriminate.
  - cbn [map] in Hs. inversion Hs as [|? ? Hs' Hall]; subst.
    destruct j as [|j]; [lia|]. cbn [nth_error] in H2.
    destruct i as [|i].
    + injection H1 as <-. rewrite Forall_forall in Hall.
      apply Hall. apply in_map. exact (nth_error_In _ _ H2).
    + cbn [nth_error] in H1. apply (IH Hs' i j); [assumption..|lia].
Qed.

(** On bars with increasing timestamps, a later tick has a later
    timestamp. *)
Lemma bar_at_increasing (bars : list Bar) (n m : Z) (b1 b2 : Bar) :
  StronglySorted Z.lt (map index bars) ->
  bar_at bars n = Some b1 -> bar_at bars m = Some b2 ->
  n < m -> index b1 < index b2.
Proof.
  intros Hs H1 H2 Hnm. unfold bar_at in H1, H2.
  destruct (Z.leb_spec 1 n); [|discriminate].
  destruct (Z.leb_spec 1 m); [|discriminate].
  apply (increasing_nth_error bars Hs _ _ _ _ H1 H2). lia.
Qed.

Lemma trade_times_increasing (bars : list Bar) (log : list Trade) :
  StronglySorted Z.lt (map index bars) ->
  Forall (fun t => entry_explained bars t /\ exit_explained bars t) log ->
  forall after,
    in_sequence after log ->
    StronglySorted Z.lt (trade_times log) /\
    Forall (fun time => exists n b,
                after < n /\ bar_at bars n = Some b /\ time = index b)
      (trade_times log) /\
    List.length (trade_times log) = (2 * List.length log)%nat.
Proof.
  intros Hs. induction 1 as [|t rest [Hen Hex] _ IH]; intros after Hseq.
  - cbn. split; [constructor|]. split; [constructor|reflexivity].
  - cbn [in_sequence] in Hseq. destruct Hseq as [Ha Hseq].
    destruct Hen as [_ [p [eb [g [_ [Hb [_ [_ [_ [_ [_ [Ht _]]]]]]]]]]]].
    destruct Hex as [e [xb [g' [He [Hxb [_ [_ [_ [_ [_ [Hxt _]]]]]]]]]]].
    cbn [trade_times]. rewrite He in Hseq |- *.
    destruct Hseq as [Hlt Hseq].
    destruct (IH _ Hseq) as [Hsorted [Hall Hlen]].
    assert (Forall (fun time => exit_time e < time) (trade_times rest))
      as Hafter.
    { eapply Forall_impl; [|exact Hall]. cbn.
      intros time [n [b [Hn [Hbn ->]]]]. rewrite Hxt.
      exact (bar_at_increasing bars _ _ _ _ Hs Hxb Hbn Hn). }
    assert (entry_time t < exit_time e) as Hheld.
    { rewrite Ht, Hxt.
      exact (bar_at_increasing bars _ _ _ _ Hs Hb Hxb Hlt). }
    split; [|split].
    + constructor.
      * constructor; [exact Hsorted|exact Hafter].
      * constructor; [exact Hheld|].
        eapply Forall_impl; [|exact Hafter]. cbn. intros; lia.
    + constructor; [exists (entry_candle t), eb; repeat split;
                    assumption|].
      constructor; [exists (exit_candle e), xb; repeat split;
                    [lia|assumption..]|].
      eapply Forall_impl; [|exact Hall]. cbn.
      intros time [n [b [Hn H]]]. exists n, b. split; [lia|exact H].
    + cbn [List.length]. rewrite Hlen. lia.
Qed.

(** X20.  When the bars that reach [next] carry strictly increasing
    timestamps, the trade log of the backtest is in chronological
    order: every logged trade has its exit time, and the times read
    along the log (entry, exit, next entry, next exit, and so on)
    strictly increase, so a trade is exited after it was entered and
    before the next one is entered, and no two trades share an entry
    time. *)
Theorem logged_times_increase (bars : list Bar) :
  StronglySorted Z.lt (map index bars) ->
  let log := Backtest.trades_log (fst (Backtest.run Backtest.init bars)) in
  StronglySorted Z.lt (trade_times log) /\
  List.length (trade_times log) = (2 * List.length log)%nat /\
  NoDup (map entry_time log).
Proof.
  intros Hs. cbv zeta.
  destruct (backtest_log_invariant bars) as [Iall [Iseq _]].
  cbv zeta in Iall, Iseq.
  set (log := Backtest.trades_log (fst (Backtest.run Backtest.init bars)))
    in *.
  assert (Forall (fun t => entry_explained bars t /\ exit_explained bars t)
            log) as Hex.
  { eapply Forall_impl; [|exact Iall]. cbn. intros t [_ H]. exact H. }
  destruct (trade_times_increasing bars log Hs Hex 0 Iseq)
    as [Hsorted [_ Hlen]].
  split; [exact Hsorted|]. split; [exact Hlen|].
  clear Iall Iseq Hlen. revert Hsorted Hex.
  induction log as [|t rest IH]; intros Hsorted Hex; [constructor|].
  inversion Hex as [|? ? [_ [e [xb [g [He _]]]]] Hrest]; subst.
  cbn [trade_times] in Hsorted. rewrite He in Hsorted.
  inversion Hsorted as [|? ? Htail Hhead]; subst.
  inversion Htail as [|? ? Htail' _]; subst.
  inversion Hhead as [|? ? _ Hhead']; subst.
  cbn [map]. constructor; [|exact (IH Htail' Hrest)].
  intros Hin. apply in_map_iff in Hin. destruct Hin as [t' [Et Hin]].
  assert (In (entry_time t') (trade_times rest)) as Hin'.
  { clear - Hin. induction rest as [|r rest IH]; [destruct Hin|].
    cbn [trade_times]. destruct Hin as [->|Hin]; [left; reflexivity|].
    right. destruct (exit_keys r); [right|]; exact (IH Hin). }
  rewrite Forall_forall in Hhead'. specialize (Hhead' _ Hin'). lia.
Qed.

Lemma logged_times_increase_witness :
  StronglySorted Z.lt (map index sample_bars) /\
  trade_times
    (Backtest.trades_log (fst (Backtest.run Backtest.init sample_bars)))
  = [360; 480; 540; 600] /\
  StronglySorted Z.lt
    (trade_times
       (Backtest.trades_log
          (fst (Backtest.run Backtest.init sample_bars)))).
Proof.
  assert (StronglySorted Z.lt (map index sample_bars)) as Hs.
  { repeat (constructor; [|repeat (constructor; [reflexivity|]);
                           constructor]).
    constructor. }
  split; [exact Hs|]. split; [vm_compute; reflexivity|].
  exact (proj1 (logged_times_increase sample_bars Hs)).
Defined.

(** ** A position entered at price zero *)

Lemma same_entry_refl (t : Trade) : same_entry t t.
Proof. repeat split. Qed.

Lemma live_decide_stuck (self : Live.LiveTrader)
    (completed : option Candle) (ts : Z) (price : float) (order_ok : bool)
    (t : Trade) :
  Live.current_trade self = Some t ->
  PrimFloat.eqb (entry_price t) 0%float = true ->
  let r := Live.decide self completed ts price order_ok in
  Live.trade_file (fst r) = Live.trade_file self /\
  (exists t', Live.current_trade (fst r) = Some t' /\ same_entry t t') /\
  no_entry_failed_exit (snd r).
Proof.
  intros Ht Hz. unfold Live.decide.
  destruct ((len (Live.ltf_candles self) <? 2)
            || (len (Live.htf_candles self) <? 1)).
  { cbn [fst snd]. split; [reflexivity|]. split; [|exact I].
    exists t. split; [exact Ht|apply same_entry_refl]. }
  destruct (live_call_strategy self) as [sg [Ec _]]. rewrite Ec.
  unfold Live.execute_orders. rewrite Ht.
  destruct sg.
  - cbn [fst snd]. split; [reflexivity|]. split; [|exact I].
    exists t. split; [exact Ht|apply same_entry_refl].
  - destruct order_ok.
    + cbn [update_exit entry_price]. unfold truediv. rewrite Hz.
      cbn [fst snd]. split; [destruct self; reflexivity|].
      split; [|left; reflexivity].
      eexists. split; [destruct self; reflexivity|]. repeat split.
    + cbn [fst snd]. split; [reflexivity|].
      split; [|right; reflexivity].
      exists t. split; [exact Ht|apply same_entry_refl].
  - cbn [fst snd]. split; [reflexivity|]. split; [|exact I].
    exists t. split; [exact Ht|apply same_entry_refl].
Qed.

Lemma live_tick_stuck (self : Live.LiveTrader) (candle_ltf : Candle)
    (ts : Z) (order_ok : bool) (t : Trade) :
  Live.current_trade self = Some t ->
  PrimFloat.eqb (entry_price t) 0%float = true ->
  let r := Live.tick self candle_ltf ts order_ok in
  Live.trade_file (fst r) = Live.trade_file self /\
  (exists t', Live.current_trade (fst r) = Some t' /\ same_entry t t') /\
  no_entry_failed_exit (snd r).
Proof.
  intros Ht Hz. unfold Live.tick.
  destruct (live_prepare self candle_ltf ts)
    as [mid [E [_ [_ [_ [Hc [Hf _]]]]]]].
  rewrite E. cbv zeta. rewrite <- Hc in Ht.
  destruct (live_decide_stuck mid
              (snd (Engine.step (live_aggregation self) candle_ltf))
              ts (close candle_ltf) order_ok t Ht Hz) as [D1 [D2 D3]].
  rewrite D1, Hf. split; [reflexivity|]. split; assumption.
Qed.

(** X21.  A live position that was entered at price zero is never
    closed.  Whatever candles follow and whatever the venue answers, the
    trader keeps a position with the same entry keys, writes no further
    row to live_trades.csv and never buys again; each of its SELL
    attempts ends in an exception: the order call fails, or it returns
    and the P&L percentage divides by the zero entry price, after the
    sell order was sent. *)
Theorem zero_entry_position_never_closes (ticks : list (Bar * bool)) :
  forall (self : Live.LiveTrader) (t : Trade),
    Live.current_trade self = Some t ->
    PrimFloat.eqb (entry_price t) 0%float = true ->
    let r := Live.feed self ticks in
    Live.trade_file (fst r) = Live.trade_file self /\
    (exists t', Live.current_trade (fst r) = Some t' /\ same_entry t t') /\
    Forall no_entry_failed_exit (snd r).
Proof.
  induction ticks as [|[b ok] rest IH]; intros self t Ht Hz.
  - cbn. split; [reflexivity|]. split; [|constructor].
    exists t. split; [exact Ht|apply same_entry_refl].
  - cbv zeta. rewrite live_feed_cons. cbn [fst snd].
    destruct (live_tick_stuck self (candle_of b) (index b) ok t Ht Hz)
      as [T1 [[t1 [T2 S1]] T3]].
    assert (PrimFloat.eqb (entry_price t1) 0%float = true) as Hz1.
    { destruct S1 as [_ [_ [_ [-> _]]]]. exact Hz. }
    destruct (IH (fst (Live.tick self (candle_of b) (index b) ok)) t1
                T2 Hz1) as [I1 [[t2 [I2 S2]] I3]].
    rewrite I1, T1. split; [reflexivity|]. split.
    + exists t2. split; [exact I2|].
      unfold same_entry in *. intuition congruence.
    + constructor; assumption.
Qed.

Lemma zero_entry_position_never_closes_witness :
  let self :=
    fst (Live.feed (Live.init "BTCUSDT")
           (all_orders_ok (firstn 7 zero_entry_bars))) in
  let t := open_trade "BTCUSDT" 360 0%float 7 1 in
  Live.current_trade self = Some t /\
  PrimFloat.eqb (entry_price t) 0%float = true /\
  Live.trade_file
    (fst (Live.feed self (all_orders_ok (skipn 7 zero_entry_bars))))
  = Live.trade_file self /\
  Forall no_entry_failed_exit
    (snd (Live.feed self (all_orders_ok (skipn 7 zero_entry_bars)))).
Proof.
  cbv zeta.
  assert (Live.current_trade
            (fst (Live.feed (Live.init "BTCUSDT")
                    (all_orders_ok (firstn 7 zero_entry_bars))))
          = Some (open_trade "BTCUSDT" 360 0%float 7 1)) as Ht
      by (vm_compute; reflexivity).
  assert (PrimFloat.eqb
            (entry_price (open_trade "BTCUSDT" 360 0%float 7 1)) 0%float
          = true) as Hz by reflexivity.
  split; [exact Ht|]. split; [exact Hz|].
  destruct (zero_entry_position_never_closes
              (all_orders_ok (skipn 7 zero_entry_bars)) _ _ Ht Hz)
    as [H1 [_ H3]].
  split; [exact H1|exact H3].
Defined.
